(** * SceneManager: texture registry, material registry, transform composer
      and scene script of [Source/SceneManager.cpp]

    The development embeds the methods of the C++ class [SceneManager] as
    Rocq functions over an explicit object state and an explicit trace of
    the calls made to the external collaborators (ShaderManager,
    ShapeMeshes, stb_image, OpenGL, std::cout).

    Conventions.
    - A C++ [int] is a [Z]; a [GLuint] is a [Z] in [0, 2^32); the
      conversion from [GLuint] to [int] is written out ([int_of_GLuint]).
    - A [float] is represented by the exact value of the decimal literal
      that denotes it (a [Q]).  The file performs no arithmetic on floats:
      all arithmetic happens inside GLM, and a GLM matrix is represented
      by the GLM expression that computes it.
    - An access outside a raw array, a dereference of a null pointer:
      the outcome [Undefined]. *)

From Stdlib Require Import ZArith QArith Lia List String.
From stdpp Require Import base list strings.

Open Scope string_scope.
Open Scope list_scope.
Open Scope Z_scope.

(** ** Outcomes: a result, or undefined behaviour *)

Inductive outcome (A : Type) : Type :=
| Ok (a : A)
| Undefined.
Arguments Ok {A} a.
Arguments Undefined {A}.

Definition obind {A B} (o : outcome A) (k : A -> outcome B) : outcome B :=
  match o with
  | Ok a => k a
  | Undefined => Undefined
  end.

Notation "'let*' x ':=' o 'in' k" := (obind o (fun x => k))
  (at level 10, x pattern, o at level 100, k at level 200).

(** ** Data: floats, GLM vectors and matrices *)

Definition float : Type := Q.
Bind Scope Q_scope with float.

Record vec2 := Vec2 { v2_x : float; v2_y : float }.
Record vec3 := Vec3 { v3_x : float; v3_y : float; v3_z : float }.
Record vec4 := Vec4 { v4_r : float; v4_g : float; v4_b : float; v4_a : float }.

(** [glm::radians(degrees)]: an angle in radians. *)
Inductive radians : Type :=
| glm_radians (degrees : float).

(** A [glm::mat4] is the GLM expression that computes it.  [mat4_mul a b]
    is the C++ [a * b]. *)
Inductive mat4 : Type :=
| glm_scale (v : vec3)
| glm_rotate (angle : radians) (axis : vec3)
| glm_translate (v : vec3)
| mat4_mul (a b : mat4).

Declare Scope mat4_scope.
Delimit Scope mat4_scope with mat4.
Bind Scope mat4_scope with mat4.
Infix "*" := mat4_mul : mat4_scope.

(** ** Data: the records of SceneManager.h, as the code uses them *)

(** [TEXTURE_INFO]: the fields the code reads and writes. [ID] is a
    [GLuint] (it is passed to [glGenTextures] by address). *)
Record TEXTURE_INFO := {
  ID : Z;
  tag : string
}.

(** [OBJECT_MATERIAL]: the fields the code reads and writes; [mtag] is
    its member [tag]. *)
Record OBJECT_MATERIAL := {
  ambientColor : vec3;
  ambientStrength : float;
  diffuseColor : vec3;
  specularColor : vec3;
  shininess : float;
  mtag : string
}.

(** Modelled from the spec: the capacity of the array [m_textureIDs],
    declared in SceneManager.h: "16 entries capacity implied by texture
    unit limits". *)
Definition MAX_TEXTURES : Z := 16.

(** A possibly null pointer to an external object. *)
Inductive pointer : Type :=
| NULL
| Ptr (addr : positive).

Definition is_null (p : pointer) : bool :=
  match p with NULL => true | Ptr _ => false end.

(** The data members of a [SceneManager] object. *)
Record SceneManager := {
  m_pShaderManager : pointer;
  m_textureIDs : list TEXTURE_INFO;
  m_loadedTextures : Z;
  m_objectMaterials : list OBJECT_MATERIAL
}.

(** ** The external world: calls made, values received *)

(** What [stbi_load] reports for a decoded image. *)
Record Image := {
  width : Z;
  height : Z;
  colorChannels : Z
}.

Inductive mesh : Type :=
| PlaneMesh | BoxMesh | TaperedCylinderMesh | PrismMesh | Pyramid3Mesh.

(** OpenGL enumerants used by the code. *)
Definition GL_TEXTURE_2D : Z := 0x0DE1.
Definition GL_TEXTURE_WRAP_S : Z := 0x2802.
Definition GL_TEXTURE_WRAP_T : Z := 0x2803.
Definition GL_TEXTURE_MIN_FILTER : Z := 0x2801.
Definition GL_TEXTURE_MAG_FILTER : Z := 0x2800.
Definition GL_REPEAT : Z := 0x2901.
Definition GL_LINEAR : Z := 0x2601.
Definition GL_RGB : Z := 0x1907.
Definition GL_RGBA : Z := 0x1908.
Definition GL_RGB8 : Z := 0x8051.
Definition GL_RGBA8 : Z := 0x8058.
Definition GL_UNSIGNED_BYTE : Z := 0x1401.
Definition GL_TEXTURE0 : Z := 0x84C0.

(** What is written to [std::cout]. *)
Inductive message : Type :=
| msg_loaded (filename : string) (w h channels : Z)
| msg_not_implemented (channels : Z)
| msg_could_not_load (filename : string).

(** One call to an external collaborator, with the values passed (and,
    for [stbi_load] and [glGenTextures], the value received). *)
Inductive event : Type :=
(* ShaderManager *)
| setMat4Value (name : string) (value : mat4)
| setIntValue (name : string) (value : Z)
| setBoolValue (name : string) (value : bool)
| setFloatValue (name : string) (value : float)
| setVec2Value (name : string) (value : vec2)
| setVec3Value (name : string) (value : vec3)
| setVec4Value (name : string) (value : vec4)
| setSampler2DValue (name : string) (value : Z)
(* ShapeMeshes *)
| LoadMesh (m : mesh)
| DrawMesh (m : mesh)
(* stb_image *)
| stbi_set_flip_vertically_on_load (flag : bool)
| stbi_load (filename : string) (result : option Image)
| stbi_image_free
(* OpenGL *)
| glGenTextures (name : Z)
| glBindTexture (target texture : Z)
| glTexParameteri (target pname param : Z)
| glTexImage2D (target level internalformat w h border format type : Z)
| glGenerateMipmap (target : Z)
| glActiveTexture (texture : Z)
(* std::cout *)
| cout (m : message).

(** The values the program receives from outside. *)
Record Env := {
  (** the result of decoding the file of that name; [None] is the null
      pointer *)
  env_stbi_load : string -> option Image;
  (** the texture name [glGenTextures] hands out after the given calls *)
  env_gen_texture : list event -> Z;
  (** the content of a default-constructed [OBJECT_MATERIAL] local, whose
      numeric fields are not initialised *)
  env_indeterminate : OBJECT_MATERIAL
}.

(** The state of a run: the object and the calls made so far. *)
Record World := {
  this : SceneManager;
  trace : list event
}.

Definition emit (evs : list event) (w : World) : World :=
  {| this := this w; trace := trace w ++ evs |}.

(** ** Global names *)

Definition g_ModelName : string := "model".
Definition g_ColorValueName : string := "objectColor".
Definition g_TextureValueName : string := "objectTexture".
Definition g_UseTextureName : string := "bUseTexture".
Definition g_UseLightingName : string := "bUseLighting".

(** ** Raw arrays and integer conversions *)

(** [a[i]] on a raw array: undefined outside the array. *)
Definition array_get {A} (a : list A) (i : Z) : outcome A :=
  if 0 <=? i then
    match a !! Z.to_nat i with
    | Some x => Ok x
    | None => Undefined
    end
  else Undefined.

(** [a[i] = x] on a raw array: undefined outside the array. *)
Definition array_set {A} (a : list A) (i : Z) (x : A) : outcome (list A) :=
  if (0 <=? i) && (i <? Z.of_nat (length a)) then Ok (<[Z.to_nat i := x]> a)
  else Undefined.

(** The conversion of a [GLuint] to [int]: modulo 2^32 into
    [-2^31, 2^31). *)
Definition int_of_GLuint (u : Z) : Z :=
  (u + 2 ^ 31) mod 2 ^ 32 - 2 ^ 31.

(** [std::string::compare(...) == 0]. *)
Definition compare_eq0 (a b : string) : bool := String.eqb a b.

(** ** FindTextureID, FindTextureSlot *)

(** The [while] loop of [FindTextureID], entered with [textureID = -1] and
    [bFound = false]; [remaining] is [m_loadedTextures - index], so the
    condition [index < m_loadedTextures] is [remaining <> 0].  Setting
    [bFound] ends the loop with the ID found, converted to the [int] that
    is returned. *)
Fixpoint FindTextureID_loop (remaining : nat) (m_textureIDs : list TEXTURE_INFO)
    (tag0 : string) (index : Z) : outcome Z :=
  match remaining with
  | O => Ok (-1)
  | S remaining' =>
      let* e := array_get m_textureIDs index in
      if compare_eq0 (tag e) tag0 then Ok (int_of_GLuint (ID e))
      else FindTextureID_loop remaining' m_textureIDs tag0 (index + 1)
  end.

Definition FindTextureID (s : SceneManager) (tag0 : string) : outcome Z :=
  FindTextureID_loop (Z.to_nat (m_loadedTextures s - 0)) (m_textureIDs s) tag0 0.

(** The [while] loop of [FindTextureSlot]: the same scan, ended with the
    index found. *)
Fixpoint FindTextureSlot_loop (remaining : nat) (m_textureIDs : list TEXTURE_INFO)
    (tag0 : string) (index : Z) : outcome Z :=
  match remaining with
  | O => Ok (-1)
  | S remaining' =>
      let* e := array_get m_textureIDs index in
      if compare_eq0 (tag e) tag0 then Ok index
      else FindTextureSlot_loop remaining' m_textureIDs tag0 (index + 1)
  end.

Definition FindTextureSlot (s : SceneManager) (tag0 : string) : outcome Z :=
  FindTextureSlot_loop (Z.to_nat (m_loadedTextures s - 0)) (m_textureIDs s) tag0 0.

(** ** FindMaterial *)

(** The five assignments of [FindMaterial] to the output parameter; its
    [tag] member is not assigned. *)
Definition assign_material (src material : OBJECT_MATERIAL) : OBJECT_MATERIAL :=
  {| ambientColor := ambientColor src;
     ambientStrength := ambientStrength src;
     diffuseColor := diffuseColor src;
     specularColor := specularColor src;
     shininess := shininess src;
     mtag := mtag material |}.

(** The [while] loop of [FindMaterial] over the elements of
    [m_objectMaterials] from [index] on: the first element with the tag is
    copied into [material] and ends the loop. *)
Fixpoint FindMaterial_loop (from_index : list OBJECT_MATERIAL) (tag0 : string)
    (material : OBJECT_MATERIAL) : OBJECT_MATERIAL :=
  match from_index with
  | [] => material
  | m :: rest =>
      if compare_eq0 (mtag m) tag0 then assign_material m material
      else FindMaterial_loop rest tag0 material
  end.

(** [FindMaterial(tag, material)]: the value returned and the output
    parameter after the call. *)
Definition FindMaterial (s : SceneManager) (tag0 : string)
    (material : OBJECT_MATERIAL) : bool * OBJECT_MATERIAL :=
  if Z.of_nat (length (m_objectMaterials s)) =? 0 then (false, material)
  else (true, FindMaterial_loop (m_objectMaterials s) tag0 material).

(** ** Shader setters *)

Definition SetTransformations (scaleXYZ : vec3)
    (XrotationDegrees YrotationDegrees ZrotationDegrees : float)
    (positionXYZ : vec3) (w : World) : World :=
  let scale := glm_scale scaleXYZ in
  let rotationX := glm_rotate (glm_radians XrotationDegrees) (Vec3 1.0 0.0 0.0) in
  let rotationY := glm_rotate (glm_radians YrotationDegrees) (Vec3 0.0 1.0 0.0) in
  let rotationZ := glm_rotate (glm_radians ZrotationDegrees) (Vec3 0.0 0.0 1.0) in
  let translation := glm_translate positionXYZ in
  let modelView := (translation * rotationZ * rotationY * rotationX * scale)%mat4 in
  if negb (is_null (m_pShaderManager (this w))) then
    emit [setMat4Value g_ModelName modelView] w
  else w.

Definition SetShaderColor (redColorValue greenColorValue blueColorValue alphaValue : float)
    (w : World) : World :=
  let currentColor :=
    {| v4_r := redColorValue; v4_g := greenColorValue;
       v4_b := blueColorValue; v4_a := alphaValue |} in
  if negb (is_null (m_pShaderManager (this w))) then
    emit [setIntValue g_UseTextureName (Z.b2z false);
          setVec4Value g_ColorValueName currentColor] w
  else w.

Definition SetShaderTexture (textureTag : string) (w : World) : outcome World :=
  if negb (is_null (m_pShaderManager (this w))) then
    let w1 := emit [setIntValue g_UseTextureName (Z.b2z true)] w in
    let* textureID := FindTextureSlot (this w1) textureTag in
    Ok (emit [setSampler2DValue g_TextureValueName textureID] w1)
  else Ok w.

Definition SetTextureUVScale (u v : float) (w : World) : World :=
  if negb (is_null (m_pShaderManager (this w))) then
    emit [setVec2Value "UVscale" (Vec2 u v)] w
  else w.

(** [m_pShaderManager->...]: undefined on a null pointer. *)
Definition deref (p : pointer) : outcome unit :=
  if is_null p then Undefined else Ok tt.

Definition SetShaderMaterial (env : Env) (materialTag : string) (w : World)
    : outcome World :=
  if Z.of_nat (length (m_objectMaterials (this w))) >? 0 then
    let material := env_indeterminate env in
    let '(bReturn, material) := FindMaterial (this w) materialTag material in
    if bReturn then
      let* _ := deref (m_pShaderManager (this w)) in
      Ok (emit [setVec3Value "material.diffuseColor" (diffuseColor material);
                setVec3Value "material.specularColor" (specularColor material);
                setFloatValue "material.shininess" (shininess material);
                setVec3Value "material.ambientColor" (ambientColor material);
                setFloatValue "material.ambientStrength" (ambientStrength material)] w)
    else Ok w
  else Ok w.

(** ** CreateGLTexture, BindGLTextures, DestroyGLTextures *)

Definition set_this (s : SceneManager) (w : World) : World :=
  {| this := s; trace := trace w |}.

Definition set_textureIDs (a : list TEXTURE_INFO) (s : SceneManager) : SceneManager :=
  {| m_pShaderManager := m_pShaderManager s;
     m_textureIDs := a;
     m_loadedTextures := m_loadedTextures s;
     m_objectMaterials := m_objectMaterials s |}.

Definition set_loadedTextures (n : Z) (s : SceneManager) : SceneManager :=
  {| m_pShaderManager := m_pShaderManager s;
     m_textureIDs := m_textureIDs s;
     m_loadedTextures := n;
     m_objectMaterials := m_objectMaterials s |}.

Definition set_objectMaterials (l : list OBJECT_MATERIAL) (s : SceneManager)
    : SceneManager :=
  {| m_pShaderManager := m_pShaderManager s;
     m_textureIDs := m_textureIDs s;
     m_loadedTextures := m_loadedTextures s;
     m_objectMaterials := l |}.

(** [m_textureIDs[i].ID = v]. *)
Definition store_ID (i v : Z) (s : SceneManager) : outcome SceneManager :=
  let* e := array_get (m_textureIDs s) i in
  let* a := array_set (m_textureIDs s) i {| ID := v; tag := tag e |} in
  Ok (set_textureIDs a s).

(** [m_textureIDs[i].tag = t]. *)
Definition store_tag (i : Z) (t : string) (s : SceneManager) : outcome SceneManager :=
  let* e := array_get (m_textureIDs s) i in
  let* a := array_set (m_textureIDs s) i {| ID := ID e; tag := t |} in
  Ok (set_textureIDs a s).

Definition CreateGLTexture (env : Env) (filename tag0 : string) (w : World)
    : outcome (bool * World) :=
  let image := env_stbi_load env filename in
  let w := emit [stbi_set_flip_vertically_on_load true; stbi_load filename image] w in
  match image with
  | Some img =>
      let w := emit [cout (msg_loaded filename (width img) (height img)
                             (colorChannels img))] w in
      let textureID := env_gen_texture env (trace w) in
      let w := emit [glGenTextures textureID;
                     glBindTexture GL_TEXTURE_2D textureID;
                     glTexParameteri GL_TEXTURE_2D GL_TEXTURE_WRAP_S GL_REPEAT;
                     glTexParameteri GL_TEXTURE_2D GL_TEXTURE_WRAP_T GL_REPEAT;
                     glTexParameteri GL_TEXTURE_2D GL_TEXTURE_MIN_FILTER GL_LINEAR;
                     glTexParameteri GL_TEXTURE_2D GL_TEXTURE_MAG_FILTER GL_LINEAR] w in
      let after_upload (w : World) : outcome (bool * World) :=
        let w := emit [glGenerateMipmap GL_TEXTURE_2D;
                       stbi_image_free;
                       glBindTexture GL_TEXTURE_2D 0] w in
        let* s := store_ID (m_loadedTextures (this w)) textureID (this w) in
        let* s := store_tag (m_loadedTextures s) tag0 s in
        let s := set_loadedTextures (m_loadedTextures s + 1) s in
        Ok (true, set_this s w) in
      if colorChannels img =? 3 then
        after_upload
          (emit [glTexImage2D GL_TEXTURE_2D 0 GL_RGB8 (width img) (height img) 0
                   GL_RGB GL_UNSIGNED_BYTE] w)
      else if colorChannels img =? 4 then
        after_upload
          (emit [glTexImage2D GL_TEXTURE_2D 0 GL_RGBA8 (width img) (height img) 0
                   GL_RGBA GL_UNSIGNED_BYTE] w)
      else
        Ok (false, emit [cout (msg_not_implemented (colorChannels img))] w)
  | None =>
      Ok (false, emit [cout (msg_could_not_load filename)] w)
  end.

(** The [for] loop of [BindGLTextures]; [remaining] is
    [m_loadedTextures - i]. *)
Fixpoint BindGLTextures_loop (remaining : nat) (i : Z) (w : World) : outcome World :=
  match remaining with
  | O => Ok w
  | S remaining' =>
      let* e := array_get (m_textureIDs (this w)) i in
      BindGLTextures_loop remaining' (i + 1)
        (emit [glActiveTexture (GL_TEXTURE0 + i);
               glBindTexture GL_TEXTURE_2D (ID e)] w)
  end.

Definition BindGLTextures (w : World) : outcome World :=
  BindGLTextures_loop (Z.to_nat (m_loadedTextures (this w) - 0)) 0 w.

(** The [for] loop of [DestroyGLTextures]: each [glGenTextures] call
    stores a new name in [m_textureIDs[i].ID]. *)
Fixpoint DestroyGLTextures_loop (env : Env) (remaining : nat) (i : Z) (w : World)
    : outcome World :=
  match remaining with
  | O => Ok w
  | S remaining' =>
      let name := env_gen_texture env (trace w) in
      let* s := store_ID i name (this w) in
      DestroyGLTextures_loop env remaining' (i + 1)
        (emit [glGenTextures name] (set_this s w))
  end.

Definition DestroyGLTextures (env : Env) (w : World) : outcome World :=
  DestroyGLTextures_loop env (Z.to_nat (m_loadedTextures (this w) - 0)) 0 w.

(** ** DefineObjectMaterials, SetupSceneLights *)

Definition shinyMaterial : OBJECT_MATERIAL :=
  {| ambientColor := Vec3 0.3 0.1 0.1;
     ambientStrength := 0.1;
     diffuseColor := Vec3 0.3 0.3 0.3;
     specularColor := Vec3 0.5 0.5 0.5;
     shininess := 64.0;
     mtag := "metal" |}.

Definition dullMaterial : OBJECT_MATERIAL :=
  {| ambientColor := Vec3 0.1 0.1 0.1;
     ambientStrength := 0.1;
     diffuseColor := Vec3 0.3 0.3 0.3;
     specularColor := Vec3 0.1 0.1 0.1;
     shininess := 16.0;
     mtag := "wood" |}.

(** [m_objectMaterials.push_back(m)]. *)
Definition push_back (m : OBJECT_MATERIAL) (s : SceneManager) : SceneManager :=
  set_objectMaterials (m_objectMaterials s ++ [m]) s.

Definition DefineObjectMaterials (w : World) : World :=
  let w := set_this (push_back shinyMaterial (this w)) w in
  set_this (push_back dullMaterial (this w)) w.

Definition SetupSceneLights (w : World) : outcome World :=
  let* _ := deref (m_pShaderManager (this w)) in
  Ok (emit
    [setBoolValue g_UseLightingName true;
     (* light 1 *)
     setVec3Value "lightSources[0].position" (Vec3 (-7.0) 7.0 10.0);
     setVec3Value "lightSources[0].ambientColor" (Vec3 0.8 0.8 0.7);
     setVec3Value "lightSources[0].diffuseColor" (Vec3 1.0 0.95 0.85);
     setVec3Value "lightSources[0].specularColor" (Vec3 1.0 1.0 1.0);
     setFloatValue "lightSources[0].focalStrength" 32.0;
     setFloatValue "lightSources[0].specularIntensity" 0.7;
     (* light 2 *)
     setVec3Value "lightSources[1].position" (Vec3 7.0 (-6.0) 1.0);
     setVec3Value "lightSources[1].ambientColor" (Vec3 0.8 0.8 0.7);
     setVec3Value "lightSources[1].diffuseColor" (Vec3 1.0 0.95 0.85);
     setVec3Value "lightSources[1].specularColor" (Vec3 1.0 1.0 1.0);
     setFloatValue "lightSources[1].focalStrength" 32.0;
     setFloatValue "lightSources[1].specularIntensity" 0.7;
     (* light 3 *)
     setVec3Value "lightSources[2].position" (Vec3 7.0 7.0 5.0);
     setVec3Value "lightSources[2].ambientColor" (Vec3 0.8 0.8 0.7);
     setVec3Value "lightSources[2].diffuseColor" (Vec3 1.0 0.95 0.85);
     setVec3Value "lightSources[2].specularColor" (Vec3 1.0 1.0 1.0);
     setFloatValue "lightSources[2].focalStrength" 16.0;
     setFloatValue "lightSources[2].specularIntensity" 0.7;
     (* light 4 *)
     setVec3Value "lightSources[3].position" (Vec3 (-7.0) (-6.0) 1.0);
     setVec3Value "lightSources[3].ambientColor" (Vec3 0.8 0.8 0.7);
     setVec3Value "lightSources[3].diffuseColor" (Vec3 1.0 0.95 0.85);
     setVec3Value "lightSources[3].specularColor" (Vec3 1.0 1.0 1.0);
     setFloatValue "lightSources[3].focalStrength" 32.0;
     setFloatValue "lightSources[3].specularIntensity" 0.7] w).

(** ** PrepareScene *)

(** The [CreateGLTexture(filename, tag)] calls of [PrepareScene], in
    order. *)
Definition PrepareScene_textures : list (string * string) :=
  [("textures/Brick.jpg", "brick");
   ("textures/Wood Test.jpg", "wood");
   ("textures/Wall.jpg", "wall");
   ("textures/Grass.jpg", "grass");
   ("textures/PatternCement.jpeg", "cement");
   ("textures/LightTan.jpg", "beam");
   ("textures/door.jpg", "door");
   ("textures/outergreen.jpg", "outergreen");
   ("textures/concrete.jpeg", "concrete");
   ("textures/roof.jpg", "roof");
   ("textures/glass.jpg", "window");
   ("textures/garagedoor.jpg", "garage")].

(** [bReturn = CreateGLTexture(...)] for each pair of the list; the value
    returned is overwritten and never read. *)
Fixpoint load_textures (env : Env) (l : list (string * string)) (w : World)
    : outcome World :=
  match l with
  | [] => Ok w
  | (filename, tag0) :: rest =>
      let* (bReturn, w') := CreateGLTexture env filename tag0 w in
      load_textures env rest w'
  end.

Definition PrepareScene (env : Env) (w : World) : outcome World :=
  let w := emit [LoadMesh PlaneMesh; LoadMesh BoxMesh; LoadMesh TaperedCylinderMesh;
                 LoadMesh PrismMesh; LoadMesh Pyramid3Mesh] w in
  let* w := load_textures env PrepareScene_textures w in
  BindGLTextures w.

(** ** RenderScene *)

(** One call statement of the body of [RenderScene], with the values its
    arguments have at the call: the locals [scaleXYZ], [XrotationDegrees],
    [YrotationDegrees], [ZrotationDegrees] and [positionXYZ] are assigned
    literals only. *)
Inductive call : Type :=
| call_SetTransformations (scaleXYZ : vec3)
    (XrotationDegrees YrotationDegrees ZrotationDegrees : float) (positionXYZ : vec3)
| call_SetShaderColor (r g b a : float)
| call_SetShaderTexture (textureTag : string)
| call_SetTextureUVScale (u v : float)
| call_SetShaderMaterial (materialTag : string)
| call_Draw (m : mesh).

Definition exec_call (env : Env) (c : call) (w : World) : outcome World :=
  match c with
  | call_SetTransformations s x y z p => Ok (SetTransformations s x y z p w)
  | call_SetShaderColor r g b a => Ok (SetShaderColor r g b a w)
  | call_SetShaderTexture t => SetShaderTexture t w
  | call_SetTextureUVScale u v => Ok (SetTextureUVScale u v w)
  | call_SetShaderMaterial t => SetShaderMaterial env t w
  | call_Draw m => Ok (emit [DrawMesh m] w)
  end.

Fixpoint exec_calls (env : Env) (cs : list call) (w : World) : outcome World :=
  match cs with
  | [] => Ok w
  | c :: rest =>
      let* w' := exec_call env c w in
      exec_calls env rest w'
  end.

Definition RenderScene_body : list call :=
  [
    call_SetTransformations (Vec3 20.0 1.0 10.0) 0.0 0.0 0.0 (Vec3 0.0 0.0 0.0);
    call_SetShaderColor 0.5 0.5 0.5 1;
    call_SetShaderTexture "grass";
    call_SetTextureUVScale 1 1;
    call_SetShaderMaterial "metal";
    call_Draw PlaneMesh;

    call_SetTransformations (Vec3 20.0 1.0 10.0) 90.0 0.0 0.0 (Vec3 0.0 9.0 (-10.0));
    call_SetShaderColor 0.55 0.55 0.55 1;
    call_SetShaderMaterial "metal";
    call_Draw PlaneMesh;

    call_SetTransformations (Vec3 1.0 0.5 1.0) 0.0 0.0 0.0 (Vec3 6.75 0.25 3.0);
    call_SetShaderColor 0.25 0.17 0.07 1;
    call_SetShaderTexture "wood";
    call_SetTextureUVScale 1 0.5;
    call_SetShaderMaterial "wood";
    call_Draw BoxMesh;

    call_SetTransformations (Vec3 0.3 3.0 0.3) 0.0 0.0 0.0 (Vec3 6.75 0.5 3.0);
    call_SetShaderColor 0.4 0.2 0.1 1;
    call_SetShaderTexture "wood";
    call_SetTextureUVScale 1.8 3.0;
    call_SetShaderMaterial "wood";
    call_Draw TaperedCylinderMesh;

    call_SetTransformations (Vec3 1.0 0.5 1.0) 0.0 0.0 0.0 (Vec3 4.75 0.25 3.0);
    call_SetShaderColor 0.25 0.17 0.07 1;
    call_SetShaderTexture "wood";
    call_SetTextureUVScale 1 0.5;
    call_SetShaderMaterial "wood";
    call_Draw BoxMesh;

    call_SetTransformations (Vec3 0.3 3.0 0.3) 0.0 0.0 0.0 (Vec3 4.75 0.5 3.0);
    call_SetShaderColor 0.4 0.2 0.1 1;
    call_SetShaderTexture "wood";
    call_SetTextureUVScale 1.8 3.0;
    call_SetShaderMaterial "wood";
    call_Draw TaperedCylinderMesh;

    call_SetTransformations (Vec3 1.0 0.5 1.0) 0.0 0.0 0.0 (Vec3 0.25 0.25 3.0);
    call_SetShaderColor 0.25 0.17 0.07 1;
    call_SetShaderTexture "wood";
    call_SetTextureUVScale 1 0.5;
    call_SetShaderMaterial "wood";
    call_Draw BoxMesh;

    call_SetTransformations (Vec3 0.3 3.0 0.3) 0.0 0.0 0.0 (Vec3 0.25 0.5 3.0);
    call_SetShaderColor 0.4 0.2 0.1 1;
    call_SetShaderTexture "wood";
    call_SetTextureUVScale 1.8 3.0;
    call_SetShaderMaterial "wood";
    call_Draw TaperedCylinderMesh;

    call_SetTransformations (Vec3 1.0 0.5 1.0) 0.0 0.0 0.0 (Vec3 (-2.0) 0.25 3.0);
    call_SetShaderColor 0.25 0.17 0.07 1;
    call_SetShaderTexture "wood";
    call_SetTextureUVScale 1 0.5;
    call_SetShaderMaterial "wood";
    call_Draw BoxMesh;

    call_SetTransformations (Vec3 0.3 3.0 0.3) 0.0 0.0 0.0 (Vec3 (-2.0) 0.5 3.0);
    call_SetShaderColor 0.4 0.2 0.1 1;
    call_SetShaderTexture "wood";
    call_SetTextureUVScale 1.8 3.0;
    call_SetShaderMaterial "wood";
    call_Draw TaperedCylinderMesh;

    call_SetTransformations (Vec3 10.0 0.5 1.0) 0.0 0.0 0.0 (Vec3 2.25 3.75 3.0);
    call_SetShaderColor 0.8 0.5 0.3 1;
    call_SetShaderTexture "roof";
    call_SetTextureUVScale 8 1;
    call_SetShaderMaterial "wood";
    call_Draw BoxMesh;

    call_SetTransformations (Vec3 15.0 3.5 8.0) 0.0 0.0 0.0 (Vec3 (-10.25) 1.85 (-4.5));
    call_SetShaderColor 0.8 0.5 0.3 1;
    call_SetShaderTexture "outergreen";
    call_SetTextureUVScale 4 1;
    call_SetShaderMaterial "wood";
    call_Draw BoxMesh;

    call_SetTransformations (Vec3 7.0 3.5 8.0) 0.0 0.0 0.0 (Vec3 4.25 1.5 (-4.5));
    call_SetShaderColor 0.8 0.5 0.3 1;
    call_SetShaderTexture "brick";
    call_SetTextureUVScale 8 1;
    call_SetShaderMaterial "wood";
    call_Draw BoxMesh;

    call_SetTransformations (Vec3 3.75 0.1 15.5) 0.0 0.0 0.0 (Vec3 (-1.0) 0.0 2.20);
    call_SetShaderColor 0.8 0.5 0.3 1;
    call_SetShaderTexture "concrete";
    call_SetTextureUVScale 1 1;
    call_SetShaderMaterial "wood";
    call_Draw BoxMesh;

    call_SetTransformations (Vec3 9.75 0.1 5.25) 0.0 0.0 0.0 (Vec3 2.90 0.0 0.95);
    call_SetShaderColor 0.8 0.5 0.3 1;
    call_SetShaderTexture "concrete";
    call_SetTextureUVScale 1 1;
    call_SetShaderMaterial "wood";
    call_Draw BoxMesh;

    call_SetTransformations (Vec3 3.75 3.4 4.0) 0.0 0.0 0.0 (Vec3 (-1.0) 1.95 (-6.45));
    call_SetShaderColor 0.8 0.5 0.3 1;
    call_SetShaderTexture "door";
    call_SetTextureUVScale 1 1;
    call_SetShaderMaterial "wood";
    call_Draw BoxMesh;

    call_SetTransformations (Vec3 25.5 3.5 5.0) 0.0 0.0 0.0 (Vec3 (-5.00) 5.35 (-6.0));
    call_SetShaderColor 0.8 0.5 0.3 1;
    call_SetShaderTexture "wall";
    call_SetTextureUVScale 8 1;
    call_SetShaderMaterial "wood";
    call_Draw BoxMesh;

    call_SetTransformations (Vec3 3.0 3.0 3.0) 270.0 0.0 0.0 (Vec3 (-16.25) 5.0 (-2.0));
    call_SetShaderColor 0.8 0.5 0.3 1;
    call_SetShaderTexture "outergreen";
    call_SetTextureUVScale 1 1;
    call_SetShaderMaterial "wood";
    call_Draw PrismMesh;

    call_SetTransformations (Vec3 13.0 2.5 4.0) 0.0 0.0 0.0 (Vec3 (-5.00) 7.25 (-6.0));
    call_SetShaderColor 0.8 0.5 0.3 1;
    call_SetShaderTexture "roof";
    call_SetTextureUVScale 8 1;
    call_SetShaderMaterial "wood";
    call_Draw PlaneMesh;

    call_SetTransformations (Vec3 3.0 3.0 3.0) 270.0 0.0 0.0 (Vec3 (-4.25) 5.0 (-2.0));
    call_SetShaderColor 0.8 0.5 0.3 1;
    call_SetShaderTexture "outergreen";
    call_SetTextureUVScale 1 1;
    call_SetShaderMaterial "wood";
    call_Draw PrismMesh;

    call_SetTransformations (Vec3 2.0 1.0 1.0) 90.0 0.0 0.0 (Vec3 (-10.0) 5.25 (-3.0));
    call_SetShaderColor 0.5 0.5 0.5 1;
    call_SetShaderTexture "window";
    call_SetTextureUVScale 1 1;
    call_SetShaderMaterial "metal";
    call_Draw PlaneMesh;

    call_SetTransformations (Vec3 2.0 1.0 1.0) 90.0 0.0 0.0 (Vec3 3.0 5.25 (-3.0));
    call_SetShaderColor 0.5 0.5 0.5 1;
    call_SetShaderTexture "window";
    call_SetTextureUVScale 1 1;
    call_SetShaderMaterial "metal";
    call_Draw PlaneMesh;

    call_SetTransformations (Vec3 2.0 1.0 1.0) 90.0 0.0 0.0 (Vec3 4.0 2.0 0.0);
    call_SetShaderColor 0.5 0.5 0.5 1;
    call_SetShaderTexture "window";
    call_SetTextureUVScale 1 1;
    call_SetShaderMaterial "metal";
    call_Draw PlaneMesh;

    call_SetTransformations (Vec3 5.5 1.0 1.50) 90.0 0.0 0.0 (Vec3 (-10.0) 1.75 0.0);
    call_SetShaderColor 0.5 0.5 0.5 1;
    call_SetShaderTexture "garage";
    call_SetTextureUVScale 0 1;
    call_SetShaderMaterial "metal";
    call_Draw PlaneMesh;

    call_SetTransformations (Vec3 8.0 1.0 4.0) 0.0 0.0 0.0 (Vec3 (-10.75) 3.7 (-4.25));
    call_SetShaderColor 0.8 0.5 0.3 1;
    call_SetShaderTexture "roof";
    call_SetTextureUVScale 4 1;
    call_SetShaderMaterial "wood";
    call_Draw PlaneMesh;

    call_SetTransformations (Vec3 5.0 1.0 5.0) 0.0 0.0 0.0 (Vec3 2.25 3.5 (-1.75));
    call_SetShaderColor 0.8 0.5 0.3 1;
    call_SetShaderTexture "roof";
    call_SetTextureUVScale 8 1;
    call_SetShaderMaterial "wood";
    call_Draw PlaneMesh;

    call_SetTransformations (Vec3 5.5 1.0 7.0) 0.0 0.0 0.0 (Vec3 (-10.0) 0.01 3.0);
    call_SetShaderColor 0.5 0.5 0.5 1;
    call_SetShaderTexture "concrete";
    call_SetTextureUVScale 1 1;
    call_SetShaderMaterial "metal";
    call_Draw PlaneMesh].

Definition RenderScene (env : Env) (w : World) : outcome World :=
  exec_calls env RenderScene_body w.

(** ** Views of the trace: shader uniforms and texture units *)

Inductive uniform_value : Type :=
| U_mat4 (m : mat4)
| U_int (i : Z)
| U_bool (b : bool)
| U_float (f : float)
| U_vec2 (v : vec2)
| U_vec3 (v : vec3)
| U_vec4 (v : vec4)
| U_sampler2D (unit : Z).

(** Modelled from the spec: ShaderManager, "the shader-uniform
    abstraction", an external collaborator of this file; each of its
    [set...Value(name, value)] calls gives the uniform [name] the value. *)
Definition uniform_write (e : event) : option (string * uniform_value) :=
  match e with
  | setMat4Value n v => Some (n, U_mat4 v)
  | setIntValue n v => Some (n, U_int v)
  | setBoolValue n v => Some (n, U_bool v)
  | setFloatValue n v => Some (n, U_float v)
  | setVec2Value n v => Some (n, U_vec2 v)
  | setVec3Value n v => Some (n, U_vec3 v)
  | setVec4Value n v => Some (n, U_vec4 v)
  | setSampler2DValue n v => Some (n, U_sampler2D v)
  | _ => None
  end.

(** The value of the uniform [name] after the calls of [tr]: that of the
    last call that set it. *)
Fixpoint shader_uniform_from (current : option uniform_value) (tr : list event)
    (name : string) : option uniform_value :=
  match tr with
  | [] => current
  | e :: rest =>
      match uniform_write e with
      | Some (n, v) =>
          if String.eqb n name then shader_uniform_from (Some v) rest name
          else shader_uniform_from current rest name
      | None => shader_uniform_from current rest name
      end
  end.

Definition shader_uniform (tr : list event) (name : string) : option uniform_value :=
  shader_uniform_from None tr name.

(** The texture units of the OpenGL context: the active unit and the
    texture bound to [GL_TEXTURE_2D] on each unit. [glActiveTexture
    (GL_TEXTURE0 + i)] selects unit [i]; [glBindTexture (GL_TEXTURE_2D, t)]
    binds [t] on the active unit. *)
Record texture_units := {
  active_unit : Z;
  bound_2D : Z -> Z
}.

Definition initial_units : texture_units :=
  {| active_unit := 0; bound_2D := fun _ => 0 |}.

Definition gl_step (g : texture_units) (e : event) : texture_units :=
  match e with
  | glActiveTexture t => {| active_unit := t - GL_TEXTURE0; bound_2D := bound_2D g |}
  | glBindTexture target t =>
      if target =? GL_TEXTURE_2D then
        {| active_unit := active_unit g;
           bound_2D := fun u => if u =? active_unit g then t else bound_2D g u |}
      else g
  | _ => g
  end.

Definition gl_units (tr : list event) : texture_units :=
  fold_left gl_step tr initial_units.

(** The texture bound to [GL_TEXTURE_2D] on unit [u] after the calls of
    [tr]. *)
Definition texture_on_unit (tr : list event) (u : Z) : Z :=
  bound_2D (gl_units tr) u.

(** ** Registry predicates *)

(** Entry [i] of the registry of loaded textures is [e]. *)
Definition loaded (s : SceneManager) (i : Z) (e : TEXTURE_INFO) : Prop :=
  0 <= i < m_loadedTextures s /\ m_textureIDs s !! Z.to_nat i = Some e.

(** The loaded textures, in registration order. *)
Definition loaded_textures (s : SceneManager) : list TEXTURE_INFO :=
  take (Z.to_nat (m_loadedTextures s)) (m_textureIDs s).

(** The count of loaded textures does not exceed the array. *)
Definition registry_ok (s : SceneManager) : Prop :=
  m_loadedTextures s <= Z.of_nat (length (m_textureIDs s)).

(** The object as the program starts from it: an array of [MAX_TEXTURES]
    entries, no texture loaded. *)
Definition fresh_registry (s : SceneManager) : Prop :=
  Z.of_nat (length (m_textureIDs s)) = MAX_TEXTURES /\ m_loadedTextures s = 0.

(** A material with the tag has been defined. *)
Definition material_defined (s : SceneManager) (tag0 : string) : Prop :=
  exists m, In m (m_objectMaterials s) /\ mtag m = tag0.

(** The first material with the tag. *)
Fixpoint first_material (l : list OBJECT_MATERIAL) (tag0 : string)
    : option OBJECT_MATERIAL :=
  match l with
  | [] => None
  | m :: rest => if String.eqb (mtag m) tag0 then Some m else first_material rest tag0
  end.


(** The state of [PrepareScene] after the mesh loads and the first [k]
    of its [CreateGLTexture] calls. *)
Definition PrepareScene_prefix (env : Env) (k : nat) (w : World) : outcome World :=
  let w := emit [LoadMesh PlaneMesh; LoadMesh BoxMesh; LoadMesh TaperedCylinderMesh;
                 LoadMesh PrismMesh; LoadMesh Pyramid3Mesh] w in
  load_textures env (take k PrepareScene_textures) w.

(** The calls the loop of [BindGLTextures] makes for the entries [l],
    the first of them at index [i]. *)
Fixpoint bind_calls (i : Z) (l : list TEXTURE_INFO) : list event :=
  match l with
  | [] => []
  | e :: rest =>
      glActiveTexture (GL_TEXTURE0 + i) :: glBindTexture GL_TEXTURE_2D (ID e)
        :: bind_calls (i + 1) rest
  end.

(** ** The scene script: readiness and literal commands *)

(** The object is ready for [RenderScene]: the count of loaded textures
    is within the array and, when materials are defined at all, a shader
    manager is attached and both tags the script uses are defined. *)
Definition scene_ready (s : SceneManager) : Prop :=
  registry_ok s /\
  (m_objectMaterials s = [] \/
   (m_pShaderManager s <> NULL /\
    material_defined s "metal" /\ material_defined s "wood")).

(** The commands whose arguments do not come from a registry: the model
    matrix, the color and its flag, the UV scale and the draw calls. *)
Definition is_literal_command (e : event) : bool :=
  match e with
  | setMat4Value _ _ | setIntValue _ _ | setVec4Value _ _ | setVec2Value _ _
  | DrawMesh _ => true
  | _ => false
  end.

Definition trace_of (o : outcome World) : list event :=
  match o with
  | Ok w => trace w
  | Undefined => []
  end.

(** The material tags of the [SetShaderMaterial] statements are among
    "metal" and "wood". *)
Definition metal_or_wood (c : call) : bool :=
  match c with
  | call_SetShaderMaterial t => String.eqb t "metal" || String.eqb t "wood"
  | _ => true
  end.

(** The calls [CreateGLTexture] makes before it looks at the channel
    count of a decoded image. *)
Definition decoded_prefix (env : Env) (filename : string) (img : Image)
    (tr : list event) : list event :=
  [stbi_set_flip_vertically_on_load true; stbi_load filename (Some img);
   cout (msg_loaded filename (width img) (height img) (colorChannels img));
   glGenTextures (env_gen_texture env
     (tr ++ [stbi_set_flip_vertically_on_load true; stbi_load filename (Some img);
             cout (msg_loaded filename (width img) (height img) (colorChannels img))]));
   glBindTexture GL_TEXTURE_2D (env_gen_texture env
     (tr ++ [stbi_set_flip_vertically_on_load true; stbi_load filename (Some img);
             cout (msg_loaded filename (width img) (height img) (colorChannels img))]));
   glTexParameteri GL_TEXTURE_2D GL_TEXTURE_WRAP_S GL_REPEAT;
   glTexParameteri GL_TEXTURE_2D GL_TEXTURE_WRAP_T GL_REPEAT;
   glTexParameteri GL_TEXTURE_2D GL_TEXTURE_MIN_FILTER GL_LINEAR;
   glTexParameteri GL_TEXTURE_2D GL_TEXTURE_MAG_FILTER GL_LINEAR].
(** ** Sample states *)

Definition no_texture : TEXTURE_INFO := {| ID := 0; tag := "" |}.

(** A scene manager as constructed: sixteen unused entries, no texture
    loaded, no material defined. *)
Definition constructed (p : pointer) : SceneManager :=
  {| m_pShaderManager := p;
     m_textureIDs := replicate 16 no_texture;
     m_loadedTextures := 0;
     m_objectMaterials := [] |}.

Definition start_world (p : pointer) : World :=
  {| this := constructed p; trace := [] |}.

(** A registry with two loaded textures. *)
Definition two_textures : SceneManager :=
  {| m_pShaderManager := Ptr 1;
     m_textureIDs :=
       {| ID := 7; tag := "brick" |} :: {| ID := 9; tag := "wood" |}
         :: replicate 14 no_texture;
     m_loadedTextures := 2;
     m_objectMaterials := [] |}.

(** An environment in which every file decodes to a 64x64 RGB image and
    texture names grow with the number of calls made. *)
Definition rgb_env : Env :=
  {| env_stbi_load := fun _ => Some {| width := 64; height := 64; colorChannels := 3 |};
     env_gen_texture := fun tr => 1 + Z.of_nat (length tr);
     env_indeterminate :=
       {| ambientColor := Vec3 0 0 0; ambientStrength := 0;
          diffuseColor := Vec3 0 0 0; specularColor := Vec3 0 0 0;
          shininess := 0; mtag := "" |} |}.

(** An environment in which no file can be read. *)
Definition no_file_env : Env :=
  {| env_stbi_load := fun _ => None;
     env_gen_texture := env_gen_texture rgb_env;
     env_indeterminate :=
       {| ambientColor := Vec3 1 2 3; ambientStrength := 4;
          diffuseColor := Vec3 5 6 7; specularColor := Vec3 8 9 10;
          shininess := 11; mtag := "" |} |}.

(** An environment in which every file decodes to a one-channel image. *)
Definition grey_env : Env :=
  {| env_stbi_load := fun _ => Some {| width := 8; height := 8; colorChannels := 1 |};
     env_gen_texture := env_gen_texture rgb_env;
     env_indeterminate := env_indeterminate rgb_env |}.

(** The object after [DefineObjectMaterials] on a constructed object. *)
Definition materials_defined : SceneManager :=
  this (DefineObjectMaterials (start_world (Ptr 1))).

(** The content of a caller's [OBJECT_MATERIAL] before a call. *)
Definition caller_material : OBJECT_MATERIAL :=
  {| ambientColor := Vec3 1 2 3; ambientStrength := 4;
     diffuseColor := Vec3 5 6 7; specularColor := Vec3 8 9 10;
     shininess := 11; mtag := "caller" |}.

(** The literal commands of one statement and of [RenderScene], read off
    a run on the constructed object with a shader manager attached. *)
Definition literal_commands (c : call) : list event :=
  List.filter is_literal_command
    (trace_of (exec_call rgb_env c (start_world (Ptr 1)))).

Definition RenderScene_literals : list event :=
  List.filter is_literal_command
    (trace_of (RenderScene rgb_env (start_world (Ptr 1)))).

(** A registry whose array is full. *)
Definition full_registry : SceneManager :=
  {| m_pShaderManager := Ptr 1;
     m_textureIDs := replicate 16 {| ID := 3; tag := "brick" |};
     m_loadedTextures := 16;
     m_objectMaterials := [] |}.

(** ** Further views of the trace and of the environment *)

(** The file decodes to an image [CreateGLTexture] accepts: 3 or 4 color
    channels. *)
Definition decodes (env : Env) (filename : string) : bool :=
  match env_stbi_load env filename with
  | Some img => (colorChannels img =? 3) || (colorChannels img =? 4)
  | None => false
  end.

Definition is_stbi_load (e : event) : bool :=
  match e with stbi_load _ _ => true | _ => false end.

Definition is_stbi_image_free (e : event) : bool :=
  match e with stbi_image_free => true | _ => false end.

Definition is_glGenTextures (e : event) : bool :=
  match e with glGenTextures _ => true | _ => false end.

(** A call into OpenGL. *)
Definition is_gl_call (e : event) : bool :=
  match e with
  | glGenTextures _ | glBindTexture _ _ | glTexParameteri _ _ _
  | glTexImage2D _ _ _ _ _ _ _ _ | glGenerateMipmap _ | glActiveTexture _ => true
  | _ => false
  end.

(** The number of calls of a kind in a trace. *)
Definition count_calls (kind : event -> bool) (tr : list event) : nat :=
  length (List.filter kind tr).

(** The texture tags of the [SetShaderTexture] statements of a script
    are among the given tags. *)
Definition texture_tag_among (tags : list string) (c : call) : bool :=
  match c with
  | call_SetShaderTexture t => existsb (String.eqb t) tags
  | _ => true
  end.

(** The draw call of a statement, if it is one. *)
Definition draw_of_call (c : call) : list event :=
  match c with
  | call_Draw m => [DrawMesh m]
  | _ => []
  end.

(** * Properties *)

(** ** Raw arrays *)

Lemma array_get_Ok {A} (a : list A) (i : Z) (x : A) :
  0 <= i -> a !! Z.to_nat i = Some x -> array_get a i = Ok x.
Proof.
  intros Hi Hx. unfold array_get.
  destruct (Z.leb_spec 0 i); [|lia]. now rewrite Hx.
Qed.

Lemma array_get_in_range {A} (a : list A) (i : Z) :
  0 <= i < Z.of_nat (length a) ->
  exists x, a !! Z.to_nat i = Some x /\ array_get a i = Ok x.
Proof.
  intros Hi.
  destruct (lookup_lt_is_Some_2 a (Z.to_nat i)) as [x Hx]; [lia|].
  exists x. split; [exact Hx|]. apply array_get_Ok; [lia|exact Hx].
Qed.

Lemma array_set_Ok {A} (a : list A) (i : Z) (x : A) :
  0 <= i < Z.of_nat (length a) -> array_set a i x = Ok (<[Z.to_nat i := x]> a).
Proof.
  intros Hi. unfold array_set.
  destruct (Z.leb_spec 0 i); [|lia].
  destruct (Z.ltb_spec i (Z.of_nat (length a))); [reflexivity|lia].
Qed.

Lemma int_of_GLuint_small (u : Z) :
  0 <= u < 2 ^ 31 -> int_of_GLuint u = u.
Proof.
  intros Hu. unfold int_of_GLuint.
  rewrite Z.mod_small; lia.
Qed.

Lemma compare_eq0_iff (a b : string) : compare_eq0 a b = true <-> a = b.
Proof. unfold compare_eq0. apply String.eqb_eq. Qed.

(** ** The linear scans *)

(** What the two loops compute from index [k] on, [n] entries remaining:
    the first entry with the tag, or -1. *)
Lemma FindTexture_loops (n : nat) :
  forall (arr : list TEXTURE_INFO) (tag0 : string) (k : Z),
    0 <= k -> k + Z.of_nat n <= Z.of_nat (length arr) ->
    (exists i e,
        k <= i < k + Z.of_nat n /\ arr !! Z.to_nat i = Some e /\ tag e = tag0 /\
        (forall j e', k <= j < i -> arr !! Z.to_nat j = Some e' -> tag e' <> tag0) /\
        FindTextureID_loop n arr tag0 k = Ok (int_of_GLuint (ID e)) /\
        FindTextureSlot_loop n arr tag0 k = Ok i)
    \/
    ((forall j e', k <= j < k + Z.of_nat n -> arr !! Z.to_nat j = Some e' ->
                   tag e' <> tag0) /\
     FindTextureID_loop n arr tag0 k = Ok (-1) /\
     FindTextureSlot_loop n arr tag0 k = Ok (-1)).
Proof.
  induction n as [|n IH]; intros arr tag0 k Hk Hlen.
  - right. split; [intros; lia|]. split; reflexivity.
  - destruct (array_get_in_range arr k) as (e & He & Hget); [lia|].
    cbn [FindTextureID_loop FindTextureSlot_loop]. rewrite Hget. cbn [obind].
    destruct (compare_eq0 (tag e) tag0) eqn:Hcmp.
    + left. exists k, e. apply compare_eq0_iff in Hcmp.
      repeat split; try lia; auto.
    + assert (Hne : tag e <> tag0).
      { intros Heq. apply compare_eq0_iff in Heq. congruence. }
      destruct (IH arr tag0 (k + 1)) as [(i & e1 & Hi & Hl & Ht & Hfirst & HID & Hslot)
                                        |(Hnone & HID & Hslot)]; [lia|lia| |].
      * left. exists i, e1. repeat split; try lia; auto.
        intros j e' Hj Hl'. destruct (Z.eq_dec j k) as [->|Hjk].
        -- rewrite He in Hl'. injection Hl' as <-. exact Hne.
        -- apply (Hfirst j e'); [lia|exact Hl'].
      * right. repeat split; auto.
        intros j e' Hj Hl'. destruct (Z.eq_dec j k) as [->|Hjk].
        -- rewrite He in Hl'. injection Hl' as <-. exact Hne.
        -- apply (Hnone j e'); [lia|exact Hl'].
Qed.

(** The scans as functions of the registry. *)
Lemma FindTexture_scan (s : SceneManager) (tag0 : string) :
  registry_ok s ->
  (exists i e,
      loaded s i e /\ tag e = tag0 /\
      (forall j e', loaded s j e' -> j < i -> tag e' <> tag0) /\
      FindTextureID s tag0 = Ok (int_of_GLuint (ID e)) /\
      FindTextureSlot s tag0 = Ok i)
  \/
  ((forall j e', loaded s j e' -> tag e' <> tag0) /\
   FindTextureID s tag0 = Ok (-1) /\
   FindTextureSlot s tag0 = Ok (-1)).
Proof.
  intros Hok. unfold registry_ok in Hok.
  unfold FindTextureID, FindTextureSlot, loaded.
  destruct (Z.le_gt_cases (m_loadedTextures s) 0) as [Hle|Hgt].
  - right. replace (Z.to_nat (m_loadedTextures s - 0)) with O by lia.
    split; [intros j e' [Hj _]; lia|]. split; reflexivity.
  - destruct (FindTexture_loops (Z.to_nat (m_loadedTextures s - 0))
                (m_textureIDs s) tag0 0)
      as [(i & e & Hi & Hl & Ht & Hfirst & HID & Hslot)|(Hnone & HID & Hslot)];
      [lia|lia| |].
    + left. exists i, e. repeat split; try lia; auto.
      intros j e' [Hj Hl'] Hlt. apply (Hfirst j e'); [lia|exact Hl'].
    + right. repeat split; auto.
      intros j e' [Hj Hl']. apply (Hnone j e'); [lia|exact Hl'].
Qed.

(** C3. For every tag, [FindTextureID] scans the loaded textures in
    registration order: it returns the texture ID (converted to [int]) of
    the first entry whose tag equals the given tag, and -1 when no loaded
    texture has that tag; [FindTextureSlot] returns that entry's index
    instead of its ID, and -1 in the same case. *)
Theorem FindTextureID_FindTextureSlot_linear_scan (s : SceneManager) (tag0 : string) :
  registry_ok s ->
  (forall i e,
      loaded s i e -> tag e = tag0 ->
      (forall j e', loaded s j e' -> j < i -> tag e' <> tag0) ->
      FindTextureID s tag0 = Ok (int_of_GLuint (ID e)) /\
      (0 <= ID e < 2 ^ 31 -> FindTextureID s tag0 = Ok (ID e)) /\
      FindTextureSlot s tag0 = Ok i)
  /\
  ((forall i e, loaded s i e -> tag e <> tag0) ->
   FindTextureID s tag0 = Ok (-1) /\ FindTextureSlot s tag0 = Ok (-1)).
Proof.
  intros Hok.
  destruct (FindTexture_scan s tag0 Hok)
    as [(i0 & e0 & Hl0 & Ht0 & Hfirst0 & HID & Hslot)|(Hnone & HID & Hslot)].
  - split.
    + intros i e Hl Ht Hfirst.
      assert (i = i0) as ->.
      { destruct (Z.lt_trichotomy i i0) as [Hlt|[Heq|Hgt]]; [|exact Heq|].
        - exfalso. exact (Hfirst0 i e Hl Hlt Ht).
        - exfalso. apply (Hfirst i0 e0 Hl0); [lia|exact Ht0]. }
      assert (e = e0) as ->.
      { destruct Hl as [_ Hl], Hl0 as [_ Hl0]. congruence. }
      split; [exact HID|]. split; [|exact Hslot].
      intros Hsmall. rewrite HID. now rewrite int_of_GLuint_small.
    + intros Hnone. exfalso. exact (Hnone i0 e0 Hl0 Ht0).
  - split.
    + intros i e Hl Ht _. exfalso. exact (Hnone i e Hl Ht).
    + intros _. split; assumption.
Qed.

Lemma FindTextureID_FindTextureSlot_linear_scan_witness :
  registry_ok two_textures /\
  FindTextureID two_textures "wood" = Ok 9 /\
  FindTextureSlot two_textures "wood" = Ok 1 /\
  FindTextureID two_textures "grass" = Ok (-1) /\
  FindTextureSlot two_textures "grass" = Ok (-1).
Proof.
  assert (Hok : registry_ok two_textures) by (unfold registry_ok; simpl; lia).
  split; [exact Hok|].
  destruct (FindTextureID_FindTextureSlot_linear_scan two_textures "wood" Hok)
    as [Hfound _].
  destruct (FindTextureID_FindTextureSlot_linear_scan two_textures "grass" Hok)
    as [_ Hmissing].
  destruct (Hfound 1 {| ID := 9; tag := "wood" |}) as (_ & HID & Hslot).
  - split; [simpl; lia|reflexivity].
  - reflexivity.
  - intros j e' [Hj Hl] Hlt. assert (j = 0) as -> by lia.
    simpl in Hl. injection Hl as <-. discriminate.
  - destruct Hmissing as [HID' Hslot'].
    + intros i e [Hi Hl]. simpl in Hi.
      assert (i = 0 \/ i = 1) as [-> | ->] by lia;
        simpl in Hl; injection Hl as <-; discriminate.
    + repeat split; auto.
Defined.

(** ** The material registry *)

Lemma FindMaterial_loop_first (l : list OBJECT_MATERIAL) (tag0 : string)
    (material : OBJECT_MATERIAL) :
  FindMaterial_loop l tag0 material =
    match first_material l tag0 with
    | Some m => assign_material m material
    | None => material
    end.
Proof.
  induction l as [|m rest IH]; [reflexivity|].
  cbn [FindMaterial_loop first_material]. unfold compare_eq0.
  destruct (String.eqb (mtag m) tag0); [reflexivity|exact IH].
Qed.

Lemma first_material_None (l : list OBJECT_MATERIAL) (tag0 : string) :
  first_material l tag0 = None <-> (forall m, In m l -> mtag m <> tag0).
Proof.
  induction l as [|m rest IH]; cbn [first_material].
  - split; [intros _ m []|reflexivity].
  - destruct (String.eqb_spec (mtag m) tag0) as [Heq|Hne].
    + split; [discriminate|]. intros H. exfalso. apply (H m); [now left|exact Heq].
    + rewrite IH. split.
      * intros H m' [<-|Hin]; [exact Hne|now apply H].
      * intros H m' Hin. apply H. now right.
Qed.

(** What [FindMaterial] returns: [true] as soon as any material is
    defined, whatever the tag; the output parameter receives the numeric
    fields of the first material with the tag, and is left as it was when
    there is none. *)
Lemma FindMaterial_result (s : SceneManager) (tag0 : string)
    (material : OBJECT_MATERIAL) :
  FindMaterial s tag0 material =
    (negb (Z.of_nat (length (m_objectMaterials s)) =? 0),
     match first_material (m_objectMaterials s) tag0 with
     | Some m => assign_material m material
     | None => material
     end).
Proof.
  unfold FindMaterial.
  destruct (Z.eqb_spec (Z.of_nat (length (m_objectMaterials s))) 0) as [H0|Hn0].
  - destruct (m_objectMaterials s); [reflexivity|simpl in H0; lia].
  - now rewrite FindMaterial_loop_first.
Qed.

(** C2 (defect of the code). With "metal" and "wood" defined and the tag
    "glass" defined nowhere, [FindMaterial] returns [true] and leaves the
    output parameter as the caller passed it: the value returned does not
    tell whether the tag was found. *)
Theorem FindMaterial_undefined_tag_returns_true :
  ~ material_defined materials_defined "glass" /\
  FindMaterial materials_defined "glass" caller_material = (true, caller_material).
Proof.
  split.
  - intros (m & Hin & Htag). simpl in Hin.
    destruct Hin as [<-|[<-|[]]]; discriminate.
  - reflexivity.
Qed.

(** C7. After [DefineObjectMaterials] on an empty material registry the
    registry holds exactly two entries, in this order: "metal" (shininess
    64.0, specular color (0.5, 0.5, 0.5)) and "wood" (shininess 16.0,
    specular color (0.1, 0.1, 0.1)), each with its ambient color, ambient
    strength, diffuse color, specular color and shininess; nothing else of
    the object changes and no external call is made. *)
Theorem DefineObjectMaterials_two_entries (w : World) :
  m_objectMaterials (this w) = [] ->
  m_objectMaterials (this (DefineObjectMaterials w)) =
    [ {| ambientColor := Vec3 0.3 0.1 0.1; ambientStrength := 0.1;
         diffuseColor := Vec3 0.3 0.3 0.3; specularColor := Vec3 0.5 0.5 0.5;
         shininess := 64.0; mtag := "metal" |};
      {| ambientColor := Vec3 0.1 0.1 0.1; ambientStrength := 0.1;
         diffuseColor := Vec3 0.3 0.3 0.3; specularColor := Vec3 0.1 0.1 0.1;
         shininess := 16.0; mtag := "wood" |} ] /\
  m_textureIDs (this (DefineObjectMaterials w)) = m_textureIDs (this w) /\
  m_loadedTextures (this (DefineObjectMaterials w)) = m_loadedTextures (this w) /\
  m_pShaderManager (this (DefineObjectMaterials w)) = m_pShaderManager (this w) /\
  trace (DefineObjectMaterials w) = trace w.
Proof.
  intros Hempty. unfold DefineObjectMaterials, push_back, set_this, set_objectMaterials.
  cbn. rewrite Hempty. repeat split.
Qed.

Lemma DefineObjectMaterials_two_entries_witness :
  m_objectMaterials (this (start_world NULL)) = [] /\
  length (m_objectMaterials (this (DefineObjectMaterials (start_world NULL)))) = 2%nat /\
  map mtag (m_objectMaterials (this (DefineObjectMaterials (start_world NULL))))
    = ["metal"; "wood"].
Proof.
  split; [reflexivity|].
  destruct (DefineObjectMaterials_two_entries (start_world NULL) eq_refl) as [H _].
  rewrite H. split; reflexivity.
Defined.

(** ** The trace and its views *)

Lemma emit_emit (a b : list event) (w : World) :
  emit b (emit a w) = emit (a ++ b) w.
Proof. unfold emit. cbn. now rewrite app_assoc. Qed.

Lemma this_emit (evs : list event) (w : World) : this (emit evs w) = this w.
Proof. reflexivity. Qed.

Lemma trace_emit (evs : list event) (w : World) :
  trace (emit evs w) = trace w ++ evs.
Proof. reflexivity. Qed.

Lemma shader_uniform_from_app (tr tr' : list event) (name : string) :
  forall current,
    shader_uniform_from current (tr ++ tr') name =
    shader_uniform_from (shader_uniform_from current tr name) tr' name.
Proof.
  induction tr as [|e tr IH]; intros current; [reflexivity|].
  cbn [app shader_uniform_from].
  destruct (uniform_write e) as [[n v]|]; [|apply IH].
  destruct (String.eqb n name); apply IH.
Qed.

Lemma shader_uniform_app (tr tr' : list event) (name : string) :
  shader_uniform (tr ++ tr') name =
  shader_uniform_from (shader_uniform tr name) tr' name.
Proof. apply shader_uniform_from_app. Qed.

Lemma not_null (p : pointer) : p <> NULL -> is_null p = false.
Proof. destruct p; [congruence|reflexivity]. Qed.

(** Take the branch of a setter's [if (NULL != m_pShaderManager)] that
    the equation [Hptr] on the pointer selects. *)
Ltac take_guard Hptr := rewrite Hptr; cbn [is_null negb].

(** A world is the result of a call that made the calls [evs]. *)
Ltac made_calls := eexists; split; [reflexivity|]; split; reflexivity.

(** ** The transform composer *)

(** C1, amended. Provided the scene manager holds a shader manager
    ([m_pShaderManager] is not null): for every scale vector, rotation
    angles (X, Y, Z, in degrees) and position vector,
    [SetTransformations] makes one call, which uploads to the "model"
    uniform the product translation * rotZ * rotY * rotX * scale, where
    rotX, rotY and rotZ are the rotations about the x-, y- and z-axis by
    the given angles converted to radians; the uniform then holds that
    matrix, whatever was uploaded before. *)
Theorem SetTransformations_uploads_model (w : World) (scaleXYZ positionXYZ : vec3)
    (XrotationDegrees YrotationDegrees ZrotationDegrees : float) :
  m_pShaderManager (this w) <> NULL ->
  let model :=
    (glm_translate positionXYZ
     * glm_rotate (glm_radians ZrotationDegrees) (Vec3 0.0 0.0 1.0)
     * glm_rotate (glm_radians YrotationDegrees) (Vec3 0.0 1.0 0.0)
     * glm_rotate (glm_radians XrotationDegrees) (Vec3 1.0 0.0 0.0)
     * glm_scale scaleXYZ)%mat4 in
  let w' := SetTransformations scaleXYZ XrotationDegrees YrotationDegrees
              ZrotationDegrees positionXYZ w in
  trace w' = trace w ++ [setMat4Value "model" model] /\
  shader_uniform (trace w') "model" = Some (U_mat4 model) /\
  this w' = this w.
Proof.
  intros Hptr model w'. subst w'. unfold SetTransformations.
  rewrite (not_null _ Hptr). cbn [negb]. fold model.
  rewrite trace_emit, this_emit. split; [reflexivity|]. split; [|reflexivity].
  rewrite shader_uniform_app. reflexivity.
Qed.

Lemma SetTransformations_uploads_model_witness :
  m_pShaderManager (this (start_world (Ptr 1))) <> NULL /\
  trace (SetTransformations (Vec3 20.0 1.0 10.0) 90.0 0.0 0.0 (Vec3 0.0 9.0 (-10.0))
           (start_world (Ptr 1))) =
    [setMat4Value "model"
       (glm_translate (Vec3 0.0 9.0 (-10.0))
        * glm_rotate (glm_radians 0.0) (Vec3 0.0 0.0 1.0)
        * glm_rotate (glm_radians 0.0) (Vec3 0.0 1.0 0.0)
        * glm_rotate (glm_radians 90.0) (Vec3 1.0 0.0 0.0)
        * glm_scale (Vec3 20.0 1.0 10.0))%mat4].
Proof.
  assert (H : m_pShaderManager (this (start_world (Ptr 1))) <> NULL) by discriminate.
  split; [exact H|].
  exact (proj1 (SetTransformations_uploads_model (start_world (Ptr 1))
                  (Vec3 20.0 1.0 10.0) (Vec3 0.0 9.0 (-10.0)) 90.0 0.0 0.0 H)).
Defined.

(** C1, as stated, fails on an object constructed with a null shader
    manager: [SetTransformations] makes no call at all, so no matrix
    reaches the "model" uniform. *)
Lemma SetTransformations_null_manager_uploads_nothing :
  m_pShaderManager (this (start_world NULL)) = NULL /\
  SetTransformations (Vec3 20.0 1.0 10.0) 0.0 0.0 0.0 (Vec3 0.0 0.0 0.0)
    (start_world NULL) = start_world NULL /\
  shader_uniform
    (trace (SetTransformations (Vec3 20.0 1.0 10.0) 0.0 0.0 0.0 (Vec3 0.0 0.0 0.0)
              (start_world NULL))) "model" = None.
Proof. repeat split. Qed.

(** ** Color and texture selection *)

(** C10, amended. Provided the scene manager holds a shader manager:
    [SetShaderTexture] with a tag that no loaded texture carries does not
    fail; it sets the "bUseTexture" flag to true and uploads -1 as the
    sampler slot.  With any tag it leaves the flag true, and every
    [SetShaderColor] leaves it false, whatever calls were made before. *)
Theorem SetShaderTexture_unknown_tag_SetShaderColor_flag (w : World) (tag0 : string) :
  m_pShaderManager (this w) <> NULL ->
  registry_ok (this w) ->
  (forall i e, loaded (this w) i e -> tag e <> tag0) ->
  (exists w',
      SetShaderTexture tag0 w = Ok w' /\
      trace w' = trace w ++ [setIntValue "bUseTexture" 1;
                             setSampler2DValue "objectTexture" (-1)] /\
      shader_uniform (trace w') "bUseTexture" = Some (U_int 1) /\
      shader_uniform (trace w') "objectTexture" = Some (U_sampler2D (-1)) /\
      this w' = this w) /\
  (forall tag1, exists w',
      SetShaderTexture tag1 w = Ok w' /\
      shader_uniform (trace w') "bUseTexture" = Some (U_int 1)) /\
  (forall r g b a,
      trace (SetShaderColor r g b a w) =
        trace w ++ [setIntValue "bUseTexture" 0;
                    setVec4Value "objectColor" (Vec4 r g b a)] /\
      shader_uniform (trace (SetShaderColor r g b a w)) "bUseTexture" = Some (U_int 0)).
Proof.
  intros Hptr Hok Hnone.
  assert (Hany : forall tag1, exists slot,
             SetShaderTexture tag1 w =
               Ok (emit [setIntValue "bUseTexture" 1;
                         setSampler2DValue "objectTexture" slot] w) /\
             FindTextureSlot (this w) tag1 = Ok slot).
  { intros tag1. unfold SetShaderTexture. rewrite (not_null _ Hptr). cbn [negb].
    rewrite this_emit.
    destruct (FindTexture_scan (this w) tag1 Hok)
      as [(i & e & _ & _ & _ & _ & Hslot)|(_ & _ & Hslot)];
      [exists i|exists (-1)]; rewrite Hslot; cbn [obind];
      rewrite emit_emit; split; reflexivity. }
  split; [|split].
  - destruct (Hany tag0) as (slot & Hrun & Hslot).
    destruct (FindTexture_scan (this w) tag0 Hok)
      as [(i & e & Hl & Ht & _)|(_ & _ & Hslot')].
    + exfalso. exact (Hnone i e Hl Ht).
    + assert (slot = -1) as -> by congruence.
      eexists. split; [exact Hrun|].
      rewrite trace_emit, this_emit, !shader_uniform_app.
      repeat split.
  - intros tag1. destruct (Hany tag1) as (slot & Hrun & _).
    eexists. split; [exact Hrun|].
    rewrite trace_emit, shader_uniform_app. reflexivity.
  - intros r g b a. unfold SetShaderColor. rewrite (not_null _ Hptr). cbn [negb].
    rewrite trace_emit, shader_uniform_app. split; reflexivity.
Qed.

Lemma SetShaderTexture_unknown_tag_SetShaderColor_flag_witness :
  SetShaderTexture "marble" {| this := two_textures;
                               trace := [setIntValue "bUseTexture" 0] |} =
    Ok {| this := two_textures;
          trace := [setIntValue "bUseTexture" 0; setIntValue "bUseTexture" 1;
                    setSampler2DValue "objectTexture" (-1)] |}.
Proof.
  destruct (SetShaderTexture_unknown_tag_SetShaderColor_flag
              {| this := two_textures; trace := [setIntValue "bUseTexture" 0] |}
              "marble")
    as [(w' & Hrun & Htrace & _ & _ & Hthis) _].
  - discriminate.
  - unfold registry_ok. simpl. lia.
  - intros i e [Hi Hl]. simpl in Hi.
    assert (i = 0 \/ i = 1) as [-> | ->] by lia;
      simpl in Hl; injection Hl as <-; discriminate.
  - rewrite Hrun. destruct w' as [s tr]. simpl in Htrace, Hthis. now subst.
Defined.

(** C10, as stated, fails on an object constructed with a null shader
    manager: neither call touches the "bUseTexture" flag. *)
Lemma SetShaderTexture_SetShaderColor_null_manager_no_flag :
  m_pShaderManager (this (start_world NULL)) = NULL /\
  SetShaderTexture "marble" (start_world NULL) = Ok (start_world NULL) /\
  SetShaderColor 0.5 0.5 0.5 1 (start_world NULL) = start_world NULL /\
  shader_uniform (trace (SetShaderColor 0.5 0.5 0.5 1 (start_world NULL)))
    "bUseTexture" = None.
Proof. repeat split. Qed.

(** ** Registration of a texture *)

Lemma store_ID_Ok (s : SceneManager) (i v : Z) (e : TEXTURE_INFO) :
  0 <= i -> m_textureIDs s !! Z.to_nat i = Some e ->
  store_ID i v s =
    Ok (set_textureIDs (<[Z.to_nat i := {| ID := v; tag := tag e |}]> (m_textureIDs s)) s).
Proof.
  intros Hi He. unfold store_ID.
  rewrite (array_get_Ok _ _ _ Hi He). cbn [obind].
  rewrite array_set_Ok; [reflexivity|].
  apply lookup_lt_Some in He. lia.
Qed.

Lemma store_tag_Ok (s : SceneManager) (i : Z) (t : string) (e : TEXTURE_INFO) :
  0 <= i -> m_textureIDs s !! Z.to_nat i = Some e ->
  store_tag i t s =
    Ok (set_textureIDs (<[Z.to_nat i := {| ID := ID e; tag := t |}]> (m_textureIDs s)) s).
Proof.
  intros Hi He. unfold store_tag.
  rewrite (array_get_Ok _ _ _ Hi He). cbn [obind].
  rewrite array_set_Ok; [reflexivity|].
  apply lookup_lt_Some in He. lia.
Qed.

(** The two stores that register a texture at the end of
    [CreateGLTexture]. *)
Lemma register_texture (s : SceneManager) (v : Z) (t : string) {B}
    (k : SceneManager -> outcome B) :
  0 <= m_loadedTextures s < Z.of_nat (length (m_textureIDs s)) ->
  (let* s1 := store_ID (m_loadedTextures s) v s in
   let* s2 := store_tag (m_loadedTextures s1) t s1 in
   k s2) =
  k (set_textureIDs
       (<[Z.to_nat (m_loadedTextures s) := {| ID := v; tag := t |}]> (m_textureIDs s))
       s).
Proof.
  intros Hi.
  destruct (array_get_in_range (m_textureIDs s) _ Hi) as (e & He & _).
  rewrite (store_ID_Ok s _ v e) by (lia || exact He). cbn [obind].
  cbn [set_textureIDs m_loadedTextures].
  rewrite (store_tag_Ok _ _ t {| ID := v; tag := tag e |}).
  - cbn [obind set_textureIDs m_loadedTextures m_textureIDs ID m_pShaderManager
           m_objectMaterials].
    rewrite list_insert_insert_eq. reflexivity.
  - lia.
  - cbn [set_textureIDs m_textureIDs]. apply list_lookup_insert_eq.
    apply lookup_lt_Some in He. exact He.
Qed.

Lemma CreateGLTexture_unreadable (env : Env) (filename tag0 : string) (w : World) :
  env_stbi_load env filename = None ->
  CreateGLTexture env filename tag0 w =
    Ok (false, emit [stbi_set_flip_vertically_on_load true; stbi_load filename None;
                     cout (msg_could_not_load filename)] w).
Proof.
  intros Hload. unfold CreateGLTexture. rewrite Hload.
  rewrite emit_emit. reflexivity.
Qed.

Lemma CreateGLTexture_unsupported (env : Env) (filename tag0 : string) (w : World)
    (img : Image) :
  env_stbi_load env filename = Some img ->
  colorChannels img <> 3 -> colorChannels img <> 4 ->
  CreateGLTexture env filename tag0 w =
    Ok (false, emit (decoded_prefix env filename img (trace w)
                     ++ [cout (msg_not_implemented (colorChannels img))]) w).
Proof.
  intros Hload H3 H4. unfold CreateGLTexture. rewrite Hload.
  destruct (Z.eqb_spec (colorChannels img) 3) as [|_]; [contradiction|].
  destruct (Z.eqb_spec (colorChannels img) 4) as [|_]; [contradiction|].
  rewrite !emit_emit. reflexivity.
Qed.

Lemma CreateGLTexture_supported (env : Env) (filename tag0 : string) (w : World)
    (img : Image) :
  env_stbi_load env filename = Some img ->
  colorChannels img = 3 \/ colorChannels img = 4 ->
  0 <= m_loadedTextures (this w) < Z.of_nat (length (m_textureIDs (this w))) ->
  exists evs textureID,
    In (glGenTextures textureID) evs /\
    CreateGLTexture env filename tag0 w =
      Ok (true,
          {| this :=
               set_loadedTextures (m_loadedTextures (this w) + 1)
                 (set_textureIDs
                    (<[Z.to_nat (m_loadedTextures (this w)) :=
                         {| ID := textureID; tag := tag0 |}]> (m_textureIDs (this w)))
                    (this w));
             trace := trace w ++ evs |}).
Proof.
  intros Hload Hch Hrange. unfold CreateGLTexture. rewrite Hload.
  set (textureID := env_gen_texture env _).
  destruct (Z.eqb_spec (colorChannels img) 3) as [H3|H3].
  - rewrite !emit_emit. cbn [this emit].
    rewrite (register_texture (this w) textureID tag0 _ Hrange).
    eexists _, textureID. split; [|reflexivity].
    simpl. auto 10.
  - destruct (Z.eqb_spec (colorChannels img) 4) as [H4|H4]; [|lia].
    rewrite !emit_emit. cbn [this emit].
    rewrite (register_texture (this w) textureID tag0 _ Hrange).
    eexists _, textureID. split; [|reflexivity].
    simpl. auto 10.
Qed.

Lemma loaded_textures_register (s : SceneManager) (e : TEXTURE_INFO) :
  0 <= m_loadedTextures s < Z.of_nat (length (m_textureIDs s)) ->
  loaded_textures
    (set_loadedTextures (m_loadedTextures s + 1)
       (set_textureIDs (<[Z.to_nat (m_loadedTextures s) := e]> (m_textureIDs s)) s)) =
  loaded_textures s ++ [e].
Proof.
  intros Hrange. unfold loaded_textures.
  cbn [set_loadedTextures set_textureIDs m_loadedTextures m_textureIDs].
  replace (Z.to_nat (m_loadedTextures s + 1)) with (S (Z.to_nat (m_loadedTextures s)))
    by lia.
  rewrite (take_S_r _ _ e) by (apply list_lookup_insert_eq; lia).
  now rewrite take_insert_ge by lia.
Qed.

(** C5. For every filename and tag, with room left in the array:
    [CreateGLTexture] returns, and returns [true] exactly when the image
    file is decoded and has 3 or 4 color channels (so [false] when the
    file cannot be read and when the image has another channel count);
    when it returns [true], the registry of loaded textures has gained
    one entry at its end, the texture name obtained from [glGenTextures]
    in this call paired with the tag, and the count of loaded textures
    has grown by one. *)
Theorem CreateGLTexture_returns_and_registers (env : Env) (filename tag0 : string)
    (w : World) :
  0 <= m_loadedTextures (this w) < Z.of_nat (length (m_textureIDs (this w))) ->
  exists b w',
    CreateGLTexture env filename tag0 w = Ok (b, w') /\
    (b = true <->
     exists img, env_stbi_load env filename = Some img /\
                 (colorChannels img = 3 \/ colorChannels img = 4)) /\
    (b = true ->
     exists evs textureID,
       trace w' = trace w ++ evs /\ In (glGenTextures textureID) evs /\
       loaded_textures (this w') =
         loaded_textures (this w) ++ [{| ID := textureID; tag := tag0 |}] /\
       m_loadedTextures (this w') = m_loadedTextures (this w) + 1 /\
       m_textureIDs (this w') =
         <[Z.to_nat (m_loadedTextures (this w)) := {| ID := textureID; tag := tag0 |}]>
           (m_textureIDs (this w)) /\
       m_objectMaterials (this w') = m_objectMaterials (this w) /\
       m_pShaderManager (this w') = m_pShaderManager (this w)).
Proof.
  intros Hrange.
  destruct (env_stbi_load env filename) as [img|] eqn:Hload.
  - destruct (Z.eq_dec (colorChannels img) 3) as [H3|H3];
      [|destruct (Z.eq_dec (colorChannels img) 4) as [H4|H4]].
    1,2: destruct (CreateGLTexture_supported env filename tag0 w img Hload)
           as (evs & textureID & Hin & Hrun); [tauto|exact Hrange|];
         eexists true, _; split; [exact Hrun|]; split;
         [split; [intros _; exists img; tauto|reflexivity]|];
         intros _; exists evs, textureID; cbn [this trace];
         rewrite (loaded_textures_register (this w) _ Hrange);
         repeat split; assumption.
    eexists false, _. split; [exact (CreateGLTexture_unsupported _ _ _ _ _ Hload H3 H4)|].
    split; [|discriminate]. split; [discriminate|].
    intros (img' & [= <-] & Hch). lia.
  - eexists false, _. split; [exact (CreateGLTexture_unreadable _ _ _ _ Hload)|].
    split; [|discriminate]. split; [discriminate|].
    intros (img' & [=] & _).
Qed.

Lemma CreateGLTexture_returns_and_registers_witness :
  exists w',
    CreateGLTexture rgb_env "textures/Brick.jpg" "brick" (start_world (Ptr 1))
      = Ok (true, w') /\
    loaded_textures (this w') = [{| ID := 4; tag := "brick" |}] /\
    m_loadedTextures (this w') = 1.
Proof.
  destruct (CreateGLTexture_returns_and_registers rgb_env "textures/Brick.jpg" "brick"
              (start_world (Ptr 1)))
    as (b & w' & Hrun & _ & _); [simpl; lia|].
  vm_compute in Hrun. injection Hrun as <- <-.
  eexists. split; [vm_compute; reflexivity|]. split; reflexivity.
Defined.

(** C9. Whenever [CreateGLTexture] returns [false], the object is as it
    was before the call: no entry of [m_textureIDs] is modified and
    [m_loadedTextures] keeps its value.  It does return [false], without
    touching the registry, when the file cannot be read and when the
    image has a channel count other than 3 and 4, whatever the state of
    the registry. *)
Theorem CreateGLTexture_false_registry_unchanged (env : Env) (filename tag0 : string)
    (w : World) :
  (forall w',
      CreateGLTexture env filename tag0 w = Ok (false, w') ->
      this w' = this w /\
      m_textureIDs (this w') = m_textureIDs (this w) /\
      m_loadedTextures (this w') = m_loadedTextures (this w)) /\
  ((env_stbi_load env filename = None \/
    exists img, env_stbi_load env filename = Some img /\
                colorChannels img <> 3 /\ colorChannels img <> 4) ->
   exists w', CreateGLTexture env filename tag0 w = Ok (false, w') /\
              this w' = this w).
Proof.
  split.
  - intros w' Hrun.
    enough (Hthis : this w' = this w) by (now rewrite Hthis).
    unfold CreateGLTexture in Hrun.
    destruct (env_stbi_load env filename) as [img|].
    + destruct (colorChannels img =? 3).
      { destruct (store_ID _ _ _) as [s1|]; [|discriminate]. cbn [obind] in Hrun.
        destruct (store_tag _ _ _) as [s2|]; discriminate. }
      destruct (colorChannels img =? 4).
      { destruct (store_ID _ _ _) as [s1|]; [|discriminate]. cbn [obind] in Hrun.
        destruct (store_tag _ _ _) as [s2|]; discriminate. }
      injection Hrun as <-. reflexivity.
    + injection Hrun as <-. reflexivity.
  - intros [Hnone|(img & Hload & H3 & H4)].
    + eexists. split; [exact (CreateGLTexture_unreadable _ _ _ _ Hnone)|reflexivity].
    + eexists. split; [exact (CreateGLTexture_unsupported _ _ _ _ _ Hload H3 H4)|].
      reflexivity.
Qed.

Lemma CreateGLTexture_false_registry_unchanged_witness :
  exists w',
    CreateGLTexture grey_env "textures/door.jpg" "door"
      {| this := two_textures; trace := [] |} = Ok (false, w') /\
    this w' = two_textures.
Proof.
  destruct (CreateGLTexture_false_registry_unchanged grey_env "textures/door.jpg" "door"
              {| this := two_textures; trace := [] |}) as [_ Hfails].
  apply Hfails. right.
  exists {| width := 8; height := 8; colorChannels := 1 |}.
  split; [reflexivity|]. split; discriminate.
Defined.

(** ** The registry during scene preparation *)

Lemma CreateGLTexture_count (env : Env) (filename tag0 : string) (w : World) :
  0 <= m_loadedTextures (this w) < Z.of_nat (length (m_textureIDs (this w))) ->
  exists b w',
    CreateGLTexture env filename tag0 w = Ok (b, w') /\
    m_loadedTextures (this w) <= m_loadedTextures (this w')
      <= m_loadedTextures (this w) + 1 /\
    length (m_textureIDs (this w')) = length (m_textureIDs (this w)).
Proof.
  intros Hrange.
  destruct (env_stbi_load env filename) as [img|] eqn:Hload.
  - destruct (Z.eq_dec (colorChannels img) 3) as [H3|H3];
      [|destruct (Z.eq_dec (colorChannels img) 4) as [H4|H4]].
    1,2: destruct (CreateGLTexture_supported env filename tag0 w img Hload)
           as (evs & textureID & _ & Hrun); [tauto|exact Hrange|];
         eexists true, _; split; [exact Hrun|]; cbn; rewrite length_insert; lia.
    eexists false, _. split; [exact (CreateGLTexture_unsupported _ _ _ _ _ Hload H3 H4)|].
    cbn. lia.
  - eexists false, _. split; [exact (CreateGLTexture_unreadable _ _ _ _ Hload)|].
    cbn. lia.
Qed.

Lemma load_textures_count (env : Env) (l : list (string * string)) :
  forall w,
    0 <= m_loadedTextures (this w) ->
    m_loadedTextures (this w) + Z.of_nat (length l)
      <= Z.of_nat (length (m_textureIDs (this w))) ->
    exists w',
      load_textures env l w = Ok w' /\
      m_loadedTextures (this w) <= m_loadedTextures (this w')
        <= m_loadedTextures (this w) + Z.of_nat (length l) /\
      length (m_textureIDs (this w')) = length (m_textureIDs (this w)).
Proof.
  induction l as [|[filename tag0] rest IH]; intros w H0 Hroom.
  - exists w. split; [reflexivity|]. cbn. lia.
  - cbn [length] in Hroom.
    destruct (CreateGLTexture_count env filename tag0 w) as (b & w1 & Hrun & Hc & Hlen);
      [lia|].
    destruct (IH w1) as (w' & Hrest & Hc' & Hlen'); [lia|lia|].
    exists w'. cbn [load_textures]. rewrite Hrun. cbn [obind].
    split; [exact Hrest|]. cbn [length]. lia.
Qed.

Lemma BindGLTextures_loop_calls (n : nat) :
  forall (i : Z) (w : World),
    0 <= i ->
    i + Z.of_nat n <= Z.of_nat (length (m_textureIDs (this w))) ->
    BindGLTextures_loop n i w =
      Ok (emit (bind_calls i (take n (drop (Z.to_nat i) (m_textureIDs (this w))))) w).
Proof.
  induction n as [|n IH]; intros i w Hi Hlen.
  - cbn. unfold emit. rewrite app_nil_r. now destruct w.
  - destruct (array_get_in_range (m_textureIDs (this w)) i) as (e & He & Hget); [lia|].
    cbn [BindGLTextures_loop]. rewrite Hget. cbn [obind].
    rewrite IH by (rewrite ?this_emit; lia).
    rewrite this_emit, emit_emit. f_equal. f_equal.
    rewrite (drop_S _ e (Z.to_nat i)) by exact He.
    cbn [take bind_calls app]. do 3 f_equal.
    replace (Z.to_nat (i + 1)) with (S (Z.to_nat i)) by lia. reflexivity.
Qed.

(** [BindGLTextures] on a registry within its array: one pair of calls
    for each loaded texture, in order; the object is not modified. *)
Lemma BindGLTextures_calls (w : World) :
  registry_ok (this w) ->
  BindGLTextures w = Ok (emit (bind_calls 0 (loaded_textures (this w))) w).
Proof.
  intros Hok. unfold registry_ok in Hok. unfold BindGLTextures, loaded_textures.
  rewrite Z.sub_0_r.
  rewrite BindGLTextures_loop_calls by lia.
  reflexivity.
Qed.

Lemma length_loaded_textures (s : SceneManager) :
  registry_ok s -> 0 <= m_loadedTextures s ->
  Z.of_nat (length (loaded_textures s)) = m_loadedTextures s.
Proof.
  unfold registry_ok, loaded_textures. intros Hok H0.
  rewrite length_take_le by lia. lia.
Qed.

(** C4. Starting from an object with no texture loaded, every state of
    the scene-preparation sequence (after the first [k] calls of
    [CreateGLTexture] in [PrepareScene], for each [k], and after the whole
    of [PrepareScene]) is reached without any access outside the array
    and holds at most 16 loaded textures; each [CreateGLTexture] call of
    the sequence starts with a count below 16, the only index it writes. *)
Theorem PrepareScene_registry_within_capacity (env : Env) (w : World) :
  fresh_registry (this w) ->
  (forall k : nat,
      (k <= length PrepareScene_textures)%nat ->
      exists wk,
        PrepareScene_prefix env k w = Ok wk /\
        0 <= m_loadedTextures (this wk) <= Z.of_nat k /\
        m_loadedTextures (this wk) <= MAX_TEXTURES /\
        Z.of_nat (length (loaded_textures (this wk))) <= MAX_TEXTURES /\
        Z.of_nat (length (m_textureIDs (this wk))) = MAX_TEXTURES /\
        ((k < length PrepareScene_textures)%nat ->
         m_loadedTextures (this wk) < MAX_TEXTURES)) /\
  (exists w',
      PrepareScene env w = Ok w' /\
      0 <= m_loadedTextures (this w') <= MAX_TEXTURES /\
      Z.of_nat (length (loaded_textures (this w'))) <= MAX_TEXTURES /\
      Z.of_nat (length (m_textureIDs (this w'))) = MAX_TEXTURES).
Proof.
  intros [Hlen Hzero].
  assert (Hprefix : forall k : nat,
             (k <= 12)%nat ->
             exists wk,
               PrepareScene_prefix env k w = Ok wk /\
               0 <= m_loadedTextures (this wk) <= Z.of_nat k /\
               Z.of_nat (length (m_textureIDs (this wk))) = MAX_TEXTURES).
  { intros k Hk. unfold PrepareScene_prefix.
    destruct (load_textures_count env (take k PrepareScene_textures)
                (emit [LoadMesh PlaneMesh; LoadMesh BoxMesh;
                       LoadMesh TaperedCylinderMesh; LoadMesh PrismMesh;
                       LoadMesh Pyramid3Mesh] w))
      as (wk & Hrun & Hc & Hl).
    - rewrite this_emit. lia.
    - rewrite this_emit, length_take_le by (cbn; lia).
      unfold MAX_TEXTURES in Hlen. lia.
    - rewrite this_emit in Hc, Hl. rewrite length_take_le in Hc by (cbn; lia).
      exists wk. split; [exact Hrun|]. split; [lia|]. rewrite Hl. exact Hlen. }
  assert (Hloaded : forall wk (k : nat),
             (k <= 12)%nat ->
             0 <= m_loadedTextures (this wk) <= Z.of_nat k ->
             Z.of_nat (length (m_textureIDs (this wk))) = MAX_TEXTURES ->
             Z.of_nat (length (loaded_textures (this wk))) <= MAX_TEXTURES).
  { intros wk k Hk Hc Hl. unfold MAX_TEXTURES in *.
    rewrite length_loaded_textures; [lia| |lia].
    unfold registry_ok. lia. }
  split.
  - intros k Hk. change (length PrepareScene_textures) with 12%nat in *.
    destruct (Hprefix k Hk) as (wk & Hrun & Hc & Hl).
    exists wk. split; [exact Hrun|]. split; [exact Hc|].
    split; [unfold MAX_TEXTURES; lia|]. split; [exact (Hloaded wk k Hk Hc Hl)|].
    split; [exact Hl|]. unfold MAX_TEXTURES. lia.
  - destruct (Hprefix 12%nat (le_n _)) as (w12 & Hrun & Hc & Hl).
    unfold PrepareScene. unfold PrepareScene_prefix in Hrun.
    change (take 12 PrepareScene_textures) with PrepareScene_textures in Hrun.
    rewrite Hrun. cbn [obind].
    rewrite BindGLTextures_calls by (unfold registry_ok, MAX_TEXTURES in *; lia).
    eexists. split; [reflexivity|]. rewrite this_emit.
    split; [unfold MAX_TEXTURES; lia|].
    split; [exact (Hloaded w12 12%nat (le_n _) Hc Hl)|exact Hl].
Qed.

Lemma PrepareScene_registry_within_capacity_witness :
  fresh_registry (this (start_world (Ptr 1))) /\
  exists w',
    PrepareScene rgb_env (start_world (Ptr 1)) = Ok w' /\
    0 <= m_loadedTextures (this w') <= MAX_TEXTURES.
Proof.
  assert (H : fresh_registry (this (start_world (Ptr 1)))) by (split; reflexivity).
  split; [exact H|].
  destruct (PrepareScene_registry_within_capacity rgb_env (start_world (Ptr 1)) H)
    as [_ (w' & Hrun & Hc & _)].
  exists w'. split; [exact Hrun|exact Hc].
Defined.

(** ** Texture units *)

Lemma gl_units_app (tr evs : list event) :
  gl_units (tr ++ evs) = fold_left gl_step evs (gl_units tr).
Proof. unfold gl_units. apply fold_left_app. Qed.

(** The units after the calls of the loop of [BindGLTextures]: unit
    [i + j] holds the [j]-th entry, the units outside are as before. *)
Lemma bind_calls_units (l : list TEXTURE_INFO) :
  forall (i : Z) (g : texture_units),
    (forall (j : nat) e,
        l !! j = Some e ->
        bound_2D (fold_left gl_step (bind_calls i l) g) (i + Z.of_nat j) = ID e) /\
    (forall u,
        u < i \/ i + Z.of_nat (length l) <= u ->
        bound_2D (fold_left gl_step (bind_calls i l) g) u = bound_2D g u).
Proof.
  induction l as [|e rest IH]; intros i g.
  - split; [intros j e' Hl; discriminate|reflexivity].
  - cbn [bind_calls fold_left]. cbn [gl_step]. rewrite Z.eqb_refl. cbn [active_unit].
    set (g1 := {| active_unit := GL_TEXTURE0 + i - GL_TEXTURE0; bound_2D := _ |}).
    destruct (IH (i + 1) g1) as [Hin Hout].
    assert (Hg1 : forall u, bound_2D g1 u = if u =? i then ID e else bound_2D g u).
    { intros u. subst g1. cbn [bound_2D].
      replace (GL_TEXTURE0 + i - GL_TEXTURE0) with i by lia. reflexivity. }
    split.
    + intros [|j] e' Hl.
      * injection Hl as <-. rewrite Hout by lia. rewrite Hg1.
        replace (i + Z.of_nat 0) with i by lia. now rewrite Z.eqb_refl.
      * cbn in Hl. replace (i + Z.of_nat (S j)) with (i + 1 + Z.of_nat j) by lia.
        now apply Hin.
    + intros u Hu. cbn [length] in Hu. rewrite Hout by lia. rewrite Hg1.
      destruct (Z.eqb_spec u i); [lia|reflexivity].
Qed.

Lemma loaded_lookup (s : SceneManager) (i : Z) (e : TEXTURE_INFO) :
  loaded s i e -> loaded_textures s !! Z.to_nat i = Some e.
Proof.
  intros [Hi Hl]. unfold loaded_textures.
  rewrite lookup_take_lt by lia. exact Hl.
Qed.

(** [BindGLTextures] on a registry within its array: afterwards unit [i]
    holds the texture of entry [i], for every loaded entry. *)
Lemma BindGLTextures_units (w : World) :
  registry_ok (this w) ->
  exists w',
    BindGLTextures w = Ok w' /\
    this w' = this w /\
    trace w' = trace w ++ bind_calls 0 (loaded_textures (this w)) /\
    (forall i e, loaded (this w) i e -> texture_on_unit (trace w') i = ID e).
Proof.
  intros Hok. eexists. split; [exact (BindGLTextures_calls w Hok)|].
  rewrite this_emit, trace_emit. split; [reflexivity|]. split; [reflexivity|].
  intros i e Hl. unfold texture_on_unit. rewrite gl_units_app.
  destruct (bind_calls_units (loaded_textures (this w)) 0 (gl_units (trace w)))
    as [Hin _].
  specialize (Hin (Z.to_nat i) e (loaded_lookup _ _ _ Hl)).
  destruct Hl as [Hi _].
  replace (0 + Z.of_nat (Z.to_nat i)) with i in Hin by lia. exact Hin.
Qed.

(** C6, amended. For every loaded texture, [FindTextureSlot] on its tag
    returns the index of the first loaded texture that carries the tag,
    which is the index at which the texture itself was registered
    whenever no texture registered before it has the same tag;
    [BindGLTextures] binds the texture object stored at each registry
    index [i] below the count of loaded textures to texture unit
    [GL_TEXTURE0 + i]; so the slot returned for a tag names the texture
    unit that holds the first texture registered with that tag. *)
Theorem FindTextureSlot_names_bound_unit (w : World) :
  registry_ok (this w) ->
  exists w',
    BindGLTextures w = Ok w' /\
    this w' = this w /\
    trace w' = trace w ++ bind_calls 0 (loaded_textures (this w)) /\
    (forall i e, loaded (this w) i e -> texture_on_unit (trace w') i = ID e) /\
    (forall i e,
        loaded (this w) i e ->
        exists j ej,
          FindTextureSlot (this w) (tag e) = Ok j /\
          loaded (this w) j ej /\ tag ej = tag e /\ j <= i /\
          (forall k ek, loaded (this w) k ek -> k < j -> tag ek <> tag e) /\
          texture_on_unit (trace w') j = ID ej /\
          ((forall k ek, loaded (this w) k ek -> k < i -> tag ek <> tag e) ->
           j = i /\ ej = e)).
Proof.
  intros Hok.
  destruct (BindGLTextures_units w Hok) as (w' & Hrun & Hthis & Htrace & Hunit).
  exists w'. split; [exact Hrun|]. split; [exact Hthis|]. split; [exact Htrace|].
  split; [exact Hunit|].
  intros i e Hl.
  destruct (FindTexture_scan (this w) (tag e) Hok)
    as [(j & ej & Hlj & Htj & Hfirst & _ & Hslot)|(Hnone & _)].
  - exists j, ej. split; [exact Hslot|]. split; [exact Hlj|]. split; [exact Htj|].
    assert (Hji : j <= i).
    { destruct (Z.le_gt_cases j i) as [Hle|Hgt]; [exact Hle|].
      exfalso. apply (Hfirst i e Hl); [lia|reflexivity]. }
    split; [exact Hji|]. split; [exact Hfirst|]. split; [exact (Hunit j ej Hlj)|].
    intros Hmine.
    assert (j = i) as ->.
    { destruct (Z.eq_dec j i) as [Heq|Hne]; [exact Heq|].
      exfalso. apply (Hmine j ej Hlj); [lia|exact Htj]. }
    split; [reflexivity|]. destruct Hl as [_ Hl], Hlj as [_ Hlj]. congruence.
  - exfalso. exact (Hnone i e Hl eq_refl).
Qed.

Lemma FindTextureSlot_names_bound_unit_witness :
  exists w',
    BindGLTextures {| this := two_textures; trace := [] |} = Ok w' /\
    FindTextureSlot two_textures "wood" = Ok 1 /\
    texture_on_unit (trace w') 1 = 9.
Proof.
  destruct (FindTextureSlot_names_bound_unit {| this := two_textures; trace := [] |})
    as (w' & Hrun & _ & _ & Hunit & _).
  - unfold registry_ok. simpl. lia.
  - exists w'. split; [exact Hrun|]. split; [reflexivity|].
    apply (Hunit 1 {| ID := 9; tag := "wood" |}).
    split; [simpl; lia|reflexivity].
Defined.

(** C6, as stated, fails when two textures are registered under one tag:
    after two successful [CreateGLTexture] calls with the tag "wood", the
    second texture is registered at index 1, and [FindTextureSlot] on its
    tag returns 0. *)
Lemma FindTextureSlot_repeated_tag_not_own_index :
  exists w e,
    load_textures rgb_env [("textures/a.jpg", "wood"); ("textures/b.jpg", "wood")]
      (start_world (Ptr 1)) = Ok w /\
    loaded (this w) 1 e /\ tag e = "wood" /\
    FindTextureSlot (this w) (tag e) = Ok 0 /\
    FindTextureSlot (this w) (tag e) <> Ok 1.
Proof.
  eexists _, {| ID := 17; tag := "wood" |}.
  split; [vm_compute; reflexivity|].
  split; [split; [cbn; lia|reflexivity]|].
  split; [reflexivity|]. split; [reflexivity|discriminate].
Qed.

(** ** Distinct tags *)

(** With pairwise distinct tags, every loaded texture is found at its own
    index. *)
Lemma FindTextureSlot_distinct_tags (s : SceneManager) :
  registry_ok s ->
  NoDup (tag <$> loaded_textures s) ->
  forall i e, loaded s i e ->
    FindTextureSlot s (tag e) = Ok i /\
    FindTextureID s (tag e) = Ok (int_of_GLuint (ID e)).
Proof.
  intros Hok Hnodup i e Hl.
  destruct (FindTexture_scan s (tag e) Hok)
    as [(j & ej & Hlj & Htj & _ & HID & Hslot)|(Hnone & _)].
  - assert (Z.to_nat j = Z.to_nat i) as Hji.
    { apply (NoDup_lookup (tag <$> loaded_textures s) _ _ (tag e) Hnodup);
        rewrite list_lookup_fmap.
      - rewrite (loaded_lookup _ _ _ Hlj). cbn. now rewrite Htj.
      - now rewrite (loaded_lookup _ _ _ Hl). }
    destruct Hl as [Hi Hl], Hlj as [Hj Hlj].
    assert (j = i) as -> by lia.
    assert (ej = e) as -> by congruence.
    split; assumption.
  - exfalso. exact (Hnone i e Hl eq_refl).
Qed.

Lemma CreateGLTexture_tags (env : Env) (filename tag0 : string) (w : World) :
  0 <= m_loadedTextures (this w) < Z.of_nat (length (m_textureIDs (this w))) ->
  exists b w' added,
    CreateGLTexture env filename tag0 w = Ok (b, w') /\
    loaded_textures (this w') = loaded_textures (this w) ++ added /\
    (tag <$> added) `sublist_of` [tag0].
Proof.
  intros Hrange.
  destruct (env_stbi_load env filename) as [img|] eqn:Hload.
  - destruct (Z.eq_dec (colorChannels img) 3) as [H3|H3];
      [|destruct (Z.eq_dec (colorChannels img) 4) as [H4|H4]].
    1,2: destruct (CreateGLTexture_supported env filename tag0 w img Hload)
           as (evs & textureID & _ & Hrun); [tauto|exact Hrange|];
         exists true; eexists; exists [{| ID := textureID; tag := tag0 |}];
         split; [exact Hrun|]; cbn [this];
         rewrite (loaded_textures_register (this w) _ Hrange);
         split; reflexivity.
    exists false. eexists. exists [].
    split; [exact (CreateGLTexture_unsupported _ _ _ _ _ Hload H3 H4)|].
    rewrite this_emit, app_nil_r. split; [reflexivity|apply sublist_nil_l].
  - exists false. eexists. exists [].
    split; [exact (CreateGLTexture_unreadable _ _ _ _ Hload)|].
    rewrite this_emit, app_nil_r. split; [reflexivity|apply sublist_nil_l].
Qed.

Lemma load_textures_tags (env : Env) (l : list (string * string)) :
  forall w,
    0 <= m_loadedTextures (this w) ->
    m_loadedTextures (this w) + Z.of_nat (length l)
      <= Z.of_nat (length (m_textureIDs (this w))) ->
    exists w' added,
      load_textures env l w = Ok w' /\
      loaded_textures (this w') = loaded_textures (this w) ++ added /\
      (tag <$> added) `sublist_of` (snd <$> l).
Proof.
  induction l as [|[filename tag0] rest IH]; intros w H0 Hroom.
  - exists w, []. split; [reflexivity|]. rewrite app_nil_r. split; reflexivity.
  - cbn [length] in Hroom.
    destruct (CreateGLTexture_tags env filename tag0 w) as (b & w1 & a1 & Hrun & Hl1 & Hs1);
      [lia|].
    destruct (CreateGLTexture_count env filename tag0 w) as (b' & w1' & Hrun' & Hc & Hlen);
      [lia|].
    rewrite Hrun in Hrun'. injection Hrun' as <- <-.
    destruct (IH w1) as (w' & a2 & Hrest & Hl2 & Hs2); [lia|lia|].
    exists w', (a1 ++ a2). cbn [load_textures]. rewrite Hrun. cbn [obind].
    split; [exact Hrest|]. split; [now rewrite Hl2, Hl1, app_assoc|].
    rewrite fmap_app. change (snd <$> (filename, tag0) :: rest)
      with ([tag0] ++ (snd <$> rest)).
    now apply sublist_app.
Qed.

(** In the states [PrepareScene] reaches from an object with no texture
    loaded, the tags are pairwise distinct: every loaded texture is found
    at the index at which it was registered, and that index is the unit
    its texture is bound to. *)
Lemma PrepareScene_slot_is_own_index (env : Env) (w : World) :
  fresh_registry (this w) ->
  exists w',
    PrepareScene env w = Ok w' /\
    forall i e, loaded (this w') i e ->
      FindTextureSlot (this w') (tag e) = Ok i /\
      texture_on_unit (trace w') i = ID e.
Proof.
  intros [Hlen Hzero]. unfold PrepareScene, MAX_TEXTURES in *.
  set (w0 := emit _ w).
  destruct (load_textures_tags env PrepareScene_textures w0) as (w1 & added & Hrun & Hl & Hs).
  { subst w0. rewrite this_emit. lia. }
  { subst w0. rewrite this_emit. cbn [length PrepareScene_textures]. lia. }
  destruct (load_textures_count env PrepareScene_textures w0) as (w1' & Hrun' & Hc & Hlen').
  { subst w0. rewrite this_emit. lia. }
  { subst w0. rewrite this_emit. cbn [length PrepareScene_textures]. lia. }
  rewrite Hrun in Hrun'. injection Hrun' as <-.
  subst w0. rewrite this_emit in *. cbn [length PrepareScene_textures] in Hc.
  assert (Hok : registry_ok (this w1)) by (unfold registry_ok; lia).
  assert (Hnodup : NoDup (tag <$> loaded_textures (this w1))).
  { rewrite Hl. unfold loaded_textures at 1. rewrite Hzero. cbn [Z.to_nat take app].
    apply (sublist_NoDup _ (snd <$> PrepareScene_textures)); [|exact Hs].
    apply (bool_decide_unpack _). vm_compute. reflexivity. }
  rewrite Hrun. cbn [obind].
  destruct (BindGLTextures_units w1 Hok) as (w' & Hbind & Hthis & _ & Hunit).
  exists w'. split; [exact Hbind|]. rewrite Hthis.
  intros i e Hloaded. split; [|exact (Hunit i e Hloaded)].
  exact (proj1 (FindTextureSlot_distinct_tags (this w1) Hok Hnodup i e Hloaded)).
Qed.

(** ** The scene script *)

Lemma material_defined_first (s : SceneManager) (tag0 : string) :
  material_defined s tag0 ->
  exists m, first_material (m_objectMaterials s) tag0 = Some m.
Proof.
  intros (m & Hin & Htag).
  destruct (first_material (m_objectMaterials s) tag0) as [m'|] eqn:E; [now exists m'|].
  exfalso. exact (proj1 (first_material_None _ _) E m Hin Htag).
Qed.

(** One statement of the script: the calls it makes are determined by
    the object alone, and the object is not modified. *)
Lemma exec_call_commands (c : call) (s : SceneManager) :
  scene_ready s -> metal_or_wood c = true ->
  exists evs,
    (forall env w, this w = s ->
       exists w', exec_call env c w = Ok w' /\
                  this w' = s /\ trace w' = trace w ++ evs) /\
    (m_pShaderManager s <> NULL ->
     List.filter is_literal_command evs = literal_commands c).
Proof.
  intros [Hok Hmat] Htags.
  assert (Hnil : forall w : World, trace w = trace w ++ []) by
    (intros; now rewrite app_nil_r).
  destruct (m_pShaderManager s) as [|addr] eqn:Hptr.
  - (* no shader manager *)
    destruct c as [sc x y z p|r g b a|t|u v|t|m].
    1-4: exists []; split; [|congruence]; intros env w <-;
         cbn [exec_call]; unfold SetTransformations, SetShaderColor, SetShaderTexture,
           SetTextureUVScale; take_guard Hptr;
         eexists; split; [reflexivity|]; split; [reflexivity|apply Hnil].
    + exists []. split; [|congruence]. intros env w <-.
      cbn [exec_call]. unfold SetShaderMaterial.
      destruct Hmat as [Hempty|[Hcontra _]]; [|congruence].
      rewrite Hempty. cbn.
      eexists; split; [reflexivity|]; split; [reflexivity|apply Hnil].
    + exists [DrawMesh m]. split; [|congruence]. intros env w <-.
      cbn [exec_call]. eexists; split; [reflexivity|]. split; reflexivity.
  - destruct c as [sc x y z p|r g b a|t|u v|t|m].
    + exists (trace (SetTransformations sc x y z p (start_world (Ptr 1)))).
      split; [|intros _; reflexivity]. intros env w <-.
      cbn [exec_call]. unfold SetTransformations. take_guard Hptr.
      made_calls.
    + exists (trace (SetShaderColor r g b a (start_world (Ptr 1)))).
      split; [|intros _; reflexivity]. intros env w <-.
      cbn [exec_call]. unfold SetShaderColor. take_guard Hptr.
      made_calls.
    + assert (Hslot : exists slot, FindTextureSlot s t = Ok slot).
      { destruct (FindTexture_scan s t Hok)
          as [(i & e & _ & _ & _ & _ & Hslot)|(_ & _ & Hslot)]; eauto. }
      destruct Hslot as (slot & Hslot).
      exists [setIntValue g_UseTextureName 1; setSampler2DValue g_TextureValueName slot].
      split; [|intros _; reflexivity]. intros env w <-.
      cbn [exec_call]. unfold SetShaderTexture. take_guard Hptr.
      rewrite this_emit, Hslot. cbn [obind]. rewrite emit_emit.
      made_calls.
    + exists (trace (SetTextureUVScale u v (start_world (Ptr 1)))).
      split; [|intros _; reflexivity]. intros env w <-.
      cbn [exec_call]. unfold SetTextureUVScale. take_guard Hptr.
      made_calls.
    + destruct Hmat as [Hempty|(_ & Hmetal & Hwood)].
      * exists []. split; [|intros _; reflexivity]. intros env w <-.
        cbn [exec_call]. unfold SetShaderMaterial. rewrite Hempty. cbn.
        eexists; split; [reflexivity|]; split; [reflexivity|apply Hnil].
      * assert (Hdef : material_defined s t).
        { cbn [metal_or_wood] in Htags. apply orb_true_iff in Htags.
          destruct Htags as [H|H]; apply String.eqb_eq in H; now subst. }
        destruct (material_defined_first s t Hdef) as (m & Hfirst).
        exists [setVec3Value "material.diffuseColor" (diffuseColor m);
                setVec3Value "material.specularColor" (specularColor m);
                setFloatValue "material.shininess" (shininess m);
                setVec3Value "material.ambientColor" (ambientColor m);
                setFloatValue "material.ambientStrength" (ambientStrength m)].
        split; [|intros _; reflexivity]. intros env w <-.
        cbn [exec_call]. unfold SetShaderMaterial.
        rewrite FindMaterial_result, Hfirst, Hptr.
        destruct Hdef as (m0 & Hin & _).
        destruct (m_objectMaterials (this w)) as [|m1 rest]; [destruct Hin|].
        cbn. eexists; split; [reflexivity|]. split; reflexivity.
    + exists [DrawMesh m]. split; [|intros _; reflexivity]. intros env w <-.
      cbn [exec_call]. eexists; split; [reflexivity|]. split; reflexivity.
Qed.

(** A sequence of statements. *)
Lemma exec_calls_commands (cs : list call) (s : SceneManager) :
  scene_ready s -> forallb metal_or_wood cs = true ->
  exists cmds,
    (forall env w, this w = s ->
       exists w', exec_calls env cs w = Ok w' /\
                  this w' = s /\ trace w' = trace w ++ cmds) /\
    (m_pShaderManager s <> NULL ->
     List.filter is_literal_command cmds = flat_map literal_commands cs).
Proof.
  intros Hready. induction cs as [|c rest IH]; intros Htags.
  - exists []. split; [|reflexivity]. intros env w Hw.
    exists w. split; [reflexivity|]. split; [exact Hw|now rewrite app_nil_r].
  - cbn [forallb] in Htags. apply andb_true_iff in Htags. destruct Htags as [Hc Hrest].
    destruct (exec_call_commands c s Hready Hc) as (evs & Hrun & Hlit).
    destruct (IH Hrest) as (cmds & Hruns & Hlits).
    exists (evs ++ cmds). split.
    + intros env w Hw.
      destruct (Hrun env w Hw) as (w1 & Hrun1 & Hthis1 & Htrace1).
      destruct (Hruns env w1 Hthis1) as (w' & Hrun' & Hthis' & Htrace').
      exists w'. cbn [exec_calls]. rewrite Hrun1. cbn [obind].
      split; [exact Hrun'|]. split; [exact Hthis'|].
      rewrite Htrace', Htrace1. now rewrite app_assoc.
    + intros Hptr. cbn [flat_map]. rewrite List.filter_app.
      now rewrite (Hlit Hptr), (Hlits Hptr).
Qed.

(** C8. [RenderScene] takes no input: from the same object state (the
    two registries and the shader manager pointer), ready for rendering,
    any two invocations return and issue exactly the same sequence of
    commands, whatever calls were made before and whatever the environment
    holds, and leave the object as it was; with a shader manager attached,
    the transform, color, UV-scale and draw commands of that sequence are
    one fixed list of literals, the same for every state of the
    registries. *)
Theorem RenderScene_deterministic_input_free (env1 env2 : Env) (w1 w2 : World) :
  this w1 = this w2 ->
  scene_ready (this w1) ->
  exists cmds w1' w2',
    RenderScene env1 w1 = Ok w1' /\
    RenderScene env2 w2 = Ok w2' /\
    trace w1' = trace w1 ++ cmds /\
    trace w2' = trace w2 ++ cmds /\
    this w1' = this w1 /\
    this w2' = this w2 /\
    (m_pShaderManager (this w1) <> NULL ->
     List.filter is_literal_command cmds = RenderScene_literals).
Proof.
  intros Hsame Hready.
  destruct (exec_calls_commands RenderScene_body (this w1) Hready)
    as (cmds & Hruns & Hlits); [vm_compute; reflexivity|].
  destruct (Hruns env1 w1 eq_refl) as (w1' & Hrun1 & Hthis1 & Htrace1).
  destruct (Hruns env2 w2 (eq_sym Hsame)) as (w2' & Hrun2 & Hthis2 & Htrace2).
  exists cmds, w1', w2'. unfold RenderScene.
  repeat (split; [assumption|]).
  split; [congruence|].
  intros Hptr. rewrite (Hlits Hptr). vm_compute. reflexivity.
Qed.

Lemma RenderScene_deterministic_input_free_witness :
  exists cmds,
    trace_of (RenderScene rgb_env {| this := materials_defined; trace := [] |}) = cmds /\
    trace_of (RenderScene no_file_env
                {| this := materials_defined; trace := [DrawMesh BoxMesh] |})
      = DrawMesh BoxMesh :: cmds.
Proof.
  assert (Hready : scene_ready materials_defined).
  { split; [unfold registry_ok; simpl; lia|]. right.
    split; [discriminate|].
    split; [exists shinyMaterial|exists dullMaterial]; simpl; auto. }
  destruct (RenderScene_deterministic_input_free rgb_env no_file_env
              {| this := materials_defined; trace := [] |}
              {| this := materials_defined; trace := [DrawMesh BoxMesh] |}
              eq_refl Hready)
    as (cmds & w1' & w2' & Hrun1 & Hrun2 & Htrace1 & Htrace2 & _).
  exists cmds. rewrite Hrun1, Hrun2. cbn [trace_of].
  rewrite Htrace1, Htrace2. split; reflexivity.
Defined.

(** ** Sample runs *)

(** [PrepareScene] when every file decodes: twelve textures, registered
    in the order of the calls, each bound to the unit of its index. *)
Example PrepareScene_all_files_decode :
  exists w,
    PrepareScene rgb_env (start_world (Ptr 1)) = Ok w /\
    m_loadedTextures (this w) = 12 /\
    map tag (loaded_textures (this w)) =
      ["brick"; "wood"; "wall"; "grass"; "cement"; "beam"; "door"; "outergreen";
       "concrete"; "roof"; "window"; "garage"] /\
    FindTextureSlot (this w) "garage" = Ok 11 /\
    FindTextureID (this w) "garage" = Ok (texture_on_unit (trace w) 11) /\
    FindTextureSlot (this w) "marble" = Ok (-1).
Proof. eexists. split; [vm_compute; reflexivity|]. repeat split. Qed.

(** [PrepareScene] when no file can be read: it still returns, with an
    empty registry. *)
Example PrepareScene_no_file_readable :
  exists w,
    PrepareScene no_file_env (start_world (Ptr 1)) = Ok w /\
    this w = constructed (Ptr 1).
Proof. eexists. split; [vm_compute; reflexivity|]. reflexivity. Qed.

(** [CreateGLTexture] has no capacity check: with sixteen textures loaded
    and a file that decodes, it stores outside the array. *)
Example CreateGLTexture_full_array :
  CreateGLTexture rgb_env "textures/Brick.jpg" "brick"
    {| this := full_registry; trace := [] |} = Undefined.
Proof. reflexivity. Qed.

(** [SetShaderMaterial] with an undefined tag while materials are defined:
    [FindMaterial] returns [true], and the five uploads carry the fields
    of the local that nothing has initialised. *)
Example SetShaderMaterial_undefined_tag :
  trace_of (SetShaderMaterial no_file_env "glass"
              {| this := materials_defined; trace := [] |}) =
    [setVec3Value "material.diffuseColor" (Vec3 5 6 7);
     setVec3Value "material.specularColor" (Vec3 8 9 10);
     setFloatValue "material.shininess" 11;
     setVec3Value "material.ambientColor" (Vec3 1 2 3);
     setFloatValue "material.ambientStrength" 4].
Proof. reflexivity. Qed.

(** [SetShaderMaterial] with a defined tag: the values of the registry. *)
Example SetShaderMaterial_wood :
  trace_of (SetShaderMaterial no_file_env "wood"
              {| this := materials_defined; trace := [] |}) =
    [setVec3Value "material.diffuseColor" (Vec3 0.3 0.3 0.3);
     setVec3Value "material.specularColor" (Vec3 0.1 0.1 0.1);
     setFloatValue "material.shininess" 16.0;
     setVec3Value "material.ambientColor" (Vec3 0.1 0.1 0.1);
     setFloatValue "material.ambientStrength" 0.1].
Proof. reflexivity. Qed.

(** The first block of [RenderScene] on a constructed object with a
    shader manager: no texture is loaded, so the sampler receives -1; no
    material is defined, so none is uploaded. *)
Example RenderScene_first_block :
  firstn 7 (trace_of (RenderScene rgb_env (start_world (Ptr 1)))) =
    [setMat4Value "model"
       (glm_translate (Vec3 0.0 0.0 0.0)
        * glm_rotate (glm_radians 0.0) (Vec3 0.0 0.0 1.0)
        * glm_rotate (glm_radians 0.0) (Vec3 0.0 1.0 0.0)
        * glm_rotate (glm_radians 0.0) (Vec3 1.0 0.0 0.0)
        * glm_scale (Vec3 20.0 1.0 10.0))%mat4;
     setIntValue "bUseTexture" 0;
     setVec4Value "objectColor" (Vec4 0.5 0.5 0.5 1);
     setIntValue "bUseTexture" 1;
     setSampler2DValue "objectTexture" (-1);
     setVec2Value "UVscale" (Vec2 1 1);
     DrawMesh PlaneMesh].
Proof. reflexivity. Qed.

(** [SetupSceneLights] dereferences the shader manager without a check. *)
Example SetupSceneLights_null_manager :
  SetupSceneLights (start_world NULL) = Undefined.
Proof. reflexivity. Qed.

(** [DestroyGLTextures] generates a new name for every loaded texture and
    stores it in the registry. *)
Example DestroyGLTextures_two_textures :
  exists w,
    DestroyGLTextures rgb_env {| this := two_textures; trace := [] |} = Ok w /\
    loaded_textures (this w) = [{| ID := 1; tag := "brick" |}; {| ID := 2; tag := "wood" |}] /\
    trace w = [glGenTextures 1; glGenTextures 2].
Proof. eexists. split; [vm_compute; reflexivity|]. split; reflexivity. Qed.

(** * Further properties *)

(** ** The two lookups *)

Lemma FindTexture_first (s : SceneManager) (tag0 : string) (i : Z) (e : TEXTURE_INFO) :
  registry_ok s ->
  loaded s i e -> tag e = tag0 ->
  (forall j e', loaded s j e' -> j < i -> tag e' <> tag0) ->
  FindTextureSlot s tag0 = Ok i /\
  FindTextureID s tag0 = Ok (int_of_GLuint (ID e)).
Proof.
  intros Hok Hl Ht Hfirst.
  destruct (FindTexture_scan s tag0 Hok)
    as [(i0 & e0 & Hl0 & Ht0 & Hfirst0 & HID & Hslot)|(Hnone & _)].
  - assert (i0 = i) as ->.
    { destruct (Z.lt_trichotomy i0 i) as [Hlt|[Heq|Hgt]]; [|exact Heq|].
      - exfalso. exact (Hfirst i0 e0 Hl0 Hlt Ht0).
      - exfalso. apply (Hfirst0 i e Hl); [lia|exact Ht]. }
    assert (e0 = e) as -> by (destruct Hl as [_ Hl], Hl0 as [_ Hl0]; congruence).
    split; assumption.
  - exfalso. exact (Hnone i e Hl Ht).
Qed.

(** X1. On a registry within its array, [FindTextureSlot] returns either
    -1, and then no loaded texture carries the tag and [FindTextureID]
    returns -1 too, or an index below the count of loaded textures, and
    then the entry at that index carries the tag and [FindTextureID]
    returns the ID of that very entry: the two lookups always speak of the
    same entry, and a slot is never outside the loaded part of the
    array. *)
Theorem FindTextureSlot_bounds_and_agreement (s : SceneManager) (tag0 : string) :
  registry_ok s ->
  exists slot,
    FindTextureSlot s tag0 = Ok slot /\
    ((slot = -1 /\ FindTextureID s tag0 = Ok (-1) /\
      forall i e, loaded s i e -> tag e <> tag0)
     \/
     (0 <= slot < m_loadedTextures s /\
      exists e, array_get (m_textureIDs s) slot = Ok e /\ tag e = tag0 /\
                FindTextureID s tag0 = Ok (int_of_GLuint (ID e)))).
Proof.
  intros Hok.
  destruct (FindTexture_scan s tag0 Hok)
    as [(i & e & Hl & Ht & _ & HID & Hslot)|(Hnone & HID & Hslot)].
  - exists i. split; [exact Hslot|]. right. destruct Hl as [Hi Hl].
    split; [exact Hi|]. exists e. split; [|split; assumption].
    apply array_get_Ok; [lia|exact Hl].
  - exists (-1). split; [exact Hslot|]. left. repeat split; assumption.
Qed.

Lemma FindTextureSlot_bounds_and_agreement_witness :
  exists slot,
    FindTextureSlot two_textures "wood" = Ok slot /\ 0 <= slot < 2.
Proof.
  destruct (FindTextureSlot_bounds_and_agreement two_textures "wood")
    as (slot & Hslot & [(-> & _ & Hnone)|(Hrange & _)]).
  - unfold registry_ok. simpl. lia.
  - exfalso. apply (Hnone 1 {| ID := 9; tag := "wood" |}); [|reflexivity].
    split; [simpl; lia|reflexivity].
  - exists slot. split; [exact Hslot|exact Hrange].
Defined.

(** ** Registration and lookup *)

Lemma loaded_after_register (s : SceneManager) (new : TEXTURE_INFO) (i : Z)
    (e : TEXTURE_INFO) :
  0 <= m_loadedTextures s < Z.of_nat (length (m_textureIDs s)) ->
  loaded (set_loadedTextures (m_loadedTextures s + 1)
            (set_textureIDs (<[Z.to_nat (m_loadedTextures s) := new]> (m_textureIDs s)) s))
         i e <->
  loaded s i e \/ (i = m_loadedTextures s /\ e = new).
Proof.
  intros Hrange. unfold loaded.
  cbn [set_loadedTextures set_textureIDs m_loadedTextures m_textureIDs].
  destruct (Z.eq_dec i (m_loadedTextures s)) as [->|Hne].
  - rewrite list_lookup_insert_eq by lia. split.
    + intros [_ [= <-]]. right. split; reflexivity.
    + intros [[Hi _]|[_ ->]]; [lia|]. split; [lia|reflexivity].
  - split.
    + intros [Hi Hl]. rewrite list_lookup_insert_ne in Hl by lia.
      left. split; [lia|exact Hl].
    + intros [[Hi Hl]|[Hi _]]; [|contradiction].
      rewrite list_lookup_insert_ne by lia. split; [lia|exact Hl].
Qed.

(** What a call that returns [true] has done. *)
Lemma CreateGLTexture_true_inv (env : Env) (filename tag0 : string) (w w' : World) :
  0 <= m_loadedTextures (this w) < Z.of_nat (length (m_textureIDs (this w))) ->
  CreateGLTexture env filename tag0 w = Ok (true, w') ->
  exists evs textureID,
    In (glGenTextures textureID) evs /\
    w' = {| this :=
              set_loadedTextures (m_loadedTextures (this w) + 1)
                (set_textureIDs
                   (<[Z.to_nat (m_loadedTextures (this w)) :=
                        {| ID := textureID; tag := tag0 |}]> (m_textureIDs (this w)))
                   (this w));
            trace := trace w ++ evs |}.
Proof.
  intros Hrange Hrun.
  destruct (env_stbi_load env filename) as [img|] eqn:Hload.
  - destruct (Z.eq_dec (colorChannels img) 3) as [H3|H3];
      [|destruct (Z.eq_dec (colorChannels img) 4) as [H4|H4]].
    1,2: destruct (CreateGLTexture_supported env filename tag0 w img Hload)
           as (evs & textureID & Hin & Hrun'); [tauto|exact Hrange|];
         rewrite Hrun' in Hrun; injection Hrun as <-;
         exists evs, textureID; split; [exact Hin|reflexivity].
    rewrite (CreateGLTexture_unsupported _ _ _ _ _ Hload H3 H4) in Hrun. discriminate.
  - rewrite (CreateGLTexture_unreadable _ _ _ _ Hload) in Hrun. discriminate.
Qed.

(** X2. Registration then lookup: when [CreateGLTexture] returns [true]
    for a tag that no loaded texture carried, [FindTextureSlot] on that tag
    returns the count of textures loaded before the call and
    [FindTextureID] returns the texture name [glGenTextures] handed out
    during the call. *)
Theorem CreateGLTexture_then_lookup (env : Env) (filename tag0 : string) (w w' : World) :
  0 <= m_loadedTextures (this w) < Z.of_nat (length (m_textureIDs (this w))) ->
  (forall i e, loaded (this w) i e -> tag e <> tag0) ->
  CreateGLTexture env filename tag0 w = Ok (true, w') ->
  FindTextureSlot (this w') tag0 = Ok (m_loadedTextures (this w)) /\
  exists evs textureID,
    trace w' = trace w ++ evs /\ In (glGenTextures textureID) evs /\
    FindTextureID (this w') tag0 = Ok (int_of_GLuint textureID).
Proof.
  intros Hrange Hfresh Hrun.
  destruct (CreateGLTexture_true_inv env filename tag0 w w' Hrange Hrun)
    as (evs & textureID & Hin & ->).
  cbn [this trace].
  destruct (FindTexture_first
              (set_loadedTextures (m_loadedTextures (this w) + 1)
                 (set_textureIDs
                    (<[Z.to_nat (m_loadedTextures (this w)) :=
                         {| ID := textureID; tag := tag0 |}]> (m_textureIDs (this w)))
                    (this w)))
              tag0 (m_loadedTextures (this w)) {| ID := textureID; tag := tag0 |})
    as [Hslot HID].
  - unfold registry_ok. cbn. rewrite length_insert. lia.
  - apply loaded_after_register; [exact Hrange|]. right. split; reflexivity.
  - reflexivity.
  - intros j e' Hl Hlt. apply loaded_after_register in Hl; [|exact Hrange].
    destruct Hl as [Hl|[Hj _]]; [exact (Hfresh j e' Hl)|lia].
  - split; [exact Hslot|]. exists evs, textureID. repeat split; assumption.
Qed.

Lemma CreateGLTexture_then_lookup_witness :
  exists w',
    CreateGLTexture rgb_env "textures/roof.jpg" "roof"
      {| this := two_textures; trace := [] |} = Ok (true, w') /\
    FindTextureSlot (this w') "roof" = Ok 2.
Proof.
  eexists. split; [vm_compute; reflexivity|].
  refine (proj1 (CreateGLTexture_then_lookup rgb_env "textures/roof.jpg" "roof"
                   {| this := two_textures; trace := [] |} _ _ _ eq_refl)).
  - simpl. lia.
  - intros i e [Hi Hl]. simpl in Hi.
    assert (i = 0 \/ i = 1) as [-> | ->] by lia;
      simpl in Hl; injection Hl as <-; discriminate.
Defined.

(** X3. Registration never disturbs earlier lookups: in a state with
    room in the array, [CreateGLTexture] returns, and every tag that
    [FindTextureSlot] found before the call is found at the same index
    after it, with the same ID, whether the call succeeded or not and
    even when it registered that same tag again. *)
Theorem CreateGLTexture_keeps_lookups (env : Env) (filename tag0 : string) (w : World) :
  0 <= m_loadedTextures (this w) < Z.of_nat (length (m_textureIDs (this w))) ->
  exists b w',
    CreateGLTexture env filename tag0 w = Ok (b, w') /\
    forall tag1 slot,
      0 <= slot ->
      FindTextureSlot (this w) tag1 = Ok slot ->
      FindTextureSlot (this w') tag1 = Ok slot /\
      FindTextureID (this w') tag1 = FindTextureID (this w) tag1.
Proof.
  intros Hrange.
  destruct (CreateGLTexture_count env filename tag0 w Hrange) as (b & w' & Hrun & _).
  exists b, w'. split; [exact Hrun|].
  intros tag1 slot Hslot0 Hslot.
  destruct b.
  - destruct (CreateGLTexture_true_inv env filename tag0 w w' Hrange Hrun)
      as (evs & textureID & _ & ->).
    cbn [this].
    assert (Hok : registry_ok (this w)) by (unfold registry_ok; lia).
    destruct (FindTexture_scan (this w) tag1 Hok)
      as [(i & e & Hl & Ht & Hfirst & HID & Hslot')|(_ & _ & Hslot')];
      [|rewrite Hslot' in Hslot; injection Hslot as Heq; lia].
    rewrite Hslot' in Hslot. injection Hslot as <-. rewrite HID.
    apply FindTexture_first.
    + unfold registry_ok. cbn. rewrite length_insert. lia.
    + apply loaded_after_register; [exact Hrange|]. now left.
    + exact Ht.
    + intros j e' Hl' Hlt. apply loaded_after_register in Hl'; [|exact Hrange].
      destruct Hl' as [Hl'|[Hj _]]; [exact (Hfirst j e' Hl' Hlt)|].
      destruct Hl as [Hi _]. lia.
  - assert (Hthis : this w' = this w).
    { unfold CreateGLTexture in Hrun.
      destruct (env_stbi_load env filename) as [img|].
      - destruct (colorChannels img =? 3).
        { destruct (store_ID _ _ _) as [s1|]; [|discriminate]. cbn [obind] in Hrun.
          destruct (store_tag _ _ _) as [s2|]; discriminate. }
        destruct (colorChannels img =? 4).
        { destruct (store_ID _ _ _) as [s1|]; [|discriminate]. cbn [obind] in Hrun.
          destruct (store_tag _ _ _) as [s2|]; discriminate. }
        injection Hrun as <-. reflexivity.
      - injection Hrun as <-. reflexivity. }
    rewrite Hthis. split; [exact Hslot|reflexivity].
Qed.

Lemma CreateGLTexture_keeps_lookups_witness :
  exists b w',
    CreateGLTexture rgb_env "textures/other.jpg" "wood"
      {| this := two_textures; trace := [] |} = Ok (b, w') /\
    FindTextureSlot (this w') "wood" = Ok 1.
Proof.
  destruct (CreateGLTexture_keeps_lookups rgb_env "textures/other.jpg" "wood"
              {| this := two_textures; trace := [] |})
    as (b & w' & Hrun & Hkeep); [simpl; lia|].
  exists b, w'. split; [exact Hrun|].
  apply (Hkeep "wood" 1); [lia|reflexivity].
Defined.

(** ** The calls of CreateGLTexture *)

(** The calls of a successful [CreateGLTexture], in order. *)
Lemma CreateGLTexture_supported_trace (env : Env) (filename tag0 : string) (w : World)
    (img : Image) :
  env_stbi_load env filename = Some img ->
  colorChannels img = 3 \/ colorChannels img = 4 ->
  0 <= m_loadedTextures (this w) < Z.of_nat (length (m_textureIDs (this w))) ->
  exists w',
    CreateGLTexture env filename tag0 w = Ok (true, w') /\
    trace w' =
      trace w ++ decoded_prefix env filename img (trace w)
        ++ [glTexImage2D GL_TEXTURE_2D 0
              (if colorChannels img =? 3 then GL_RGB8 else GL_RGBA8)
              (width img) (height img) 0
              (if colorChannels img =? 3 then GL_RGB else GL_RGBA) GL_UNSIGNED_BYTE;
            glGenerateMipmap GL_TEXTURE_2D;
            stbi_image_free;
            glBindTexture GL_TEXTURE_2D 0].
Proof.
  intros Hload Hch Hrange. unfold CreateGLTexture. rewrite Hload.
  set (textureID := env_gen_texture env _).
  destruct (Z.eqb_spec (colorChannels img) 3) as [H3|H3].
  - rewrite !emit_emit. cbn [this emit].
    rewrite (register_texture (this w) textureID tag0 _ Hrange).
    eexists. split; [reflexivity|].
    subst textureID. unfold decoded_prefix. cbn [trace set_this emit app].
    rewrite <- !app_assoc. reflexivity.
  - destruct (Z.eqb_spec (colorChannels img) 4) as [H4|H4]; [|lia].
    rewrite !emit_emit. cbn [this emit].
    rewrite (register_texture (this w) textureID tag0 _ Hrange).
    eexists. split; [reflexivity|].
    subst textureID. unfold decoded_prefix. cbn [trace set_this emit app].
    rewrite <- !app_assoc. reflexivity.
Qed.

(** The three ways a call ends, with the calls made. *)
Lemma CreateGLTexture_cases (env : Env) (filename tag0 : string) (w : World) :
  0 <= m_loadedTextures (this w) < Z.of_nat (length (m_textureIDs (this w))) ->
  exists b w' evs,
    CreateGLTexture env filename tag0 w = Ok (b, w') /\
    trace w' = trace w ++ evs /\
    ((b = false /\ env_stbi_load env filename = None /\
      evs = [stbi_set_flip_vertically_on_load true; stbi_load filename None;
             cout (msg_could_not_load filename)])
     \/
     (exists img,
         b = false /\ env_stbi_load env filename = Some img /\
         colorChannels img <> 3 /\ colorChannels img <> 4 /\
         evs = decoded_prefix env filename img (trace w)
                 ++ [cout (msg_not_implemented (colorChannels img))])
     \/
     (exists img,
         b = true /\ env_stbi_load env filename = Some img /\
         (colorChannels img = 3 \/ colorChannels img = 4) /\
         evs = decoded_prefix env filename img (trace w)
                 ++ [glTexImage2D GL_TEXTURE_2D 0
                       (if colorChannels img =? 3 then GL_RGB8 else GL_RGBA8)
                       (width img) (height img) 0
                       (if colorChannels img =? 3 then GL_RGB else GL_RGBA)
                       GL_UNSIGNED_BYTE;
                     glGenerateMipmap GL_TEXTURE_2D;
                     stbi_image_free;
                     glBindTexture GL_TEXTURE_2D 0])).
Proof.
  intros Hrange.
  destruct (env_stbi_load env filename) as [img|] eqn:Hload.
  - destruct (Z.eq_dec (colorChannels img) 3) as [H3|H3];
      [|destruct (Z.eq_dec (colorChannels img) 4) as [H4|H4]].
    1,2: destruct (CreateGLTexture_supported_trace env filename tag0 w img Hload)
           as (w' & Hrun & Htrace); [tauto|exact Hrange|];
         exists true, w'; eexists; split; [exact Hrun|]; split; [exact Htrace|];
         right; right; exists img; repeat split; tauto.
    exists false. eexists. eexists.
    split; [exact (CreateGLTexture_unsupported _ _ _ _ _ Hload H3 H4)|].
    split; [reflexivity|]. right. left. exists img. repeat split; assumption.
  - exists false. eexists. eexists.
    split; [exact (CreateGLTexture_unreadable _ _ _ _ Hload)|].
    split; [reflexivity|]. left. repeat split.
Qed.

(** X4. What [CreateGLTexture] leaves on the texture units.  It never
    changes the active unit nor the binding of any other unit.  On the
    active unit: a call that returns [true] leaves no texture bound
    (texture 0), so it removes whatever was bound there; a call that
    cannot read the file leaves the binding as it was; a call that gives
    up on the channel count leaves the texture it has just generated
    bound. *)
Theorem CreateGLTexture_texture_units (env : Env) (filename tag0 : string) (w : World) :
  0 <= m_loadedTextures (this w) < Z.of_nat (length (m_textureIDs (this w))) ->
  exists b w',
    CreateGLTexture env filename tag0 w = Ok (b, w') /\
    active_unit (gl_units (trace w')) = active_unit (gl_units (trace w)) /\
    (forall u, u <> active_unit (gl_units (trace w)) ->
               texture_on_unit (trace w') u = texture_on_unit (trace w) u) /\
    (b = true ->
     texture_on_unit (trace w') (active_unit (gl_units (trace w))) = 0) /\
    (env_stbi_load env filename = None ->
     texture_on_unit (trace w') (active_unit (gl_units (trace w))) =
       texture_on_unit (trace w) (active_unit (gl_units (trace w)))) /\
    (b = false -> env_stbi_load env filename <> None ->
     exists evs name,
       trace w' = trace w ++ evs /\ In (glGenTextures name) evs /\
       texture_on_unit (trace w') (active_unit (gl_units (trace w))) = name).
Proof.
  intros Hrange.
  destruct (CreateGLTexture_cases env filename tag0 w Hrange)
    as (b & w' & evs & Hrun & Htrace &
        [(-> & Hload & ->)|[(img & -> & Hload & H3 & H4 & ->)
                           |(img & -> & Hload & Hch & ->)]]).
  - exists false, w'. split; [exact Hrun|]. unfold texture_on_unit.
    rewrite Htrace, gl_units_app. cbn.
    repeat split; try reflexivity; try discriminate. congruence.
  - exists false, w'. split; [exact Hrun|]. unfold texture_on_unit.
    rewrite Htrace, gl_units_app. cbn.
    split; [reflexivity|]. split.
    { intros u Hu. destruct (Z.eqb_spec u (active_unit (gl_units (trace w))));
        [contradiction|reflexivity]. }
    split; [discriminate|]. split; [congruence|].
    intros _ _. eexists _, _. split; [reflexivity|].
    split; [simpl; auto 10|]. now rewrite Z.eqb_refl.
  - exists true, w'. split; [exact Hrun|]. unfold texture_on_unit.
    rewrite Htrace, gl_units_app. cbn.
    split; [reflexivity|]. split.
    { intros u Hu. destruct (Z.eqb_spec u (active_unit (gl_units (trace w))));
        [contradiction|reflexivity]. }
    split; [intros _; now rewrite Z.eqb_refl|]. split; [congruence|discriminate].
Qed.

Lemma CreateGLTexture_texture_units_witness :
  exists w1 w2,
    BindGLTextures {| this := two_textures; trace := [] |} = Ok w1 /\
    texture_on_unit (trace w1) 1 = 9 /\
    CreateGLTexture rgb_env "textures/roof.jpg" "roof" w1 = Ok (true, w2) /\
    texture_on_unit (trace w2) 1 = 0 /\
    texture_on_unit (trace w2) 0 = 7.
Proof.
  destruct (CreateGLTexture_texture_units rgb_env "textures/roof.jpg" "roof"
              {| this := two_textures;
                 trace := bind_calls 0 (loaded_textures two_textures) |})
    as (b & w2 & Hrun & _ & Hother & Htrue & _); [simpl; lia|].
  vm_compute in Hrun. injection Hrun as <- <-.
  eexists _, _. split; [vm_compute; reflexivity|].
  split; [reflexivity|]. split; [vm_compute; reflexivity|].
  split; reflexivity.
Defined.

(** X5. What [CreateGLTexture] acquires and releases.  In every call
    [stbi_load] is called once.  The image is released with
    [stbi_image_free] exactly when the call returns [true]: a call that
    gives up on the channel count returns [false] with the decoded image
    never released and with a texture name generated that no registry
    entry records.  A call that cannot read the file makes no OpenGL call
    at all. *)
Theorem CreateGLTexture_acquire_release (env : Env) (filename tag0 : string) (w : World) :
  0 <= m_loadedTextures (this w) < Z.of_nat (length (m_textureIDs (this w))) ->
  exists b w' evs,
    CreateGLTexture env filename tag0 w = Ok (b, w') /\
    trace w' = trace w ++ evs /\
    count_calls is_stbi_load evs = 1%nat /\
    count_calls is_stbi_image_free evs = (if b then 1 else 0)%nat /\
    count_calls is_glGenTextures evs =
      match env_stbi_load env filename with Some _ => 1%nat | None => 0%nat end /\
    (env_stbi_load env filename = None -> count_calls is_gl_call evs = 0%nat) /\
    (b = false -> this w' = this w).
Proof.
  intros Hrange.
  destruct (CreateGLTexture_cases env filename tag0 w Hrange)
    as (b & w' & evs & Hrun & Htrace &
        [(Hb & Hload & Hevs)|[(img & Hb & Hload & H3 & H4 & Hevs)
                             |(img & Hb & Hload & Hch & Hevs)]]);
    exists b, w', evs; (split; [exact Hrun|]); (split; [exact Htrace|]);
    rewrite Hload; subst b evs.
  - repeat split. rewrite (CreateGLTexture_unreadable _ _ _ _ Hload) in Hrun.
    injection Hrun as <-. reflexivity.
  - repeat split; try discriminate.
    rewrite (CreateGLTexture_unsupported _ _ _ _ _ Hload H3 H4) in Hrun.
    injection Hrun as <-. reflexivity.
  - repeat split; discriminate.
Qed.

Lemma CreateGLTexture_acquire_release_witness :
  exists w' evs,
    CreateGLTexture grey_env "textures/door.jpg" "door"
      {| this := two_textures; trace := [] |} = Ok (false, w') /\
    trace w' = evs /\
    count_calls is_stbi_image_free evs = 0%nat /\
    count_calls is_glGenTextures evs = 1%nat.
Proof.
  destruct (CreateGLTexture_acquire_release grey_env "textures/door.jpg" "door"
              {| this := two_textures; trace := [] |})
    as (b & w' & evs & Hrun & Htrace & _ & Hfree & Hgen & _); [simpl; lia|].
  vm_compute in Hrun. injection Hrun as <- <-.
  eexists _, evs. split; [vm_compute; reflexivity|].
  split; [exact Htrace|]. split; [exact Hfree|exact Hgen].
Defined.

(** ** Binding and regenerating *)

(** X6. [BindGLTextures] on a registry within its array returns, does
    not modify the object, and touches only the units below the count of
    loaded textures; with no texture loaded it makes no call; and it is
    idempotent on the texture units: binding a second time leaves every
    unit as the first call left it. *)
Theorem BindGLTextures_frame_and_idempotent (w : World) :
  registry_ok (this w) ->
  exists w1 w2,
    BindGLTextures w = Ok w1 /\
    BindGLTextures w1 = Ok w2 /\
    this w1 = this w /\ this w2 = this w /\
    (forall u, u < 0 \/ m_loadedTextures (this w) <= u ->
               texture_on_unit (trace w1) u = texture_on_unit (trace w) u) /\
    (m_loadedTextures (this w) <= 0 -> trace w1 = trace w) /\
    (forall u, texture_on_unit (trace w2) u = texture_on_unit (trace w1) u).
Proof.
  intros Hok.
  destruct (BindGLTextures_units w Hok) as (w1 & Hrun1 & Hthis1 & Htrace1 & Hunit1).
  assert (Hok1 : registry_ok (this w1)) by (now rewrite Hthis1).
  destruct (BindGLTextures_units w1 Hok1) as (w2 & Hrun2 & Hthis2 & Htrace2 & Hunit2).
  exists w1, w2. rewrite Hthis1 in *.
  assert (Hframe : forall tr u,
             u < 0 \/ m_loadedTextures (this w) <= u ->
             texture_on_unit (tr ++ bind_calls 0 (loaded_textures (this w))) u
               = texture_on_unit tr u).
  { intros tr u Hu. unfold texture_on_unit. rewrite gl_units_app.
    apply (bind_calls_units (loaded_textures (this w)) 0 (gl_units tr)).
    destruct Hu as [Hu|Hu]; [left; exact Hu|].
    destruct (Z.le_gt_cases 0 (m_loadedTextures (this w))) as [H0|H0].
    - rewrite length_loaded_textures by assumption. right. lia.
    - unfold loaded_textures. replace (Z.to_nat (m_loadedTextures (this w))) with O by lia.
      rewrite take_0. cbn [length]. lia. }
  repeat (split; [assumption || congruence|]).
  split; [intros u Hu; rewrite Htrace1; now apply Hframe|].
  split.
  - intros Hle. rewrite Htrace1. unfold loaded_textures.
    replace (Z.to_nat (m_loadedTextures (this w))) with O by lia.
    cbn. now rewrite app_nil_r.
  - intros u.
    destruct (Z.lt_ge_cases u 0) as [Hneg|Hpos];
      [rewrite Htrace2; apply Hframe; now left|].
    destruct (Z.lt_ge_cases u (m_loadedTextures (this w))) as [Hin|Hout];
      [|rewrite Htrace2; apply Hframe; now right].
    unfold registry_ok in Hok.
    destruct (array_get_in_range (m_textureIDs (this w)) u) as (e & He & _); [lia|].
    assert (Hl : loaded (this w) u e) by (split; [lia|exact He]).
    rewrite (Hunit2 u e Hl). symmetry. exact (Hunit1 u e Hl).
Qed.

Lemma BindGLTextures_frame_and_idempotent_witness :
  exists w1 w2,
    BindGLTextures {| this := two_textures; trace := [] |} = Ok w1 /\
    BindGLTextures w1 = Ok w2 /\
    texture_on_unit (trace w2) 1 = texture_on_unit (trace w1) 1 /\
    texture_on_unit (trace w1) 2 = 0.
Proof.
  destruct (BindGLTextures_frame_and_idempotent {| this := two_textures; trace := [] |})
    as (w1 & w2 & Hrun1 & Hrun2 & _ & _ & Hframe & _ & Hidem).
  - unfold registry_ok. simpl. lia.
  - exists w1, w2. split; [exact Hrun1|]. split; [exact Hrun2|].
    split; [apply Hidem|]. rewrite Hframe; [reflexivity|]. right. simpl. lia.
Defined.

(** The scan for a slot reads nothing but the tags. *)
Lemma FindTextureSlot_loop_tags (n : nat) :
  forall (a a' : list TEXTURE_INFO) (tag0 : string) (k : Z),
    tag <$> a = tag <$> a' ->
    FindTextureSlot_loop n a tag0 k = FindTextureSlot_loop n a' tag0 k.
Proof.
  induction n as [|n IH]; intros a a' tag0 k Htags; [reflexivity|].
  cbn [FindTextureSlot_loop]. unfold array_get.
  destruct (0 <=? k); [|reflexivity].
  assert (Hk : tag <$> (a !! Z.to_nat k) = tag <$> (a' !! Z.to_nat k)).
  { rewrite <- !list_lookup_fmap. now rewrite Htags. }
  destruct (a !! Z.to_nat k) as [e|], (a' !! Z.to_nat k) as [e'|];
    try discriminate; [|reflexivity].
  cbn [obind]. injection Hk as Hk. rewrite Hk.
  destruct (compare_eq0 (tag e') tag0); [reflexivity|].
  now apply IH.
Qed.

(** The loop of [DestroyGLTextures] from index [i], [n] entries
    remaining. *)
Lemma DestroyGLTextures_loop_names (env : Env) (n : nat) :
  forall (i : nat) (w : World),
    (i + n <= length (m_textureIDs (this w)))%nat ->
    exists w',
      DestroyGLTextures_loop env n (Z.of_nat i) w = Ok w' /\
      m_loadedTextures (this w') = m_loadedTextures (this w) /\
      m_pShaderManager (this w') = m_pShaderManager (this w) /\
      m_objectMaterials (this w') = m_objectMaterials (this w) /\
      tag <$> m_textureIDs (this w') = tag <$> m_textureIDs (this w) /\
      take i (m_textureIDs (this w')) = take i (m_textureIDs (this w)) /\
      drop (i + n) (m_textureIDs (this w')) = drop (i + n) (m_textureIDs (this w)) /\
      trace w' =
        trace w ++ ((fun e => glGenTextures (ID e))
                      <$> take n (drop i (m_textureIDs (this w')))).
Proof.
  induction n as [|n IH]; intros i w Hlen.
  - exists w. cbn. rewrite Nat.add_0_r, app_nil_r. repeat split.
  - destruct (lookup_lt_is_Some_2 (m_textureIDs (this w)) i) as [e He]; [lia|].
    cbn [DestroyGLTextures_loop].
    set (name := env_gen_texture env (trace w)).
    rewrite (store_ID_Ok (this w) (Z.of_nat i) name e) by (lia || now rewrite Nat2Z.id).
    cbn [obind]. rewrite Nat2Z.id.
    set (a1 := <[i := {| ID := name; tag := tag e |}]> (m_textureIDs (this w))).
    set (w1 := emit [glGenTextures name] (set_this (set_textureIDs a1 (this w)) w)).
    replace (Z.of_nat i + 1) with (Z.of_nat (S i)) by lia.
    destruct (IH (S i) w1) as (w' & Hrun & Hcount & Hptr & Hmat & Htags & Htake & Hdrop
                               & Htrace).
    { subst w1 a1. cbn. rewrite length_insert. lia. }
    subst w1. cbn [this emit set_this set_textureIDs m_textureIDs m_loadedTextures
                     m_pShaderManager m_objectMaterials trace] in *.
    assert (Hi' : m_textureIDs (this w') !! i = Some {| ID := name; tag := tag e |}).
    { rewrite <- (lookup_take_lt _ (S i)) by lia. rewrite Htake.
      rewrite lookup_take_lt by lia. subst a1. apply list_lookup_insert_eq.
      apply lookup_lt_Some in He. exact He. }
    exists w'. split; [exact Hrun|]. repeat split; try assumption.
    + rewrite Htags. subst a1. rewrite list_fmap_insert. apply list_insert_id.
      rewrite list_lookup_fmap, He. reflexivity.
    + assert (Hmin : take i (take (S i) (m_textureIDs (this w')))
                     = take i (take (S i) a1)) by (now rewrite Htake).
      rewrite !take_take in Hmin. replace (i `min` S i)%nat with i in Hmin by lia.
      rewrite Hmin. subst a1. now rewrite take_insert_ge by lia.
    + replace (i + S n)%nat with (S i + n)%nat by lia. rewrite Hdrop.
      subst a1. now rewrite drop_insert_lt by lia.
    + rewrite Htrace, (drop_S _ _ i Hi'). cbn [take fmap list_fmap ID].
      rewrite <- app_assoc. reflexivity.
Qed.

(** X7. [DestroyGLTextures] destroys nothing.  On a registry within its
    array it returns having made one [glGenTextures] call per loaded
    texture and no other call, and having stored each new name over the
    ID of the entry: the IDs of the loaded entries after the call are the
    names generated, in order.  The count of loaded textures, every tag,
    the entries past the count and the rest of the object are as before,
    so [FindTextureSlot] still answers as it did for every tag. *)
Theorem DestroyGLTextures_regenerates_names (env : Env) (w : World) :
  registry_ok (this w) ->
  exists w',
    DestroyGLTextures env w = Ok w' /\
    trace w' =
      trace w ++ ((fun e => glGenTextures (ID e)) <$> loaded_textures (this w')) /\
    m_loadedTextures (this w') = m_loadedTextures (this w) /\
    tag <$> m_textureIDs (this w') = tag <$> m_textureIDs (this w) /\
    drop (Z.to_nat (m_loadedTextures (this w))) (m_textureIDs (this w')) =
      drop (Z.to_nat (m_loadedTextures (this w))) (m_textureIDs (this w)) /\
    m_pShaderManager (this w') = m_pShaderManager (this w) /\
    m_objectMaterials (this w') = m_objectMaterials (this w) /\
    (forall tag1, FindTextureSlot (this w') tag1 = FindTextureSlot (this w) tag1).
Proof.
  intros Hok. unfold registry_ok in Hok. unfold DestroyGLTextures.
  rewrite Z.sub_0_r.
  destruct (DestroyGLTextures_loop_names env (Z.to_nat (m_loadedTextures (this w))) 0 w)
    as (w' & Hrun & Hcount & Hptr & Hmat & Htags & _ & Hdrop & Htrace); [lia|].
  exists w'. split; [exact Hrun|].
  unfold loaded_textures. rewrite Hcount.
  repeat split; try assumption.
  intros tag1. unfold FindTextureSlot. rewrite Hcount.
  now apply FindTextureSlot_loop_tags.
Qed.

Lemma DestroyGLTextures_regenerates_names_witness :
  exists w',
    DestroyGLTextures rgb_env {| this := two_textures; trace := [] |} = Ok w' /\
    trace w' = [glGenTextures 1; glGenTextures 2] /\
    FindTextureSlot (this w') "wood" = Ok 1 /\
    FindTextureID (this w') "wood" = Ok 2.
Proof.
  destruct (DestroyGLTextures_regenerates_names rgb_env
              {| this := two_textures; trace := [] |})
    as (w' & Hrun & _); [unfold registry_ok; simpl; lia|].
  vm_compute in Hrun. injection Hrun as <-.
  eexists. split; [vm_compute; reflexivity|]. repeat split.
Defined.

(** ** Materials *)

Lemma first_material_app (l l' : list OBJECT_MATERIAL) (tag0 : string) :
  first_material (l ++ l') tag0 =
    match first_material l tag0 with
    | Some m => Some m
    | None => first_material l' tag0
    end.
Proof.
  induction l as [|m rest IH]; [reflexivity|].
  cbn [app first_material]. destruct (String.eqb (mtag m) tag0); [reflexivity|exact IH].
Qed.

Lemma first_material_at (l : list OBJECT_MATERIAL) (tag0 : string) :
  forall (i : nat) (m : OBJECT_MATERIAL),
    l !! i = Some m -> mtag m = tag0 ->
    (forall j m0, (j < i)%nat -> l !! j = Some m0 -> mtag m0 <> tag0) ->
    first_material l tag0 = Some m.
Proof.
  induction l as [|m1 rest IH]; intros i m Hl Ht Hfirst; [discriminate|].
  cbn [first_material]. destruct i as [|i].
  - injection Hl as ->. apply String.eqb_eq in Ht. now rewrite Ht.
  - destruct (String.eqb_spec (mtag m1) tag0) as [Heq|Hne].
    + exfalso. apply (Hfirst O m1); [lia|reflexivity|exact Heq].
    + apply (IH i m Hl Ht). intros j m0 Hj Hl0.
      apply (Hfirst (S j) m0); [lia|exact Hl0].
Qed.

(** X8. [FindMaterial] on any registry: it returns [true] exactly when
    the registry is not empty, whatever the tag; it never assigns the
    [tag] member of the output parameter; when a material carries the tag,
    the output receives the five numeric members of the first such
    material; when none does, the output is left as it was; and asking
    again with the output of the first call changes nothing. *)
Theorem FindMaterial_behaviour (s : SceneManager) (tag0 : string)
    (material : OBJECT_MATERIAL) :
  (fst (FindMaterial s tag0 material) = true <-> m_objectMaterials s <> []) /\
  mtag (snd (FindMaterial s tag0 material)) = mtag material /\
  (forall (i : nat) m,
      m_objectMaterials s !! i = Some m -> mtag m = tag0 ->
      (forall j m0, (j < i)%nat -> m_objectMaterials s !! j = Some m0 ->
                    mtag m0 <> tag0) ->
      snd (FindMaterial s tag0 material) = assign_material m material) /\
  ((forall m, In m (m_objectMaterials s) -> mtag m <> tag0) ->
   snd (FindMaterial s tag0 material) = material) /\
  FindMaterial s tag0 (snd (FindMaterial s tag0 material)) =
    FindMaterial s tag0 material.
Proof.
  rewrite !FindMaterial_result. cbn [fst snd].
  split; [|split; [|split; [|split]]].
  - destruct (m_objectMaterials s) as [|m1 rest].
    + cbn. split; [discriminate|intros H; now contradiction H].
    + change (Z.of_nat (length (m1 :: rest)) =? 0) with false. cbn.
      split; [discriminate|reflexivity].
  - destruct (first_material (m_objectMaterials s) tag0); reflexivity.
  - intros i m Hl Ht Hfirst. now rewrite (first_material_at _ _ i m Hl Ht Hfirst).
  - intros Hnone. apply first_material_None in Hnone. now rewrite Hnone.
  - destruct (first_material (m_objectMaterials s) tag0); reflexivity.
Qed.

Lemma materials_after_DefineObjectMaterials (w : World) :
  m_objectMaterials (this (DefineObjectMaterials w)) =
    m_objectMaterials (this w) ++ [shinyMaterial; dullMaterial].
Proof.
  unfold DefineObjectMaterials, push_back, set_this, set_objectMaterials. cbn.
  now rewrite <- app_assoc.
Qed.

(** X9. [DefineObjectMaterials] on any registry appends, so what was
    defined before wins: afterwards "metal" and "wood" are defined and
    [FindMaterial] returns [true] for every tag; a tag that was defined
    before the call is answered with the same material as before; and
    although a second call makes the registry four entries longer than it
    was, [FindMaterial] answers every tag after two calls as after one. *)
Theorem DefineObjectMaterials_earlier_definitions_win (w : World) :
  material_defined (this (DefineObjectMaterials w)) "metal" /\
  material_defined (this (DefineObjectMaterials w)) "wood" /\
  (forall tag0 material,
      fst (FindMaterial (this (DefineObjectMaterials w)) tag0 material) = true) /\
  (forall tag0 material,
      material_defined (this w) tag0 ->
      snd (FindMaterial (this (DefineObjectMaterials w)) tag0 material) =
      snd (FindMaterial (this w) tag0 material)) /\
  length (m_objectMaterials (this (DefineObjectMaterials (DefineObjectMaterials w)))) =
    (length (m_objectMaterials (this w)) + 4)%nat /\
  (forall tag0 material,
      FindMaterial (this (DefineObjectMaterials (DefineObjectMaterials w))) tag0 material =
      FindMaterial (this (DefineObjectMaterials w)) tag0 material).
Proof.
  split; [|split; [|split; [|split; [|split]]]].
  - exists shinyMaterial. rewrite materials_after_DefineObjectMaterials.
    split; [apply in_or_app; right; now left|reflexivity].
  - exists dullMaterial. rewrite materials_after_DefineObjectMaterials.
    split; [apply in_or_app; right; right; now left|reflexivity].
  - intros tag0 material. rewrite FindMaterial_result.
    rewrite materials_after_DefineObjectMaterials, length_app. cbn [fst length].
    destruct (Z.eqb_spec (Z.of_nat (length (m_objectMaterials (this w)) + 2)) 0);
      [lia|reflexivity].
  - intros tag0 material Hdef. rewrite !FindMaterial_result. cbn [snd].
    rewrite materials_after_DefineObjectMaterials, first_material_app.
    destruct (material_defined_first _ _ Hdef) as (m & ->). reflexivity.
  - rewrite !materials_after_DefineObjectMaterials, !length_app. cbn [length]. lia.
  - intros tag0 material. rewrite !FindMaterial_result.
    rewrite (materials_after_DefineObjectMaterials (DefineObjectMaterials w)).
    rewrite first_material_app, length_app.
    rewrite materials_after_DefineObjectMaterials, first_material_app, !length_app.
    cbn [length].
    replace (Z.of_nat (length (m_objectMaterials (this w)) + 2 + 2) =? 0) with false
      by (symmetry; apply Z.eqb_neq; lia).
    replace (Z.of_nat (length (m_objectMaterials (this w)) + 2) =? 0) with false
      by (symmetry; apply Z.eqb_neq; lia).
    f_equal.
    destruct (first_material (m_objectMaterials (this w)) tag0); [reflexivity|].
    destruct (first_material [shinyMaterial; dullMaterial] tag0); reflexivity.
Qed.

(** X10. [SetShaderMaterial] with a defined tag and a shader manager
    attached: it uploads, in this order, the diffuse color, the specular
    color, the shininess, the ambient color and the ambient strength of
    the first material that carries the tag, makes no other call and does
    not modify the object; nothing of what it uploads comes from the
    local it declares without initialising. *)
Theorem SetShaderMaterial_defined_tag (env : Env) (tag0 : string) (w : World)
    (i : nat) (m : OBJECT_MATERIAL) :
  m_pShaderManager (this w) <> NULL ->
  m_objectMaterials (this w) !! i = Some m ->
  mtag m = tag0 ->
  (forall j m0, (j < i)%nat -> m_objectMaterials (this w) !! j = Some m0 ->
                mtag m0 <> tag0) ->
  exists w',
    SetShaderMaterial env tag0 w = Ok w' /\
    this w' = this w /\
    trace w' =
      trace w ++ [setVec3Value "material.diffuseColor" (diffuseColor m);
                  setVec3Value "material.specularColor" (specularColor m);
                  setFloatValue "material.shininess" (shininess m);
                  setVec3Value "material.ambientColor" (ambientColor m);
                  setFloatValue "material.ambientStrength" (ambientStrength m)].
Proof.
  intros Hptr Hl Ht Hfirst. unfold SetShaderMaterial, deref.
  rewrite FindMaterial_result, (first_material_at _ _ i m Hl Ht Hfirst).
  rewrite (not_null _ Hptr).
  destruct (m_objectMaterials (this w)) as [|m1 rest]; [discriminate|].
  cbn. eexists. split; [reflexivity|]. split; reflexivity.
Qed.

Lemma SetShaderMaterial_defined_tag_witness :
  trace_of (SetShaderMaterial no_file_env "metal"
              {| this := materials_defined; trace := [] |}) =
    [setVec3Value "material.diffuseColor" (Vec3 0.3 0.3 0.3);
     setVec3Value "material.specularColor" (Vec3 0.5 0.5 0.5);
     setFloatValue "material.shininess" 64.0;
     setVec3Value "material.ambientColor" (Vec3 0.3 0.1 0.1);
     setFloatValue "material.ambientStrength" 0.1].
Proof.
  destruct (SetShaderMaterial_defined_tag no_file_env "metal"
              {| this := materials_defined; trace := [] |} 0 shinyMaterial)
    as (w' & Hrun & _ & Htrace).
  - discriminate.
  - reflexivity.
  - reflexivity.
  - intros j m0 Hj. lia.
  - rewrite Hrun. exact Htrace.
Defined.

(** X11. [SetShaderMaterial] with a tag that no material carries, while
    other materials are defined and a shader manager is attached: it does
    not stay silent; it uploads the five members of its local
    [OBJECT_MATERIAL], which nothing has initialised. *)
Theorem SetShaderMaterial_undefined_tag_uploads_local (env : Env) (tag0 : string)
    (w : World) :
  m_pShaderManager (this w) <> NULL ->
  m_objectMaterials (this w) <> [] ->
  (forall m, In m (m_objectMaterials (this w)) -> mtag m <> tag0) ->
  exists w',
    SetShaderMaterial env tag0 w = Ok w' /\
    this w' = this w /\
    trace w' =
      trace w ++
        [setVec3Value "material.diffuseColor" (diffuseColor (env_indeterminate env));
         setVec3Value "material.specularColor" (specularColor (env_indeterminate env));
         setFloatValue "material.shininess" (shininess (env_indeterminate env));
         setVec3Value "material.ambientColor" (ambientColor (env_indeterminate env));
         setFloatValue "material.ambientStrength"
           (ambientStrength (env_indeterminate env))].
Proof.
  intros Hptr Hne Hnone. unfold SetShaderMaterial, deref.
  rewrite FindMaterial_result. apply first_material_None in Hnone. rewrite Hnone.
  rewrite (not_null _ Hptr).
  destruct (m_objectMaterials (this w)) as [|m1 rest]; [contradiction|].
  cbn. eexists. split; [reflexivity|]. split; reflexivity.
Qed.

Lemma SetShaderMaterial_undefined_tag_uploads_local_witness :
  trace_of (SetShaderMaterial no_file_env "glass"
              {| this := materials_defined; trace := [] |}) <>
  trace_of (SetShaderMaterial rgb_env "glass"
              {| this := materials_defined; trace := [] |}).
Proof.
  destruct (SetShaderMaterial_undefined_tag_uploads_local no_file_env "glass"
              {| this := materials_defined; trace := [] |})
    as (w1 & Hrun1 & _ & Htrace1).
  - discriminate.
  - discriminate.
  - intros m [<-|[<-|[]]]; discriminate.
  - rewrite Hrun1. cbn [trace_of]. rewrite Htrace1. discriminate.
Defined.

(** ** Without a shader manager *)

(** The setters on an object whose shader manager pointer is null. *)
Lemma null_manager_calls (env : Env) (w : World) :
  m_pShaderManager (this w) = NULL ->
  (forall s x y z p, SetTransformations s x y z p w = w) /\
  (forall r g b a, SetShaderColor r g b a w = w) /\
  (forall t, SetShaderTexture t w = Ok w) /\
  (forall u v, SetTextureUVScale u v w = w) /\
  SetupSceneLights w = Undefined /\
  (forall t, m_objectMaterials (this w) = [] -> SetShaderMaterial env t w = Ok w) /\
  (forall t, m_objectMaterials (this w) <> [] -> SetShaderMaterial env t w = Undefined).
Proof.
  intros Hptr.
  unfold SetTransformations, SetShaderColor, SetShaderTexture, SetTextureUVScale,
    SetupSceneLights, SetShaderMaterial, deref.
  rewrite Hptr. cbn [is_null negb obind].
  repeat split; try reflexivity.
  - intros t Hempty. now rewrite Hempty.
  - intros t Hne. rewrite FindMaterial_result.
    destruct (m_objectMaterials (this w)) as [|m rest]; [contradiction|].
    reflexivity.
Qed.

(** X12. On an object whose shader manager pointer is null, the four
    setters that test the pointer ([SetTransformations], [SetShaderColor],
    [SetShaderTexture], [SetTextureUVScale]) return without any call and
    without reading the registries, whatever their arguments;
    [SetupSceneLights], which does not test it, dereferences the null
    pointer; and [SetShaderMaterial], which does not test it either,
    returns without any call when no material is defined and dereferences
    the null pointer as soon as one is, whatever the tag. *)
Theorem null_shader_manager_behaviour (env : Env) (w : World) :
  m_pShaderManager (this w) = NULL ->
  (forall s x y z p, SetTransformations s x y z p w = w) /\
  (forall r g b a, SetShaderColor r g b a w = w) /\
  (forall t, SetShaderTexture t w = Ok w) /\
  (forall u v, SetTextureUVScale u v w = w) /\
  SetupSceneLights w = Undefined /\
  (forall t, m_objectMaterials (this w) = [] -> SetShaderMaterial env t w = Ok w) /\
  (forall t, m_objectMaterials (this w) <> [] -> SetShaderMaterial env t w = Undefined).
Proof.
  intros Hptr.
  unfold SetTransformations, SetShaderColor, SetShaderTexture, SetTextureUVScale,
    SetupSceneLights, SetShaderMaterial, deref.
  rewrite Hptr. cbn [is_null negb obind].
  repeat split; try reflexivity.
  - intros t Hempty. now rewrite Hempty.
  - intros t Hne. rewrite FindMaterial_result.
    destruct (m_objectMaterials (this w)) as [|m rest]; [contradiction|].
    reflexivity.
Qed.

Lemma null_shader_manager_behaviour_witness :
  SetupSceneLights (start_world NULL) = Undefined /\
  SetShaderMaterial rgb_env "wood" (DefineObjectMaterials (start_world NULL)) = Undefined /\
  SetShaderMaterial rgb_env "wood" (start_world NULL) = Ok (start_world NULL).
Proof.
  destruct (null_shader_manager_behaviour rgb_env (start_world NULL) eq_refl)
    as (_ & _ & _ & _ & Hlights & Hempty & _).
  destruct (null_shader_manager_behaviour rgb_env
              (DefineObjectMaterials (start_world NULL)) eq_refl)
    as (_ & _ & _ & _ & _ & _ & Hdefined).
  split; [exact Hlights|]. split; [apply Hdefined; discriminate|].
  apply Hempty. reflexivity.
Defined.

Lemma exec_calls_null_manager (env : Env) (cs : list call) :
  forall w,
    m_pShaderManager (this w) = NULL ->
    m_objectMaterials (this w) = [] ->
    exists w',
      exec_calls env cs w = Ok w' /\
      this w' = this w /\
      trace w' = trace w ++ flat_map draw_of_call cs.
Proof.
  induction cs as [|c rest IH]; intros w Hptr Hempty.
  - exists w. split; [reflexivity|]. split; [reflexivity|]. cbn. now rewrite app_nil_r.
  - assert (Hc : exists w1, exec_call env c w = Ok w1 /\ this w1 = this w /\
                            trace w1 = trace w ++ draw_of_call c).
    { destruct c as [sc x y z p|r g b a|t|u v|t|m]; cbn [exec_call draw_of_call].
      1-5: exists w; unfold SetTransformations, SetShaderColor, SetShaderTexture,
             SetTextureUVScale, SetShaderMaterial;
           rewrite ?Hptr, ?Hempty; cbn;
           split; [reflexivity|]; split; [reflexivity|now rewrite app_nil_r].
      eexists. split; [reflexivity|]. split; reflexivity. }
    destruct Hc as (w1 & Hrun1 & Hthis1 & Htrace1).
    destruct (IH w1) as (w' & Hrun & Hthis & Htrace);
      [now rewrite Hthis1|now rewrite Hthis1|].
    exists w'. cbn [exec_calls flat_map]. rewrite Hrun1. cbn [obind].
    split; [exact Hrun|]. split; [congruence|].
    rewrite Htrace, Htrace1. now rewrite app_assoc.
Qed.

(** With materials defined and no shader manager, a script that reaches
    a [SetShaderMaterial] statement dereferences the null pointer. *)
Lemma exec_calls_null_manager_defined (env : Env) (cs : list call) :
  forall w,
    m_pShaderManager (this w) = NULL ->
    m_objectMaterials (this w) <> [] ->
    existsb (fun c => match c with call_SetShaderMaterial _ => true | _ => false end) cs
      = true ->
    exec_calls env cs w = Undefined.
Proof.
  induction cs as [|c rest IH]; intros w Hptr Hne Hex; [discriminate|].
  destruct (null_manager_calls env w Hptr)
    as (Htransform & Hcolor & Htexture & Huv & _ & _ & Hmaterial).
  cbn [exec_calls].
  destruct c as [sc x y z p|r g b a|t|u v|t|m]; cbn [exec_call existsb orb] in *.
  - rewrite Htransform. cbn [obind]. now apply IH.
  - rewrite Hcolor. cbn [obind]. now apply IH.
  - rewrite Htexture. cbn [obind]. now apply IH.
  - rewrite Huv. cbn [obind]. now apply IH.
  - now rewrite (Hmaterial _ Hne).
  - cbn [obind]. apply IH; [exact Hptr|exact Hne|exact Hex].
Qed.

(** X13. [RenderScene] on an object whose shader manager pointer is null:
    with no material defined it returns having issued nothing but its 27
    draw calls, none of them preceded by any transform, color or texture;
    with a material defined it dereferences the null pointer. *)
Theorem RenderScene_null_manager (env : Env) (w : World) :
  m_pShaderManager (this w) = NULL ->
  (m_objectMaterials (this w) = [] ->
   exists w' cmds,
     RenderScene env w = Ok w' /\
     this w' = this w /\
     trace w' = trace w ++ cmds /\
     Forall (fun e => exists m, e = DrawMesh m) cmds /\
     length cmds = 27%nat) /\
  (m_objectMaterials (this w) <> [] -> RenderScene env w = Undefined).
Proof.
  intros Hptr. split.
  - intros Hempty.
    destruct (exec_calls_null_manager env RenderScene_body w Hptr Hempty)
      as (w' & Hrun & Hthis & Htrace).
    exists w', (flat_map draw_of_call RenderScene_body).
    split; [exact Hrun|]. split; [exact Hthis|]. split; [exact Htrace|].
    split; [|reflexivity].
    cbn. repeat (constructor; [eexists; reflexivity|]). constructor.
  - intros Hne. unfold RenderScene.
    apply (exec_calls_null_manager_defined env RenderScene_body w Hptr Hne).
    vm_compute. reflexivity.
Qed.

Lemma RenderScene_null_manager_witness :
  RenderScene rgb_env (DefineObjectMaterials (start_world NULL)) = Undefined /\
  exists w', RenderScene rgb_env (start_world NULL) = Ok w' /\
             length (trace w') = 27%nat.
Proof.
  destruct (RenderScene_null_manager rgb_env (DefineObjectMaterials (start_world NULL))
              eq_refl) as [_ Hdefined].
  destruct (RenderScene_null_manager rgb_env (start_world NULL) eq_refl)
    as [Hempty _].
  split; [apply Hdefined; discriminate|].
  destruct (Hempty eq_refl) as (w' & cmds & Hrun & _ & Htrace & _ & Hlen).
  exists w'. split; [exact Hrun|]. rewrite Htrace. exact Hlen.
Defined.

(** ** Uniforms *)

(** The value of a uniform after a list of calls is that of the last
    call of the list that set it, and the value before when none did. *)
Lemma shader_uniform_from_last (tr : list event) (name : string) :
  forall current,
    shader_uniform_from current tr name =
      match shader_uniform_from None tr name with
      | Some v => Some v
      | None => current
      end.
Proof.
  induction tr as [|e tr IH]; intros current; [reflexivity|].
  cbn [shader_uniform_from].
  destruct (uniform_write e) as [[n v]|]; [|apply IH].
  destruct (String.eqb n name); [|apply IH].
  rewrite (IH (Some v)).
  destruct (shader_uniform_from None tr name); reflexivity.
Qed.

Lemma shader_uniform_twice (tr evs : list event) (name : string) :
  shader_uniform ((tr ++ evs) ++ evs) name = shader_uniform (tr ++ evs) name.
Proof.
  rewrite (shader_uniform_app (tr ++ evs)), shader_uniform_app.
  rewrite (shader_uniform_from_last evs name (shader_uniform_from _ evs name)).
  rewrite (shader_uniform_from_last evs name (shader_uniform tr name)).
  destruct (shader_uniform_from None evs name); reflexivity.
Qed.

(** X14. [SetupSceneLights] with a shader manager attached returns and
    does not modify the object; afterwards "bUseLighting" is true; it
    leaves untouched every uniform the draw blocks set (the model matrix,
    the color and texture selection, the UV scale and the five material
    values); and calling it again leaves every uniform as the first call
    left it. *)
Theorem SetupSceneLights_uniforms (w : World) :
  m_pShaderManager (this w) <> NULL ->
  exists w' w'',
    SetupSceneLights w = Ok w' /\
    SetupSceneLights w' = Ok w'' /\
    this w' = this w /\
    shader_uniform (trace w') "bUseLighting" = Some (U_bool true) /\
    (forall name,
        In name ["model"; "objectColor"; "objectTexture"; "bUseTexture"; "UVscale";
                 "material.diffuseColor"; "material.specularColor";
                 "material.shininess"; "material.ambientColor";
                 "material.ambientStrength"] ->
        shader_uniform (trace w') name = shader_uniform (trace w) name) /\
    (forall name, shader_uniform (trace w'') name = shader_uniform (trace w') name).
Proof.
  intros Hptr.
  pose (evs := trace_of (SetupSceneLights (start_world (Ptr 1)))).
  assert (Hrun : forall w0, m_pShaderManager (this w0) <> NULL ->
                            SetupSceneLights w0 = Ok (emit evs w0)).
  { intros w0 H0. unfold SetupSceneLights, deref. rewrite (not_null _ H0). reflexivity. }
  exists (emit evs w), (emit evs (emit evs w)).
  split; [exact (Hrun w Hptr)|]. split; [exact (Hrun (emit evs w) Hptr)|].
  split; [reflexivity|]. rewrite !trace_emit.
  split; [rewrite shader_uniform_app; reflexivity|]. split.
  - intros name Hin. rewrite shader_uniform_app.
    repeat (destruct Hin as [<-|Hin]; [reflexivity|]). destruct Hin.
  - intros name. apply shader_uniform_twice.
Qed.

Lemma SetupSceneLights_uniforms_witness :
  exists w',
    SetupSceneLights {| this := two_textures;
                        trace := [setIntValue "bUseTexture" 1] |} = Ok w' /\
    shader_uniform (trace w') "bUseLighting" = Some (U_bool true) /\
    shader_uniform (trace w') "bUseTexture" = Some (U_int 1).
Proof.
  destruct (SetupSceneLights_uniforms
              {| this := two_textures; trace := [setIntValue "bUseTexture" 1] |})
    as (w' & w'' & Hrun & _ & _ & Hlighting & Hframe & _); [discriminate|].
  exists w'. split; [exact Hrun|]. split; [exact Hlighting|].
  rewrite (Hframe "bUseTexture"); [reflexivity|]. simpl. auto.
Defined.

(** X15. Color and texture selection share the flag "bUseTexture", and
    the later call decides it.  With a shader manager attached and the
    registry within its array: [SetShaderColor] followed by
    [SetShaderTexture] leaves the flag true, with the color and the slot
    of the tag both uploaded; [SetShaderTexture] followed by
    [SetShaderColor] leaves the flag false, with the same two values
    uploaded. *)
Theorem SetShaderColor_SetShaderTexture_order (w : World) (r g b a : float)
    (tag0 : string) :
  m_pShaderManager (this w) <> NULL ->
  registry_ok (this w) ->
  exists slot w1 w2,
    FindTextureSlot (this w) tag0 = Ok slot /\
    SetShaderTexture tag0 (SetShaderColor r g b a w) = Ok w1 /\
    SetShaderTexture tag0 w = Ok w2 /\
    shader_uniform (trace w1) "bUseTexture" = Some (U_int 1) /\
    shader_uniform (trace w1) "objectColor" = Some (U_vec4 (Vec4 r g b a)) /\
    shader_uniform (trace w1) "objectTexture" = Some (U_sampler2D slot) /\
    shader_uniform (trace (SetShaderColor r g b a w2)) "bUseTexture" = Some (U_int 0) /\
    shader_uniform (trace (SetShaderColor r g b a w2)) "objectColor"
      = Some (U_vec4 (Vec4 r g b a)) /\
    shader_uniform (trace (SetShaderColor r g b a w2)) "objectTexture"
      = Some (U_sampler2D slot).
Proof.
  intros Hptr Hok.
  assert (Hslot : exists slot, FindTextureSlot (this w) tag0 = Ok slot).
  { destruct (FindTexture_scan (this w) tag0 Hok)
      as [(i & e & _ & _ & _ & _ & Hslot)|(_ & _ & Hslot)]; eauto. }
  destruct Hslot as (slot & Hslot).
  assert (Htex : forall w0, this w0 = this w ->
             SetShaderTexture tag0 w0 =
               Ok (emit [setIntValue "bUseTexture" 1;
                         setSampler2DValue "objectTexture" slot] w0)).
  { intros w0 H0. unfold SetShaderTexture.
    rewrite this_emit, H0, (not_null _ Hptr), Hslot. cbn [negb obind].
    now rewrite emit_emit. }
  assert (Hcol : forall w0, this w0 = this w ->
             SetShaderColor r g b a w0 =
               emit [setIntValue "bUseTexture" 0;
                     setVec4Value "objectColor" (Vec4 r g b a)] w0).
  { intros w0 H0. unfold SetShaderColor. now rewrite H0, (not_null _ Hptr). }
  exists slot. eexists _, _. split; [exact Hslot|].
  rewrite (Hcol w eq_refl).
  split; [apply Htex; reflexivity|]. split; [apply Htex; reflexivity|].
  rewrite (Hcol _ (this_emit _ w)).
  rewrite !trace_emit, !shader_uniform_app.
  repeat split.
Qed.

Lemma SetShaderColor_SetShaderTexture_order_witness :
  exists w1,
    SetShaderTexture "wood"
      (SetShaderColor 0.8 0.5 0.3 1 {| this := two_textures; trace := [] |}) = Ok w1 /\
    shader_uniform (trace w1) "bUseTexture" = Some (U_int 1) /\
    shader_uniform (trace w1) "objectTexture" = Some (U_sampler2D 1).
Proof.
  destruct (SetShaderColor_SetShaderTexture_order
              {| this := two_textures; trace := [] |} 0.8 0.5 0.3 1 "wood")
    as (slot & w1 & w2 & Hslot & Hrun1 & _ & Hflag & _ & Htex & _).
  - discriminate.
  - unfold registry_ok. simpl. lia.
  - exists w1. split; [exact Hrun1|]. split; [exact Hflag|].
    rewrite Htex. vm_compute in Hslot. injection Hslot as <-. reflexivity.
Defined.

(** ** What PrepareScene registers *)

(** One call: the registry gains the tag exactly when the file
    decodes. *)
Lemma CreateGLTexture_registers_iff_decodes (env : Env) (filename tag0 : string)
    (w : World) :
  0 <= m_loadedTextures (this w) < Z.of_nat (length (m_textureIDs (this w))) ->
  exists b w' added evs,
    CreateGLTexture env filename tag0 w = Ok (b, w') /\
    trace w' = trace w ++ evs /\
    loaded_textures (this w') = loaded_textures (this w) ++ added /\
    tag <$> added = (if decodes env filename then [tag0] else []) /\
    m_loadedTextures (this w') = m_loadedTextures (this w) + Z.of_nat (length added) /\
    length (m_textureIDs (this w')) = length (m_textureIDs (this w)) /\
    m_objectMaterials (this w') = m_objectMaterials (this w) /\
    m_pShaderManager (this w') = m_pShaderManager (this w).
Proof.
  intros Hrange. unfold decodes.
  destruct (env_stbi_load env filename) as [img|] eqn:Hload.
  - destruct (Z.eqb_spec (colorChannels img) 3) as [H3|H3];
      [|destruct (Z.eqb_spec (colorChannels img) 4) as [H4|H4]].
    1,2: destruct (CreateGLTexture_supported env filename tag0 w img Hload)
           as (evs & textureID & _ & Hrun); [tauto|exact Hrange|];
         exists true; eexists; exists [{| ID := textureID; tag := tag0 |}], evs;
         split; [exact Hrun|]; cbn [this trace orb];
         rewrite (loaded_textures_register (this w) _ Hrange);
         cbn; rewrite length_insert; repeat split.
    exists false. eexists. exists []. eexists.
    split; [exact (CreateGLTexture_unsupported _ _ _ _ _ Hload H3 H4)|].
    rewrite this_emit, trace_emit. split; [reflexivity|].
    split; [now rewrite app_nil_r|]. split; [reflexivity|].
    cbn [length]. split; [lia|]. repeat split.
  - exists false. eexists. exists []. eexists.
    split; [exact (CreateGLTexture_unreadable _ _ _ _ Hload)|].
    rewrite this_emit, trace_emit. split; [reflexivity|].
    split; [now rewrite app_nil_r|]. split; [reflexivity|].
    cbn [length]. split; [lia|]. repeat split.
Qed.

Lemma load_textures_exact (env : Env) (l : list (string * string)) :
  forall w,
    0 <= m_loadedTextures (this w) ->
    m_loadedTextures (this w) + Z.of_nat (length l)
      <= Z.of_nat (length (m_textureIDs (this w))) ->
    exists w' added evs,
      load_textures env l w = Ok w' /\
      trace w' = trace w ++ evs /\
      loaded_textures (this w') = loaded_textures (this w) ++ added /\
      tag <$> added = snd <$> List.filter (fun p => decodes env (fst p)) l /\
      m_loadedTextures (this w') = m_loadedTextures (this w) + Z.of_nat (length added) /\
      (length added <= length l)%nat /\
      length (m_textureIDs (this w')) = length (m_textureIDs (this w)) /\
      m_objectMaterials (this w') = m_objectMaterials (this w) /\
      m_pShaderManager (this w') = m_pShaderManager (this w).
Proof.
  induction l as [|[filename tag0] rest IH]; intros w H0 Hroom.
  - exists w, [], []. rewrite !app_nil_r. cbn. rewrite Z.add_0_r. repeat split. lia.
  - cbn [length] in Hroom.
    destruct (CreateGLTexture_registers_iff_decodes env filename tag0 w)
      as (b & w1 & a1 & ev1 & Hrun & Htr1 & Hl1 & Ht1 & Hc1 & Hlen1 & Hm1 & Hp1); [lia|].
    assert (Ha1 : (length a1 <= 1)%nat).
    { rewrite <- (length_fmap tag), Ht1. destruct (decodes env filename); cbn; lia. }
    destruct (IH w1)
      as (w' & a2 & ev2 & Hrest & Htr2 & Hl2 & Ht2 & Hc2 & Hn2 & Hlen2 & Hm2 & Hp2);
      [lia|lia|].
    exists w', (a1 ++ a2), (ev1 ++ ev2). cbn [load_textures]. rewrite Hrun. cbn [obind].
    split; [exact Hrest|]. split; [now rewrite Htr2, Htr1, app_assoc|].
    split; [now rewrite Hl2, Hl1, app_assoc|].
    split.
    { rewrite fmap_app, Ht1, Ht2. cbn [List.filter fst].
      destruct (decodes env filename); reflexivity. }
    rewrite length_app. cbn [length].
    split; [lia|]. split; [lia|]. split; [congruence|]. split; congruence.
Qed.

(** X16. [PrepareScene] registers exactly the textures whose files
    decode with 3 or 4 channels, in the order of its calls: from an object
    with no texture loaded it returns, whatever the files are, and the tags
    of the loaded textures are the tags of the decodable files, in call
    order, so a file that fails moves every later texture one slot down;
    the material registry and the shader manager pointer are as before. *)
Theorem PrepareScene_registers_decodable_files (env : Env) (w : World) :
  fresh_registry (this w) ->
  exists w',
    PrepareScene env w = Ok w' /\
    tag <$> loaded_textures (this w') =
      snd <$> List.filter (fun p => decodes env (fst p)) PrepareScene_textures /\
    m_loadedTextures (this w') =
      Z.of_nat (length (List.filter (fun p => decodes env (fst p))
                          PrepareScene_textures)) /\
    m_objectMaterials (this w') = m_objectMaterials (this w) /\
    m_pShaderManager (this w') = m_pShaderManager (this w).
Proof.
  intros [Hlen Hzero]. unfold PrepareScene, MAX_TEXTURES in *.
  set (w0 := emit _ w).
  destruct (load_textures_exact env PrepareScene_textures w0)
    as (w1 & added & evs & Hrun & _ & Hl & Ht & Hc & Hn & Hlen1 & Hm & Hp).
  { subst w0. rewrite this_emit. lia. }
  { subst w0. rewrite this_emit. cbn [length PrepareScene_textures]. lia. }
  subst w0. rewrite this_emit in *. cbn [length PrepareScene_textures] in Hn.
  rewrite Hrun. cbn [obind].
  rewrite BindGLTextures_calls by (unfold registry_ok; lia).
  eexists. split; [reflexivity|]. rewrite this_emit.
  unfold loaded_textures at 2 in Hl. rewrite Hzero in Hl. change (Z.to_nat 0) with O in Hl. rewrite take_0 in Hl. cbn [app] in Hl.
  rewrite Hl, Ht. split; [reflexivity|].
  split; [|split; assumption].
  rewrite Hc, Hzero, <- (length_fmap tag added), Ht, length_fmap. lia.
Qed.

Lemma PrepareScene_registers_decodable_files_witness :
  exists w',
    PrepareScene no_file_env (start_world (Ptr 1)) = Ok w' /\
    tag <$> loaded_textures (this w') = [] /\
    m_loadedTextures (this w') = 0.
Proof.
  destruct (PrepareScene_registers_decodable_files no_file_env (start_world (Ptr 1)))
    as (w' & Hrun & Htags & Hcount & _); [split; reflexivity|].
  exists w'. split; [exact Hrun|]. split; [exact Htags|exact Hcount].
Defined.

(** ** From preparation to rendering *)

Lemma gl_units_no_gl_call (tr evs : list event) :
  Forall (fun e => is_gl_call e = false) evs ->
  gl_units (tr ++ evs) = gl_units tr.
Proof.
  intros Hno. rewrite gl_units_app. generalize (gl_units tr) as g.
  induction Hno as [|e evs He _ IH]; intros g; [reflexivity|].
  cbn [fold_left]. replace (gl_step g e) with g; [apply IH|].
  destruct e; try discriminate; reflexivity.
Qed.

(** One statement of the script in a ready state: which draw call and
    which sampler value its calls can contain. *)
Lemma exec_call_events (c : call) (s : SceneManager) :
  scene_ready s -> metal_or_wood c = true ->
  exists evs,
    (forall env w, this w = s ->
       exists w', exec_call env c w = Ok w' /\
                  this w' = s /\ trace w' = trace w ++ evs) /\
    (forall m, In (DrawMesh m) evs -> c = call_Draw m) /\
    (forall n v, In (setSampler2DValue n v) evs ->
       exists t, c = call_SetShaderTexture t /\ FindTextureSlot s t = Ok v) /\
    Forall (fun e => is_gl_call e = false) evs.
Proof.
  intros [Hok Hmat] Htags.
  assert (Hnil : forall w : World, trace w = trace w ++ []) by
    (intros; now rewrite app_nil_r).
  assert (Hslot : forall t, exists slot, FindTextureSlot s t = Ok slot).
  { intros t. destruct (FindTexture_scan s t Hok)
      as [(i & e & _ & _ & _ & _ & Hslot)|(_ & _ & Hslot)]; eauto. }
  destruct c as [sc x y z p|r g b a|t|u v|t|m].
  - exists (trace (SetTransformations sc x y z p {| this := s; trace := [] |})).
    split; [|unfold SetTransformations; cbn [this];
             destruct (is_null (m_pShaderManager s)); cbn;
             repeat split; try (intros; intuition discriminate);
             repeat constructor].
    intros env w <-. cbn [exec_call]. eexists. split; [reflexivity|].
    unfold SetTransformations. cbn [this].
    destruct (is_null (m_pShaderManager (this w))); cbn;
      split; try reflexivity; apply Hnil.
  - exists (trace (SetShaderColor r g b a {| this := s; trace := [] |})).
    split; [|unfold SetShaderColor; cbn [this];
             destruct (is_null (m_pShaderManager s)); cbn;
             repeat split; try (intros; intuition discriminate);
             repeat constructor].
    intros env w <-. cbn [exec_call]. eexists. split; [reflexivity|].
    unfold SetShaderColor. cbn [this].
    destruct (is_null (m_pShaderManager (this w))); cbn;
      split; try reflexivity; apply Hnil.
  - destruct (Hslot t) as (slot & Ht).
    exists (if is_null (m_pShaderManager s) then []
            else [setIntValue g_UseTextureName 1;
                  setSampler2DValue g_TextureValueName slot]).
    split.
    + intros env w <-. cbn [exec_call]. unfold SetShaderTexture.
      destruct (is_null (m_pShaderManager (this w))); cbn [negb].
      * exists w. split; [reflexivity|]. split; [reflexivity|apply Hnil].
      * rewrite this_emit, Ht. cbn [obind]. rewrite emit_emit.
        eexists. split; [reflexivity|]. split; reflexivity.
    + destruct (is_null (m_pShaderManager s)); cbn;
        repeat split; try (intros; intuition discriminate); repeat constructor.
      intros n v [H|[H|[]]]; [discriminate|].
      injection H as _ <-. exists t. split; [reflexivity|exact Ht].
  - exists (trace (SetTextureUVScale u v {| this := s; trace := [] |})).
    split; [|unfold SetTextureUVScale; cbn [this];
             destruct (is_null (m_pShaderManager s)); cbn;
             repeat split; try (intros; intuition discriminate);
             repeat constructor].
    intros env w <-. cbn [exec_call]. eexists. split; [reflexivity|].
    unfold SetTextureUVScale. cbn [this].
    destruct (is_null (m_pShaderManager (this w))); cbn;
      split; try reflexivity; apply Hnil.
  - destruct Hmat as [Hempty|(Hptr & Hmetal & Hwood)].
    + exists []. split; [|repeat split; try (intros ? ? []); try (intros ? []);
                          constructor].
      intros env w <-. cbn [exec_call]. unfold SetShaderMaterial. rewrite Hempty. cbn.
      exists w. split; [reflexivity|]. split; [reflexivity|apply Hnil].
    + assert (Hdef : material_defined s t).
      { cbn [metal_or_wood] in Htags. apply orb_true_iff in Htags.
        destruct Htags as [H|H]; apply String.eqb_eq in H; now subst. }
      destruct (material_defined_first s t Hdef) as (m & Hfirst).
      exists [setVec3Value "material.diffuseColor" (diffuseColor m);
              setVec3Value "material.specularColor" (specularColor m);
              setFloatValue "material.shininess" (shininess m);
              setVec3Value "material.ambientColor" (ambientColor m);
              setFloatValue "material.ambientStrength" (ambientStrength m)].
      split; [|cbn; repeat split; try (intros; intuition discriminate);
               repeat constructor].
      intros env w <-. cbn [exec_call]. unfold SetShaderMaterial, deref.
      rewrite FindMaterial_result, Hfirst, (not_null _ Hptr).
      destruct Hdef as (m0 & Hin & _).
      destruct (m_objectMaterials (this w)) as [|m1 rest]; [destruct Hin|].
      cbn. eexists. split; [reflexivity|]. split; reflexivity.
  - exists [DrawMesh m]. split.
    + intros env w <-. cbn [exec_call]. eexists. split; [reflexivity|].
      split; reflexivity.
    + cbn. repeat split; try (intros; intuition discriminate); repeat constructor.
      intros m' [H|[]]. now injection H as <-.
Qed.

Lemma exec_calls_events (cs : list call) (s : SceneManager) :
  scene_ready s -> forallb metal_or_wood cs = true ->
  exists cmds,
    (forall env w, this w = s ->
       exists w', exec_calls env cs w = Ok w' /\
                  this w' = s /\ trace w' = trace w ++ cmds) /\
    (forall m, In (DrawMesh m) cmds -> In (call_Draw m) cs) /\
    (forall n v, In (setSampler2DValue n v) cmds ->
       exists t, In (call_SetShaderTexture t) cs /\ FindTextureSlot s t = Ok v) /\
    Forall (fun e => is_gl_call e = false) cmds.
Proof.
  intros Hready. induction cs as [|c rest IH]; intros Htags.
  - exists []. split; [|repeat split; try (intros ? ? []); try (intros ? []);
                        constructor].
    intros env w Hw. exists w. split; [reflexivity|].
    split; [exact Hw|now rewrite app_nil_r].
  - cbn [forallb] in Htags. apply andb_true_iff in Htags. destruct Htags as [Hc Hrest].
    destruct (exec_call_events c s Hready Hc) as (evs & Hrun & Hdraw & Hsamp & Hgl).
    destruct (IH Hrest) as (cmds & Hruns & Hdraws & Hsamps & Hgls).
    exists (evs ++ cmds). split; [|split; [|split]].
    + intros env w Hw.
      destruct (Hrun env w Hw) as (w1 & Hrun1 & Hthis1 & Htrace1).
      destruct (Hruns env w1 Hthis1) as (w' & Hrun' & Hthis' & Htrace').
      exists w'. cbn [exec_calls]. rewrite Hrun1. cbn [obind].
      split; [exact Hrun'|]. split; [exact Hthis'|].
      rewrite Htrace', Htrace1. now rewrite app_assoc.
    + intros m Hin. apply in_app_or in Hin. destruct Hin as [Hin|Hin].
      * left. now apply Hdraw.
      * right. now apply Hdraws.
    + intros n v Hin. apply in_app_or in Hin. destruct Hin as [Hin|Hin].
      * destruct (Hsamp n v Hin) as (t & -> & Ht). exists t. split; [now left|exact Ht].
      * destruct (Hsamps n v Hin) as (t & Hint & Ht). exists t. split; [now right|exact Ht].
    + apply Forall_app. split; assumption.
Qed.

(** X17. Preparation then rendering.  From an object with no texture
    loaded, whose materials are either not defined or defined with a
    shader manager attached, [PrepareScene] followed by [RenderScene]
    returns, whatever files can be read.  [RenderScene] makes no OpenGL
    call and leaves the registries and the texture units as
    [PrepareScene] left them; every mesh it draws was loaded by
    [PrepareScene]; every sampler slot it uploads is either -1 or the
    index of a loaded texture whose texture object is bound to the unit of
    that index; and when all twelve files decode no slot is -1: each is
    between 0 and 11. *)
Theorem PrepareScene_then_RenderScene (env env' : Env) (w : World) :
  fresh_registry (this w) ->
  (m_objectMaterials (this w) = [] \/
   (m_pShaderManager (this w) <> NULL /\
    material_defined (this w) "metal" /\ material_defined (this w) "wood")) ->
  exists w1 w2 prep cmds,
    PrepareScene env w = Ok w1 /\
    RenderScene env' w1 = Ok w2 /\
    trace w1 = trace w ++ prep /\
    trace w2 = trace w1 ++ cmds /\
    this w2 = this w1 /\
    Forall (fun e => is_gl_call e = false) cmds /\
    (forall u, texture_on_unit (trace w2) u = texture_on_unit (trace w1) u) /\
    (forall m, In (DrawMesh m) cmds -> In (LoadMesh m) prep) /\
    (forall n v, In (setSampler2DValue n v) cmds ->
       v = -1 \/
       exists e, loaded (this w1) v e /\ texture_on_unit (trace w2) v = ID e) /\
    ((forall p, In p PrepareScene_textures -> decodes env (fst p) = true) ->
     forall n v, In (setSampler2DValue n v) cmds -> 0 <= v < 12).
Proof.
  intros [Hlen Hzero] Hmat. unfold PrepareScene, MAX_TEXTURES in *.
  set (loads := [LoadMesh PlaneMesh; LoadMesh BoxMesh; LoadMesh TaperedCylinderMesh;
                 LoadMesh PrismMesh; LoadMesh Pyramid3Mesh]).
  destruct (load_textures_exact env PrepareScene_textures (emit loads w))
    as (w0 & added & evs & Hrun & Htr0 & Hl & Ht & Hc & Hn & Hlen0 & Hm & Hp).
  { rewrite this_emit. lia. }
  { rewrite this_emit. cbn [length PrepareScene_textures]. lia. }
  rewrite this_emit in *. rewrite trace_emit in Htr0.
  cbn [length PrepareScene_textures] in Hn.
  unfold loaded_textures at 2 in Hl. rewrite Hzero in Hl. change (Z.to_nat 0) with O in Hl. rewrite take_0 in Hl. cbn [app] in Hl.
  assert (Hok : registry_ok (this w0)) by (unfold registry_ok; lia).
  rewrite Hrun. cbn [obind].
  destruct (BindGLTextures_units w0 Hok) as (w1 & Hbind & Hthis1 & Htr1 & Hunit).
  assert (Hready : scene_ready (this w1)).
  { rewrite Hthis1. split; [exact Hok|].
    destruct Hmat as [Hempty|(Hptr & (m1 & Hin1 & Ht1) & (m2 & Hin2 & Ht2))].
    - left. congruence.
    - right. split; [congruence|].
      split; [exists m1|exists m2]; rewrite Hm; split; assumption. }
  destruct (exec_calls_events RenderScene_body (this w1) Hready)
    as (cmds & Hruns & Hdraws & Hsamps & Hgl); [vm_compute; reflexivity|].
  destruct (Hruns env' w1 eq_refl) as (w2 & Hrender & Hthis2 & Htr2).
  assert (Hunits : forall u, texture_on_unit (trace w2) u = texture_on_unit (trace w1) u).
  { intros u. unfold texture_on_unit. rewrite Htr2. now rewrite gl_units_no_gl_call. }
  exists w1, w2, (loads ++ evs ++ bind_calls 0 (loaded_textures (this w0))), cmds.
  split; [exact Hbind|]. split; [exact Hrender|].
  split; [rewrite Htr1, Htr0; now rewrite <- !app_assoc|].
  split; [exact Htr2|]. split; [exact Hthis2|]. split; [exact Hgl|].
  split; [exact Hunits|].
  split; [intros m _; apply in_or_app; left; destruct m; simpl; auto 10|].
  split.
  - intros n v Hin. destruct (Hsamps n v Hin) as (t & _ & Hslot).
    rewrite Hthis1 in *.
    destruct (FindTexture_scan (this w0) t Hok)
      as [(i & e & Hli & _ & _ & _ & Hslot')|(_ & _ & Hslot')];
      rewrite Hslot' in Hslot; injection Hslot as <-.
    + right. exists e. split; [exact Hli|]. rewrite Hunits. now apply Hunit.
    + now left.
  - intros Hall n v Hin. destruct (Hsamps n v Hin) as (t & Hint & Hslot).
    rewrite Hthis1 in *.
    assert (Hfilter : List.filter (fun p => decodes env (fst p)) PrepareScene_textures
                      = PrepareScene_textures).
    { apply forallb_filter_id. apply forallb_forall. exact Hall. }
    rewrite Hfilter in Ht.
    assert (Hcount : m_loadedTextures (this w0) = 12).
    { rewrite Hc, Hzero, <- (length_fmap tag added), Ht. reflexivity. }
    assert (Hamong : texture_tag_among (snd <$> PrepareScene_textures)
                       (call_SetShaderTexture t) = true).
    { assert (Hall' : forallb (texture_tag_among (snd <$> PrepareScene_textures))
                        RenderScene_body = true) by (vm_compute; reflexivity).
      exact (proj1 (forallb_forall _ _) Hall' _ Hint). }
    cbn [texture_tag_among] in Hamong. apply existsb_exists in Hamong.
    destruct Hamong as (t' & Hin' & Heq). apply String.eqb_eq in Heq. subst t'.
    rewrite <- Ht, <- Hl in Hin'. apply list_elem_of_In in Hin'.
    apply list_elem_of_fmap in Hin'. destruct Hin' as (e & -> & Hine).
    apply list_elem_of_lookup in Hine. destruct Hine as (i & Hi).
    unfold loaded_textures in Hi. apply lookup_take_Some in Hi. destruct Hi as [Hi Hlt].
    assert (Hloaded : loaded (this w0) (Z.of_nat i) e).
    { split; [lia|now rewrite Nat2Z.id]. }
    destruct (FindTexture_scan (this w0) (tag e) Hok)
      as [(j & ej & [Hj _] & _ & _ & _ & Hslot')|(Hnone & _)].
    + rewrite Hslot' in Hslot. injection Hslot as <-. lia.
    + exfalso. exact (Hnone _ e Hloaded eq_refl).
Qed.

Lemma PrepareScene_then_RenderScene_witness :
  exists w1 w2,
    PrepareScene rgb_env (start_world (Ptr 1)) = Ok w1 /\
    RenderScene no_file_env w1 = Ok w2 /\
    this w2 = this w1.
Proof.
  destruct (PrepareScene_then_RenderScene rgb_env no_file_env (start_world (Ptr 1)))
    as (w1 & w2 & prep & cmds & Hprep & Hrender & _ & _ & Hthis & _).
  - split; reflexivity.
  - left. reflexivity.
  - exists w1, w2. split; [exact Hprep|]. split; [exact Hrender|exact Hthis].
Defined.
